(** * WeatherXM Pro MCP server: a shallow embedding and its properties

    The development follows the TypeScript sources:

    - [src/utils/api-client.ts]: [ApiClient.weatherxmApiRequest];
    - the formatting utilities ([formatTemperature], [getWindDirection],
      [formatTimeAgo], ...);
    - the ten tool handlers registered by [createStatelessServer].

    JavaScript numbers are IEEE-754 binary64 values; they are represented
    by [spec_float] with precision 53 and maximal exponent 1024, and every
    arithmetic operator of the source is the correctly rounded operation of
    [SpecFloat].  Strings are byte strings (UTF-8): the degree sign takes
    two bytes.  [Date] time values are integral numbers of milliseconds and
    are represented by [Z], with the integer arithmetic their differences
    and quotients have; an invalid date is [None].  What the host engine
    decides (the shortest decimal form of a Number, the parsing and the
    locale rendering of dates, the clock, the network) is a parameter of
    the definitions that depend on it.  A response body is parsed JSON
    that a handler only casts: [Tools] has the handlers on bodies of the
    type they are cast to, [Unvalidated] has them on any body, with the
    failures of the statements that follow the cast. *)

From Stdlib Require Import ZArith List String Ascii Bool Lia DecimalString.
From Stdlib Require Import Floats.SpecFloat.
Import ListNotations.

Local Open Scope string_scope.
Local Open Scope Z_scope.

(** ** Strings *)

Module JsString.

(** [String.prototype.includes]. *)
Fixpoint includes (s needle : string) : bool :=
  prefix needle s ||
  match s with
  | EmptyString => false
  | String _ s' => includes s' needle
  end.

(** Decimal digits of an integer, as [Number::toString] prints an
    integral value below 2^53. *)
Definition of_Z (z : Z) : string := NilZero.string_of_int (Z.to_int z).

Definition of_nat (n : nat) : string := of_Z (Z.of_nat n).

(** The characters of a printed integer. *)
Definition digit_chars : list ascii :=
  ["0"; "1"; "2"; "3"; "4"; "5"; "6"; "7"; "8"; "9"; "-"]%char.

Fixpoint zeros (n : nat) : string :=
  match n with
  | O => ""
  | S n' => String "0" (zeros n')
  end.

(** [Array.prototype.join]. *)
Definition join (sep : string) (l : list string) : string := concat sep l.

(** [s] occurs in [t]. *)
Definition occurs_in (s t : string) : Prop :=
  exists pre post, t = pre ++ s ++ post.

Definition hex_digit (n : N) : ascii :=
  match n with
  | 0%N => "0" | 1%N => "1" | 2%N => "2" | 3%N => "3"
  | 4%N => "4" | 5%N => "5" | 6%N => "6" | 7%N => "7"
  | 8%N => "8" | 9%N => "9" | 10%N => "A" | 11%N => "B"
  | 12%N => "C" | 13%N => "D" | 14%N => "E" | _ => "F"
  end%char.

Definition uri_unreserved (c : ascii) : bool :=
  let n := N_of_ascii c in
  ((65 <=? n) && (n <=? 90) || (97 <=? n) && (n <=? 122) ||
   (48 <=? n) && (n <=? 57))%N ||
  existsb (Ascii.eqb c) ["-"; "_"; "."; "!"; "~"; "*"; "'"; "("; ")"]%char.

(** [encodeURIComponent] on a UTF-8 byte string: every byte that is not
    an unreserved mark is escaped. *)
Fixpoint encodeURIComponent (s : string) : string :=
  match s with
  | EmptyString => ""
  | String c s' =>
      (if uri_unreserved c then String c ""
       else let n := N_of_ascii c in
            String "%" (String (hex_digit (n / 16))
                               (String (hex_digit (n mod 16)) "")))
      ++ encodeURIComponent s'
  end.

End JsString.

(** ** Numbers *)

Module JsNumber.

Definition number := spec_float.

Definition prec : Z := 53.
Definition emax : Z := 1024.

Definition NaN : number := S754_nan.

(** The Number value of an integer (correctly rounded). *)
Definition of_Z (z : Z) : number := binary_normalize prec emax z 0 false.

Definition add : number -> number -> number := SFadd prec emax.
Definition mul : number -> number -> number := SFmul prec emax.
Definition div : number -> number -> number := SFdiv prec emax.

(** A decimal literal [n / 10^k] of the source: both parts are exactly
    representable where it is used, so the quotient, correctly rounded,
    is the Number value of the literal. *)
Definition lit (n : Z) (pow10 : Z) : number := div (of_Z n) (of_Z pow10).

Definition ltb (x y : number) : bool := SFltb x y.   (* x < y *)
Definition leb (x y : number) : bool := SFleb x y.   (* x <= y *)
Definition gtb (x y : number) : bool := SFltb y x.   (* x > y *)
Definition geb (x y : number) : bool := SFleb y x.   (* x >= y *)

Definition is_nan (x : number) : bool :=
  match x with S754_nan => true | _ => false end.

Definition no_nan (xs : list number) : Prop :=
  Forall (fun x => is_nan x = false) xs.

(** A value a well-formed binary64 datum can take. *)
Definition valid (x : number) : bool := valid_binary prec emax x.

Definition signed (s : bool) (m : Z) : Z := if s then - m else m.

(** The exact integer a Number denotes, when it is integral. *)
Definition to_integer (x : number) : option Z :=
  match x with
  | S754_zero _ => Some 0
  | S754_finite s m e =>
      if 0 <=? e then Some (signed s (Zpos m * 2 ^ e))
      else if Zpos m mod 2 ^ (- e) =? 0 then Some (signed s (Zpos m / 2 ^ (- e)))
      else None
  | _ => None
  end.

(** [Math.round]: the integral value closest to [x], ties towards
    +infinity; the sign of a zero result is the sign of [x]. *)
Definition Math_round (x : number) : number :=
  match x with
  | S754_finite s m e =>
      if 0 <=? e then x
      else
        let n := (2 * signed s (Zpos m) + 2 ^ (- e)) / 2 ^ (1 - e) in
        if n =? 0 then S754_zero s else of_Z n
  | _ => x
  end.

(** [Math.ceil]. *)
Definition Math_ceil (x : number) : number :=
  match x with
  | S754_finite s m e =>
      if 0 <=? e then x
      else
        let n := - ((- signed s (Zpos m)) / 2 ^ (- e)) in
        if n =? 0 then S754_zero s else of_Z n
  | _ => x
  end.

(** The remainder operator [%]: exact, with the sign of the dividend. *)
Definition rem (n d : number) : number :=
  match n, d with
  | S754_nan, _ | _, S754_nan => S754_nan
  | S754_infinity _, _ => S754_nan
  | _, S754_zero _ => S754_nan
  | _, S754_infinity _ => n
  | S754_zero _, _ => n
  | S754_finite sn mn en, S754_finite _ md ed =>
      let e := Z.min en ed in
      let r := Z.rem (Zpos mn * 2 ^ (en - e)) (Zpos md * 2 ^ (ed - e)) in
      if r =? 0 then S754_zero sn
      else binary_normalize prec emax (signed sn r) e false
  end.

(** [Math.max] and [Math.min] over the spread arguments. *)
Definition max_step (highest x : number) : number :=
  if is_nan highest || is_nan x then NaN
  else match highest, x with
       | S754_zero true, S754_zero false => x
       | _, _ => if gtb x highest then x else highest
       end.

Definition min_step (lowest x : number) : number :=
  if is_nan lowest || is_nan x then NaN
  else match lowest, x with
       | S754_zero false, S754_zero true => x
       | _, _ => if ltb x lowest then x else lowest
       end.

Definition Math_max (xs : list number) : number :=
  fold_left max_step xs (S754_infinity true).

Definition Math_min (xs : list number) : number :=
  fold_left min_step xs (S754_infinity false).

(** Array element access [arr[i]] with a Number index: [None] is
    [undefined]. *)
Definition array_get {A : Type} (arr : list A) (i : number) : option A :=
  match to_integer i with
  | Some k => if 0 <=? k then nth_error arr (Z.to_nat k) else None
  | None => None
  end.

(** *** [Number.prototype.toFixed] *)

(** Whether [10^21 <= m * 2^e]. *)
Definition ge_1e21 (m : positive) (e : Z) : bool :=
  if 0 <=? e then 10 ^ 21 <=? Zpos m * 2 ^ e
  else 10 ^ 21 * 2 ^ (- e) <=? Zpos m.

(** The integer [n] for which [n / 10^f - m * 2^e] is closest to zero,
    the larger one of two. *)
Definition fixed_nearest (m : positive) (e : Z) (f : nat) : Z :=
  let scaled := Zpos m * 10 ^ Z.of_nat f in
  if 0 <=? e then scaled * 2 ^ e
  else (2 * scaled + 2 ^ (- e)) / 2 ^ (1 - e).

(** The digits of [n] with a point before the last [f] of them. *)
Definition fixed_digits (n : Z) (f : nat) : string :=
  let m := JsString.of_Z n in
  match f with
  | O => m
  | _ =>
      let k := String.length m in
      let m' := if Nat.leb k f then JsString.zeros (f + 1 - k) ++ m else m in
      let k' := String.length m' in
      substring 0 (k' - f) m' ++ "." ++ substring (k' - f) f m'
  end.

Section ToString.

(** The shortest round-trip decimal form the engine prints for a
    finite Number that is not an integer below 2^53. *)
Variable shortest : number -> string.

(** [Number::toString], as a template literal applies it.  An integer
    below 2^53 is printed with all its digits. *)
Definition toString (x : number) : string :=
  match x with
  | S754_nan => "NaN"
  | S754_infinity s => if s then "-Infinity" else "Infinity"
  | S754_zero _ => "0"
  | S754_finite s m e =>
      match to_integer x with
      | Some z => if Z.abs z <? 2 ^ 53 then JsString.of_Z z else shortest x
      | None => shortest x
      end
  end.

Definition toFixed (x : number) (f : nat) : string :=
  match x with
  | S754_nan => "NaN"
  | S754_infinity s => if s then "-Infinity" else "Infinity"
  | S754_zero _ => fixed_digits 0 f
  | S754_finite s m e =>
      (if s then "-" else "") ++
      (if ge_1e21 m e then toString (S754_finite false m e)
       else fixed_digits (fixed_nearest m e f) f)
  end.

End ToString.

End JsNumber.

(** ** Exceptions and promises *)

(** A thrown value: an [Error] object (any subclass) with its message, or
    a value that is not an instance of [Error]. *)
Inductive thrown : Type :=
| JsError (message : string)
| JsNonError (description : string).

(** The outcome of an awaited computation. *)
Inductive result (A : Type) : Type :=
| Ok (a : A)
| Throw (e : thrown).

Arguments Ok {A} a.
Arguments Throw {A} e.

Definition bind {A B : Type} (r : result A) (k : A -> result B) : result B :=
  match r with
  | Ok a => k a
  | Throw e => Throw e
  end.

Notation "x <- r ;; k" := (bind r (fun x => k))
  (at level 61, r at next level, right associativity).

(** [try { body } catch (e) { handler e }]. *)
Definition try_catch {A : Type} (body : result A) (handler : thrown -> result A)
  : result A :=
  match body with
  | Ok a => Ok a
  | Throw e => handler e
  end.

(** A property read from parsed JSON: the key may be missing
    ([undefined]) or hold [null]. *)
Inductive nullable (A : Type) : Type :=
| Undefined
| Null
| Value (a : A).

Arguments Undefined {A}.
Arguments Null {A}.
Arguments Value {A} a.

(** [field || []]: an array, even an empty one, is truthy. *)
Definition or_empty {A : Type} (field : nullable (list A)) : list A :=
  match field with
  | Value l => l
  | Undefined | Null => []
  end.

(** A zod [.optional().default(d)] parameter. *)
Definition with_default {A : Type} (d : A) (arg : option A) : A :=
  match arg with
  | Some a => a
  | None => d
  end.

(** ** API type definitions *)

Module Schema.
Import JsNumber.

Record Location := {
  lat : number;
  lon : number;
  elevation : number
}.

Record Observation := {
  timestamp : string;
  temperature : number;
  feels_like : number;
  dew_point : number;
  precipitation_rate : number;
  precipitation_accumulated : number;
  humidity : number;
  wind_speed : number;
  wind_gust : number;
  wind_direction : number;
  uv_index : number;
  pressure : number;
  solar_irradiance : number;
  icon : string
}.

(** [HistoricalDataPoint] has the fields of [Observation]. *)
Definition HistoricalDataPoint := Observation.

Record DataQuality := { dq_score : number }.
Record LocationQuality := { lq_score : number; lq_reason : string }.

Record Health := {
  health_timestamp : string;
  data_quality : DataQuality;
  location_quality : LocationQuality
}.

Record Station := {
  station_id_ : string;
  station_name : string;
  cellIndex : string;
  station_location : Location;
  createdAt : string
}.

Record Cell := {
  cell_index : string;
  center : Location;
  station_count : number
}.

Record HourlyForecastData := {
  h_timestamp : string;
  h_precipitation : number;
  h_precipitation_probability : number;
  h_temperature : number;
  h_icon : string;
  h_wind_speed : number;
  h_wind_direction : number;
  h_humidity : number;
  h_pressure : number;
  h_uv_index : number;
  h_feels_like : number
}.

Record DailyForecast := {
  d_temperature_max : number;
  d_temperature_min : number;
  d_precipitation_probability : number;
  d_precipitation_intensity : number;
  d_humidity : number;
  d_uv_index : number;
  d_pressure : number;
  d_icon : string;
  d_precipitation_type : string;
  d_wind_speed : number;
  d_wind_direction : number;
  d_timestamp : string
}.

Record WeatherAlert := {
  alert_id : string;
  alert_type : string;
  severity : string;
  title : string;
  description : string;
  effective : string;
  expires : string;
  areas : list string
}.

Record WeatherXMLatestResponse := {
  observation : Observation;
  health : Health;
  location : Location
}.

Record WeatherXMStationsResponse := { stations : nullable (list Station) }.
Record WeatherXMHourlyForecastResponse :=
  { hourly_forecast : nullable (list HourlyForecastData) }.
Record WeatherXMDailyForecastResponse :=
  { daily_forecast : nullable (list DailyForecast) }.
Record WeatherXMHistoricalResponse :=
  { data : nullable (list HistoricalDataPoint) }.
Record WeatherXMAlertsResponse := { alerts : nullable (list WeatherAlert) }.
Record WeatherXMCellsResponse := { cells : nullable (list Cell) }.

Record SearchResult := {
  result_stations : nullable (list Station);
  total : number;
  page : number;
  limit : number
}.

Record WeatherXMSearchResponse := { results : SearchResult }.

End Schema.

(** ** The API client ([src/utils/api-client.ts]) *)

Module ApiClient.

Definition WEATHERXM_API_BASE : string := "https://pro.weatherxm.com/api/v1".
Definition USER_AGENT : string := "WeatherXM-MCP-Server/1.0.0".

(** What the client reads of a [Response]: [json] is the outcome of
    [response.json()], the body parsed at type [A] or the exception the
    parser raises. *)
Record Response (A : Type) := {
  status : Z;
  statusText : string;
  json : result A
}.

Arguments status {A} _.
Arguments statusText {A} _.
Arguments json {A} _.

(** [response.ok]: the status is in the range 200-299. *)
Definition ok {A : Type} (r : Response A) : bool :=
  (200 <=? status r) && (status r <=? 299).

(** [await fetch(url, { headers })] either rejects or resolves. *)
Inductive FetchOutcome (A : Type) : Type :=
| Rejected (e : thrown)
| Resolved (r : Response A).

Arguments Rejected {A} e.
Arguments Resolved {A} r.

(** The network, as the client sees it: URL and headers in, outcome out. *)
Definition Fetch (A : Type) : Type :=
  string -> list (string * string) -> FetchOutcome A.

Definition request_headers (apiKey : string) : list (string * string) :=
  [("User-Agent", USER_AGENT);
   ("Accept", "application/json");
   ("X-API-KEY", apiKey)].

Section Client.
Context {A : Type}.
Variable fetch : Fetch A.

(** The body of the [try] block. *)
Definition request_attempt (endpoint apiKey : string) : result A :=
  match fetch (WEATHERXM_API_BASE ++ endpoint) (request_headers apiKey) with
  | Rejected e => Throw e
  | Resolved response =>
      if negb (ok response) then
        if status response =? 401 then
          Throw (JsError "Invalid API key. Please check your WeatherXM API key.")
        else if status response =? 404 then
          Throw (JsError "Station not found or no data available")
        else if status response =? 429 then
          Throw (JsError "API rate limit exceeded. Please try again later.")
        else if status response =? 500 then
          Throw (JsError "WeatherXM service temporarily unavailable")
        else
          Throw (JsError ("WeatherXM API error: "
                          ++ JsString.of_Z (status response) ++ " "
                          ++ statusText response))
      else json response
  end.

(** The [catch] clause. *)
Definition request_rescue (error : thrown) : result A :=
  match error with
  | JsError message =>
      if JsString.includes message "fetch" then
        Throw (JsError "Unable to connect to WeatherXM service. Please check your internet connection.")
      else Throw error
  | JsNonError _ => Throw error
  end.

Definition weatherxmApiRequest (endpoint apiKey : string) : result A :=
  try_catch (request_attempt endpoint apiKey) request_rescue.

End Client.

(** The error taxonomy of the specification, and the [Error] each kind
    stands for. *)
Inductive ErrorKind : Type :=
| InvalidApiKey
| NotFound
| RateLimited
| ServiceUnavailable
| UpstreamError (status : Z) (statusText : string)
| NetworkUnavailable.

Definition error_of_kind (k : ErrorKind) : thrown :=
  JsError
    match k with
    | InvalidApiKey => "Invalid API key. Please check your WeatherXM API key."
    | NotFound => "Station not found or no data available"
    | RateLimited => "API rate limit exceeded. Please try again later."
    | ServiceUnavailable => "WeatherXM service temporarily unavailable"
    | UpstreamError st txt =>
        "WeatherXM API error: " ++ JsString.of_Z st ++ " " ++ txt
    | NetworkUnavailable =>
        "Unable to connect to WeatherXM service. Please check your internet connection."
    end.

(** The kind the specification assigns to a non-success status. *)
Definition kind_of_status (st : Z) (txt : string) : ErrorKind :=
  if st =? 401 then InvalidApiKey
  else if st =? 404 then NotFound
  else if st =? 429 then RateLimited
  else if st =? 500 then ServiceUnavailable
  else UpstreamError st txt.

End ApiClient.

(** ** Formatting utilities *)

Module Format.
Import JsNumber.

Section Runtime.

(** What the host engine supplies: the shortest decimal form of a
    Number, [Date] parsing ([None] is an invalid date), the en-US
    rendering of a time value in the viewer's time zone with the
    options of the source, and the wall clock. *)
Variable shortest : number -> string.
Variable Date_parse : string -> option Z.
Variable toLocaleString : Z -> string.
Variable now : Z.

Definition formatTemperature (tempC : number) : string :=
  let tempF := add (div (mul tempC (of_Z 9)) (of_Z 5)) (of_Z 32) in
  toFixed shortest tempF 1 ++ "°F (" ++ toFixed shortest tempC 1 ++ "°C)".

Definition formatWindSpeed (windSpeedMs : number) : string :=
  let windMph := toFixed shortest (mul windSpeedMs (lit 2237 1000)) 1 in
  windMph ++ " mph".

Definition formatPressure (pressureHpa : number) : string :=
  let pressureInHg := toFixed shortest (mul pressureHpa (lit 2953 100000)) 2 in
  pressureInHg ++ " inHg".

Definition formatPrecipitation (mm : number) : string :=
  let inches := toFixed shortest (div mm (lit 254 10)) 2 in
  inches ++ " in".

Definition directions : list string :=
  ["N"; "NNE"; "NE"; "ENE"; "E"; "ESE"; "SE"; "SSE";
   "S"; "SSW"; "SW"; "WSW"; "W"; "WNW"; "NW"; "NNW"].

Definition direction_index (degrees : number) : number :=
  rem (Math_round (div degrees (lit 225 10))) (of_Z 16).

(** [None] is [undefined]: the index is outside the array. *)
Definition getWindDirection (degrees : number) : option string :=
  array_get directions (direction_index degrees).

(** An optional string inside a template literal. *)
Definition show (s : option string) : string :=
  match s with
  | Some v => v
  | None => "undefined"
  end.

Definition date_toLocaleString (d : option Z) : string :=
  match d with
  | Some t => toLocaleString t
  | None => "Invalid Date"
  end.

Definition formatLocalTime (timestamp : string) : string :=
  date_toLocaleString (Date_parse timestamp).

Definition formatTimeAgo (timestamp : string) : string :=
  match Date_parse timestamp with
  | None => "NaNh NaNm ago"
  | Some observationDate =>
      let diffMs := now - observationDate in
      let diffMinutes := diffMs / (1000 * 60) in
      if diffMinutes <? 1 then "just now"
      else if diffMinutes <? 60 then JsString.of_Z diffMinutes ++ "m ago"
      else
        let hours := diffMinutes / 60 in
        let minutes := Z.rem diffMinutes 60 in
        if minutes =? 0 then JsString.of_Z hours ++ "h ago"
        else JsString.of_Z hours ++ "h " ++ JsString.of_Z minutes ++ "m ago"
  end.

Definition iconMap : list (string * string) :=
  [("clear-day", "Clear");
   ("clear-night", "Clear");
   ("partly-cloudy-day", "Partly Cloudy");
   ("partly-cloudy-night", "Partly Cloudy");
   ("cloudy", "Cloudy");
   ("fog", "Foggy");
   ("rain", "Rainy");
   ("sleet", "Sleet");
   ("snow", "Snowy");
   ("wind", "Windy");
   ("thunderstorm", "Thunderstorm")].

Fixpoint lookup (key : string) (m : list (string * string)) : option string :=
  match m with
  | [] => None
  | (k, v) :: m' => if String.eqb k key then Some v else lookup key m'
  end.

(** The members a plain object inherits from [Object.prototype] (Node),
    each with the text a template literal shows for it: the source text
    of a built-in function and, for the [__proto__] accessor, the text of
    the prototype object it returns.  Every one of them is truthy. *)
Definition Object_prototype : list (string * string) :=
  [("constructor", "function Object() { [native code] }");
   ("__defineGetter__", "function __defineGetter__() { [native code] }");
   ("__defineSetter__", "function __defineSetter__() { [native code] }");
   ("hasOwnProperty", "function hasOwnProperty() { [native code] }");
   ("__lookupGetter__", "function __lookupGetter__() { [native code] }");
   ("__lookupSetter__", "function __lookupSetter__() { [native code] }");
   ("isPrototypeOf", "function isPrototypeOf() { [native code] }");
   ("propertyIsEnumerable", "function propertyIsEnumerable() { [native code] }");
   ("toString", "function toString() { [native code] }");
   ("valueOf", "function valueOf() { [native code] }");
   ("__proto__", "[object Object]");
   ("toLocaleString", "function toLocaleString() { [native code] }")].

(** [iconMap[icon] || "Unknown"], as the template literals of the handlers
    show it (the value is only ever put in one): the label under an own
    key, every label being a non-empty string; for a name that is not
    an own key, the member the object inherits under that name, which is
    truthy and is shown by its text; "Unknown" for every other name. *)
Definition getWeatherIconDescription (icon : string) : string :=
  match lookup icon iconMap with
  | Some label => label
  | None =>
      match lookup icon Object_prototype with
      | Some member => member
      | None => "Unknown"
      end
  end.

End Runtime.

End Format.

(** ** The tool handlers *)

Module Tools.
Import JsNumber Schema ApiClient Format.

Local Infix "+++" := app (right associativity, at level 60).

Definition nl : string := String (ascii_of_nat 10) "".

(** The text a handler's [catch] clause returns. *)
Definition error_text (e : thrown) : string :=
  "Error: " ++
  match e with
  | JsError message => message
  | JsNonError _ => "Unknown error"
  end.

(** A handler: [try { ... return text } catch (e) { return error text }].
    The value is the [text] of the single content item returned.  The
    handlers of this module take the answer of the client at the type
    the handler casts it to; those of [Unvalidated] take the parsed JSON
    as it comes. *)
Definition tool (body : result string) : string :=
  match body with
  | Ok text => text
  | Throw e => error_text e
  end.

(** [markdown += chunk], chunk after chunk. *)
Definition markdown_of (chunks : list string) : string := concat "" chunks.

(** Some chunk appended to the markdown starts with [label]. *)
Definition has_line (label : string) (chunks : list string) : Prop :=
  exists line, In line chunks /\ prefix label line = true.

(** [list.slice(-10)]. *)
Definition slice_last10 {A : Type} (l : list A) : list A :=
  skipn (List.length l - 10) l.

Section Server.

Variable shortest : number -> string.
Variable Date_parse : string -> option Z.
Variable toLocaleString : Z -> string.
(** [getTimezoneOffset] of a valid date, in minutes. *)
Variable getTimezoneOffset : Z -> Z.
Variable now : Z.
(** [config.apiKey]. *)
Variable apiKey : string.

Let str := toString shortest.
Let fixed := toFixed shortest.
Let temperature_text := formatTemperature shortest.
Let wind_text := formatWindSpeed shortest.
Let pressure_text := formatPressure shortest.
Let precipitation_text := formatPrecipitation shortest.
Let local_time := formatLocalTime Date_parse toLocaleString.
Let time_ago := formatTimeAgo Date_parse now.
Let percent (x : number) : string := fixed (mul x (of_Z 100)) 0.

(** *** get_current_weather *)

Definition wind_gust_line (obs : Observation) : list string :=
  if gtb (wind_gust obs) (wind_speed obs) then
    ["**Wind Gust:** " ++ wind_text (wind_gust obs) ++ nl]
  else [].

Definition uv_index_line (obs : Observation) : list string :=
  if gtb (uv_index obs) (of_Z 0) then
    ["**UV Index:** " ++ fixed (uv_index obs) 1 ++ nl]
  else [].

Definition solar_irradiance_line (obs : Observation) : list string :=
  if gtb (solar_irradiance obs) (of_Z 0) then
    ["**Solar Irradiance:** " ++ fixed (solar_irradiance obs) 0 ++ " W/m²" ++ nl]
  else [].

Definition precipitation_rate_line (obs : Observation) : list string :=
  if gtb (precipitation_rate obs) (of_Z 0) then
    ["**Precipitation Rate:** " ++ precipitation_text (precipitation_rate obs)
     ++ "/hr" ++ nl]
  else [].

Definition precipitation_accumulated_line (obs : Observation) : list string :=
  if gtb (precipitation_accumulated obs) (of_Z 0) then
    ["**Precipitation Accumulated:** "
     ++ precipitation_text (precipitation_accumulated obs) ++ nl]
  else [].

(** The chunks appended before the wind-gust test. *)
Definition current_weather_head (station_id : string)
           (data : WeatherXMLatestResponse) : list string :=
  let obs := observation data in
  let location := location data in
  let localObsTime := local_time (timestamp obs) in
  let timeAgo := time_ago (timestamp obs) in
  let windDirection := getWindDirection (wind_direction obs) in
  ["# Current Weather" ++ nl ++ nl;
   "**Station ID:** " ++ station_id ++ nl;
   "**Location:** " ++ fixed (lat location) 4 ++ ", "
     ++ fixed (lon location) 4 ++ nl;
   "**Elevation:** " ++ str (elevation location) ++ "m" ++ nl ++ nl;
   "**Observed:** " ++ localObsTime ++ " - " ++ timeAgo ++ nl ++ nl;
   "**Temperature:** " ++ temperature_text (temperature obs) ++ nl;
   "**Feels Like:** " ++ temperature_text (feels_like obs) ++ nl;
   "**Conditions:** " ++ getWeatherIconDescription (icon obs) ++ nl;
   "**Humidity:** " ++ fixed (humidity obs) 0 ++ "%" ++ nl;
   "**Dew Point:** " ++ temperature_text (dew_point obs) ++ nl;
   "**Wind:** " ++ wind_text (wind_speed obs) ++ " from "
     ++ show windDirection ++ " (" ++ str (wind_direction obs) ++ "°)" ++ nl].

Definition pressure_line (obs : Observation) : list string :=
  ["**Pressure:** " ++ pressure_text (pressure obs) ++ nl].

Definition data_quality_line (health : Health) : list string :=
  [nl ++ "**Data Quality Score:** "
   ++ percent (dq_score (data_quality health)) ++ "%" ++ nl].

Definition current_weather_chunks (station_id : string)
           (data : WeatherXMLatestResponse) : list string :=
  let obs := observation data in
  current_weather_head station_id data
  +++ wind_gust_line obs
  +++ pressure_line obs
  +++ uv_index_line obs
  +++ solar_irradiance_line obs
  +++ precipitation_rate_line obs
  +++ precipitation_accumulated_line obs
  +++ data_quality_line (health data).

Definition get_current_weather (fetch : Fetch WeatherXMLatestResponse)
           (station_id : string) : string :=
  tool (data <- weatherxmApiRequest fetch
                  ("/stations/" ++ station_id ++ "/latest") apiKey ;;
        Ok (markdown_of (current_weather_chunks station_id data))).

(** *** get_hourly_forecast *)

Definition hourly_chunks (hour : HourlyForecastData) : list string :=
  let localTime := local_time (h_timestamp hour) in
  let windDirection := getWindDirection (h_wind_direction hour) in
  ["## " ++ localTime ++ nl ++ nl;
   "**Temperature:** " ++ temperature_text (h_temperature hour) ++ nl;
   "**Feels Like:** " ++ temperature_text (h_feels_like hour) ++ nl;
   "**Conditions:** " ++ getWeatherIconDescription (h_icon hour) ++ nl;
   "**Precipitation:** " ++ precipitation_text (h_precipitation hour) ++ " ("
     ++ percent (h_precipitation_probability hour) ++ "% chance)" ++ nl;
   "**Wind:** " ++ wind_text (h_wind_speed hour) ++ " from "
     ++ show windDirection ++ nl;
   "**Humidity:** " ++ fixed (h_humidity hour) 0 ++ "%" ++ nl;
   "**Pressure:** " ++ pressure_text (h_pressure hour) ++ nl;
   "**UV Index:** " ++ fixed (h_uv_index hour) 1 ++ nl ++ nl;
   "---" ++ nl ++ nl].

(** What the handler returns once the request has succeeded. *)
Definition hourly_forecast_text (station_id : string) (hours : number)
           (data : WeatherXMHourlyForecastResponse) : string :=
  let forecast := or_empty (hourly_forecast data) in
  if (List.length forecast =? 0)%nat then
    "No hourly forecast available for station " ++ station_id
  else
    markdown_of
      (["# Hourly Forecast - " ++ station_id ++ nl ++ nl;
        "Forecast for the next " ++ str hours ++ " hours" ++ nl ++ nl]
       +++ flat_map hourly_chunks forecast).

Definition get_hourly_forecast (fetch : Fetch WeatherXMHourlyForecastResponse)
           (station_id : string) (hours_arg : option number) : string :=
  let hours := with_default (of_Z 48) hours_arg in
  tool (data <- weatherxmApiRequest fetch
                  ("/stations/" ++ station_id ++ "/forecast/hourly?hours="
                   ++ str hours) apiKey ;;
        Ok (hourly_forecast_text station_id hours data)).

(** *** get_daily_forecast *)

Definition daily_chunks (day : DailyForecast) : list string :=
  let localTime := local_time (d_timestamp day) in
  let windDirection := getWindDirection (d_wind_direction day) in
  ["## " ++ localTime ++ nl ++ nl;
   "**High:** " ++ temperature_text (d_temperature_max day) ++ nl;
   "**Low:** " ++ temperature_text (d_temperature_min day) ++ nl;
   "**Conditions:** " ++ getWeatherIconDescription (d_icon day) ++ nl;
   "**Precipitation:** " ++ percent (d_precipitation_probability day)
     ++ "% chance, " ++ d_precipitation_type day ++ nl;
   "**Wind:** " ++ wind_text (d_wind_speed day) ++ " from "
     ++ show windDirection ++ nl;
   "**Humidity:** " ++ fixed (d_humidity day) 0 ++ "%" ++ nl;
   "**Pressure:** " ++ pressure_text (d_pressure day) ++ nl;
   "**UV Index:** " ++ fixed (d_uv_index day) 1 ++ nl ++ nl;
   "---" ++ nl ++ nl].

Definition daily_forecast_text (station_id : string) (days : number)
           (data : WeatherXMDailyForecastResponse) : string :=
  let forecast := or_empty (daily_forecast data) in
  if (List.length forecast =? 0)%nat then
    "No daily forecast available for station " ++ station_id
  else
    markdown_of
      (["# Daily Forecast - " ++ station_id ++ nl ++ nl;
        "Forecast for the next " ++ str days ++ " days" ++ nl ++ nl]
       +++ flat_map daily_chunks forecast).

Definition get_daily_forecast (fetch : Fetch WeatherXMDailyForecastResponse)
           (station_id : string) (days_arg : option number) : string :=
  let days := with_default (of_Z 7) days_arg in
  tool (data <- weatherxmApiRequest fetch
                  ("/stations/" ++ station_id ++ "/forecast/daily?days="
                   ++ str days) apiKey ;;
        Ok (daily_forecast_text station_id days data)).

(** *** get_historical_weather *)

Definition temperatures_of (historicalData : list HistoricalDataPoint)
  : list number := map temperature historicalData.

Definition sum (xs : list number) : number :=
  fold_left (fun a b => add a b) xs (of_Z 0).

Definition avgTemp (historicalData : list HistoricalDataPoint) : number :=
  let temperatures := temperatures_of historicalData in
  div (sum temperatures) (of_Z (Z.of_nat (List.length temperatures))).

Definition precipTotal (historicalData : list HistoricalDataPoint) : number :=
  fold_left (fun sum d => add sum (precipitation_accumulated d))
            historicalData (of_Z 0).

Definition recent_observation (obs : HistoricalDataPoint) : string :=
  let localTime := local_time (timestamp obs) in
  "**" ++ localTime ++ ":** " ++ temperature_text (temperature obs) ++ ", "
  ++ fixed (humidity obs) 0 ++ "% humidity, " ++ wind_text (wind_speed obs) ++ nl.

Definition summary_chunks (historicalData : list HistoricalDataPoint)
  : list string :=
  let temperatures := temperatures_of historicalData in
  let maxTemp := Math_max temperatures in
  let minTemp := Math_min temperatures in
  ["## Summary Statistics" ++ nl ++ nl;
   "**Temperature Range:** " ++ temperature_text minTemp ++ " to "
     ++ temperature_text maxTemp ++ nl;
   "**Average Temperature:** " ++ temperature_text (avgTemp historicalData) ++ nl;
   "**Total Precipitation:** " ++ precipitation_text (precipTotal historicalData)
     ++ nl ++ nl].

Definition recent_chunks (historicalData : list HistoricalDataPoint)
  : list string :=
  let recentData := slice_last10 historicalData in
  map recent_observation recentData.

Definition historical_chunks (station_id start_date end_date : string)
           (historicalData : list HistoricalDataPoint) : list string :=
  (["# Historical Weather Data - " ++ station_id ++ nl ++ nl;
    "Period: " ++ start_date ++ " to " ++ end_date ++ nl;
    "Data points: " ++ JsString.of_nat (List.length historicalData) ++ nl ++ nl]
   +++ summary_chunks historicalData
   +++ ["## Recent Observations" ++ nl ++ nl]
   +++ recent_chunks historicalData).

Definition historical_text (station_id start_date end_date : string)
           (response : WeatherXMHistoricalResponse) : string :=
  let historicalData := or_empty (data response) in
  if (List.length historicalData =? 0)%nat then
    "No historical data available for station " ++ station_id
    ++ " between " ++ start_date ++ " and " ++ end_date
  else
    markdown_of
      (historical_chunks station_id start_date end_date historicalData).

Definition get_historical_weather (fetch : Fetch WeatherXMHistoricalResponse)
           (station_id start_date end_date : string) : string :=
  tool (response <- weatherxmApiRequest fetch
                  ("/stations/" ++ station_id ++ "/historical?start="
                   ++ start_date ++ "&end=" ++ end_date) apiKey ;;
        Ok (historical_text station_id start_date end_date response)).

(** *** get_weather_alerts *)

Definition alert_chunks (alert : WeatherAlert) : list string :=
  let effectiveTime := local_time (effective alert) in
  let expiresTime := local_time (expires alert) in
  ["## " ++ title alert ++ nl ++ nl;
   "**Type:** " ++ alert_type alert ++ nl;
   "**Severity:** " ++ severity alert ++ nl;
   "**Effective:** " ++ effectiveTime ++ nl;
   "**Expires:** " ++ expiresTime ++ nl;
   "**Areas:** " ++ JsString.join ", " (areas alert) ++ nl ++ nl;
   description alert ++ nl ++ nl;
   "---" ++ nl ++ nl].

Definition get_weather_alerts (fetch : Fetch WeatherXMAlertsResponse)
           (latitude longitude : number) : string :=
  tool (data <- weatherxmApiRequest fetch
                  ("/alerts?lat=" ++ str latitude ++ "&lon=" ++ str longitude)
                  apiKey ;;
        let alerts := or_empty (alerts data) in
        if (List.length alerts =? 0)%nat then
          Ok ("No active weather alerts for location " ++ str latitude ++ ", "
              ++ str longitude)
        else
          Ok (markdown_of
                (["# Weather Alerts" ++ nl ++ nl;
                  "Location: " ++ str latitude ++ ", " ++ str longitude ++ nl;
                  "Active alerts: " ++ JsString.of_nat (List.length alerts)
                    ++ nl ++ nl]
                 +++ flat_map alert_chunks alerts))).

(** *** find_weather_stations *)

Definition found_station_chunks (station : Station) : list string :=
  ["## " ++ station_name station ++ nl ++ nl;
   "**Station ID:** " ++ station_id_ station ++ nl;
   "**Name:** " ++ station_name station ++ nl;
   "**Location:** " ++ fixed (lat (station_location station)) 4 ++ ", "
     ++ fixed (lon (station_location station)) 4 ++ nl;
   "**Elevation:** " ++ str (elevation (station_location station)) ++ "m" ++ nl;
   "**Created:** " ++ local_time (createdAt station) ++ nl;
   "**Cell Index:** " ++ cellIndex station ++ nl;
   nl ++ "---" ++ nl ++ nl].

Definition find_weather_stations (fetch : Fetch WeatherXMStationsResponse)
           (latitude longitude : number) (radius_arg : option number) : string :=
  let radius := with_default (of_Z 50) radius_arg in
  tool (data <- weatherxmApiRequest fetch
                  ("/stations?lat=" ++ str latitude ++ "&lon=" ++ str longitude
                   ++ "&radius=" ++ str radius) apiKey ;;
        let stations := or_empty (stations data) in
        if (List.length stations =? 0)%nat then
          Ok ("# WeatherXM Stations" ++ nl ++ nl
              ++ "No weather stations found within " ++ str radius ++ "km of "
              ++ str latitude ++ ", " ++ str longitude ++ ".")
        else
          Ok (markdown_of
                (["# WeatherXM Stations Near " ++ str latitude ++ ", "
                    ++ str longitude ++ nl ++ nl;
                  "Found " ++ JsString.of_nat (List.length stations)
                    ++ " station(s) within " ++ str radius ++ "km" ++ nl ++ nl]
                 +++ flat_map found_station_chunks stations))).

(** *** search_weather_stations *)

Definition searched_station_chunks (station : Station) : list string :=
  ["## " ++ station_name station ++ nl ++ nl;
   "**Station ID:** " ++ station_id_ station ++ nl;
   "**Location:** " ++ fixed (lat (station_location station)) 4 ++ ", "
     ++ fixed (lon (station_location station)) 4 ++ nl;
   "**Elevation:** " ++ str (elevation (station_location station)) ++ "m" ++ nl;
   "**Created:** " ++ local_time (createdAt station) ++ nl;
   "**Cell Index:** " ++ cellIndex station ++ nl;
   nl ++ "---" ++ nl ++ nl].

Definition quote : string := String (ascii_of_nat 34) "".

Definition search_weather_stations (fetch : Fetch WeatherXMSearchResponse)
           (query : string) (page_arg limit_arg : option number) : string :=
  let page_ := with_default (of_Z 1) page_arg in
  let limit_ := with_default (of_Z 10) limit_arg in
  tool (data <- weatherxmApiRequest fetch
                  ("/stations/search?q=" ++ JsString.encodeURIComponent query
                   ++ "&page=" ++ str page_ ++ "&limit=" ++ str limit_) apiKey ;;
        let results := results data in
        let stations := or_empty (result_stations results) in
        if (List.length stations =? 0)%nat then
          Ok ("No weather stations found matching " ++ quote ++ query ++ quote)
        else
          Ok (markdown_of
                (["# Weather Station Search Results" ++ nl ++ nl;
                  "Query: " ++ quote ++ query ++ quote ++ nl;
                  "Found " ++ str (total results) ++ " total stations" ++ nl;
                  "Page " ++ str (page results) ++ " of "
                    ++ str (Math_ceil (div (total results) (limit results)))
                    ++ nl ++ nl]
                 +++ flat_map searched_station_chunks stations))).

(** *** get_weather_cells *)

Definition cell_chunks (cell : Cell) : list string :=
  ["## Cell " ++ cell_index cell ++ nl ++ nl;
   "**Center:** " ++ fixed (lat (center cell)) 4 ++ ", "
     ++ fixed (lon (center cell)) 4 ++ nl;
   "**Elevation:** " ++ str (elevation (center cell)) ++ "m" ++ nl;
   "**Stations:** " ++ str (station_count cell) ++ nl;
   nl ++ "---" ++ nl ++ nl].

Definition get_weather_cells (fetch : Fetch WeatherXMCellsResponse)
           (latitude longitude : number) (radius_arg : option number) : string :=
  let radius := with_default (of_Z 50) radius_arg in
  tool (data <- weatherxmApiRequest fetch
                  ("/cells?lat=" ++ str latitude ++ "&lon=" ++ str longitude
                   ++ "&radius=" ++ str radius) apiKey ;;
        let cells := or_empty (cells data) in
        if (List.length cells =? 0)%nat then
          Ok ("No weather cells found within " ++ str radius ++ "km of "
              ++ str latitude ++ ", " ++ str longitude)
        else
          Ok (markdown_of
                (["# WeatherXM Cells Near " ++ str latitude ++ ", "
                    ++ str longitude ++ nl ++ nl;
                  "Found " ++ JsString.of_nat (List.length cells)
                    ++ " cell(s) within " ++ str radius ++ "km" ++ nl ++ nl]
                 +++ flat_map cell_chunks cells))).

(** *** get_station_health *)

(** The quality interpretation appended last. *)
Definition overall_assessment (score : number) : string :=
  if geb score (lit 8 10) then
    "**Overall Assessment:** Excellent data quality" ++ nl
  else if geb score (lit 6 10) then
    "**Overall Assessment:** Good data quality" ++ nl
  else if geb score (lit 4 10) then
    "**Overall Assessment:** Fair data quality" ++ nl
  else
    "**Overall Assessment:** Poor data quality - use with caution" ++ nl.

Definition station_health_chunks (station_id : string)
           (data : WeatherXMLatestResponse) : list string :=
  let health := health data in
  let location := location data in
  let healthTime := local_time (health_timestamp health) in
  let dataQualityPercent := percent (dq_score (data_quality health)) in
  let locationQualityPercent := percent (lq_score (location_quality health)) in
  ["# Station Health - " ++ station_id ++ nl ++ nl;
   "**Location:** " ++ fixed (lat location) 4 ++ ", "
     ++ fixed (lon location) 4 ++ nl;
   "**Elevation:** " ++ str (elevation location) ++ "m" ++ nl ++ nl;
   "**Health Check:** " ++ healthTime ++ nl ++ nl;
   "**Data Quality Score:** " ++ dataQualityPercent ++ "%" ++ nl;
   "**Location Quality Score:** " ++ locationQualityPercent ++ "%" ++ nl;
   "**Location Quality Reason:** " ++ lq_reason (location_quality health)
     ++ nl ++ nl;
   overall_assessment (dq_score (data_quality health))].

Definition get_station_health (fetch : Fetch WeatherXMLatestResponse)
           (station_id : string) : string :=
  tool (data <- weatherxmApiRequest fetch
                  ("/stations/" ++ station_id ++ "/latest") apiKey ;;
        Ok (markdown_of (station_health_chunks station_id data))).

(** *** get_station_local_time *)

(** [new Date(t)] clips a time value outside the representable range
    to an invalid date. *)
Definition TimeClip (t : Z) : option Z :=
  if Z.abs t <=? 8640000000000000 then Some t else None.

Definition station_local_time (observed : string) : option Z :=
  match Date_parse observed with
  | Some t =>
      let stationTimezone := getTimezoneOffset t in
      TimeClip (now - stationTimezone * 60 * 1000)
  | None => None
  end.

Definition get_station_local_time (fetch : Fetch WeatherXMLatestResponse)
           (station_id : string) : string :=
  tool (data <- weatherxmApiRequest fetch
                  ("/stations/" ++ station_id ++ "/latest") apiKey ;;
        let location := location data in
        let formattedTime :=
          date_toLocaleString toLocaleString
            (station_local_time (timestamp (observation data))) in
        Ok ("Current local time at station " ++ station_id ++ " ("
            ++ fixed (lat location) 4 ++ ", " ++ fixed (lon location) 4 ++ "): "
            ++ formattedTime)).

End Server.

End Tools.

(** ** The handlers, on a body that nothing has validated *)

(** A handler only casts what [weatherxmApiRequest] returns ([as
    WeatherXMLatestResponse], ...) and renders it inside the same [try]
    block.  [Body] is the type of the parsed JSON values.  For a handler
    that casts to [A], [declared body] is the body read at type [A] when it
    has the fields of [A] with values of their types, so that the
    statements after the cast run on it as the types promise; on any other
    body those statements take the course JavaScript gives them, a text
    with "undefined" or "NaN" in it or a thrown [TypeError] or
    [RangeError], and [otherwise body] stands for that course. *)
Module Unvalidated.
Import JsNumber Schema ApiClient Format Tools.

Local Infix "+++" := app (right associativity, at level 60).

Section Server.

Variable shortest : number -> string.
Variable Date_parse : string -> option Z.
Variable toLocaleString : Z -> string.
Variable getTimezoneOffset : Z -> Z.
Variable now : Z.
Variable apiKey : string.
Context {Body : Type}.

Let str := toString shortest.
Let fixed := toFixed shortest.

(** *** What the statements after the request make of a body of the
    declared type *)

Definition current_weather_text (station_id : string)
           (data : WeatherXMLatestResponse) : string :=
  markdown_of (current_weather_chunks shortest Date_parse toLocaleString now
                                      station_id data).

Definition weather_alerts_text (latitude longitude : number)
           (data : WeatherXMAlertsResponse) : string :=
  let alerts := or_empty (alerts data) in
  if (List.length alerts =? 0)%nat then
    "No active weather alerts for location " ++ str latitude ++ ", "
    ++ str longitude
  else
    markdown_of
      (["# Weather Alerts" ++ nl ++ nl;
        "Location: " ++ str latitude ++ ", " ++ str longitude ++ nl;
        "Active alerts: " ++ JsString.of_nat (List.length alerts) ++ nl ++ nl]
       +++ flat_map (alert_chunks Date_parse toLocaleString) alerts).

Definition found_stations_text (latitude longitude radius : number)
           (data : WeatherXMStationsResponse) : string :=
  let stations := or_empty (stations data) in
  if (List.length stations =? 0)%nat then
    "# WeatherXM Stations" ++ nl ++ nl
    ++ "No weather stations found within " ++ str radius ++ "km of "
    ++ str latitude ++ ", " ++ str longitude ++ "."
  else
    markdown_of
      (["# WeatherXM Stations Near " ++ str latitude ++ ", "
          ++ str longitude ++ nl ++ nl;
        "Found " ++ JsString.of_nat (List.length stations)
          ++ " station(s) within " ++ str radius ++ "km" ++ nl ++ nl]
       +++ flat_map (found_station_chunks shortest Date_parse toLocaleString)
                    stations).

Definition searched_stations_text (query : string)
           (data : WeatherXMSearchResponse) : string :=
  let results := results data in
  let stations := or_empty (result_stations results) in
  if (List.length stations =? 0)%nat then
    "No weather stations found matching " ++ quote ++ query ++ quote
  else
    markdown_of
      (["# Weather Station Search Results" ++ nl ++ nl;
        "Query: " ++ quote ++ query ++ quote ++ nl;
        "Found " ++ str (total results) ++ " total stations" ++ nl;
        "Page " ++ str (page results) ++ " of "
          ++ str (Math_ceil (div (total results) (limit results)))
          ++ nl ++ nl]
       +++ flat_map (searched_station_chunks shortest Date_parse toLocaleString)
                    stations).

Definition weather_cells_text (latitude longitude radius : number)
           (data : WeatherXMCellsResponse) : string :=
  let cells := or_empty (cells data) in
  if (List.length cells =? 0)%nat then
    "No weather cells found within " ++ str radius ++ "km of "
    ++ str latitude ++ ", " ++ str longitude
  else
    markdown_of
      (["# WeatherXM Cells Near " ++ str latitude ++ ", "
          ++ str longitude ++ nl ++ nl;
        "Found " ++ JsString.of_nat (List.length cells)
          ++ " cell(s) within " ++ str radius ++ "km" ++ nl ++ nl]
       +++ flat_map (cell_chunks shortest) cells).

Definition station_health_text (station_id : string)
           (data : WeatherXMLatestResponse) : string :=
  markdown_of (station_health_chunks shortest Date_parse toLocaleString
                                     station_id data).

Definition station_local_time_text (station_id : string)
           (data : WeatherXMLatestResponse) : string :=
  let location := location data in
  let formattedTime :=
    date_toLocaleString toLocaleString
      (station_local_time Date_parse getTimezoneOffset now
                          (timestamp (observation data))) in
  "Current local time at station " ++ station_id ++ " ("
  ++ fixed (lat location) 4 ++ ", " ++ fixed (lon location) 4 ++ "): "
  ++ formattedTime.

(** *** The cast and the statements after it *)

Section Cast.

Context {A : Type}.
Variable declared : Body -> option A.
Variable otherwise : Body -> result string.

(** [const data = body as A], then the statements that build the text:
    their text on a body of the declared type, their course on any other
    body. *)
Definition rendered (render : A -> string) (body : Body) : result string :=
  match declared body with
  | Some data => Ok (render data)
  | None => otherwise body
  end.

End Cast.

(** The [catch] clause of every handler: the failure becomes the text of
    an answer that is returned. *)
Definition caught (e : thrown) : result string := Ok (error_text e).

(** *** The ten handlers: request, cast and rendering in one [try]

    The value is the [text] of the single content item returned, or what
    the handler throws. *)

Definition get_current_weather
           (declared : Body -> option WeatherXMLatestResponse)
           (otherwise : Body -> result string)
           (fetch : Fetch Body) (station_id : string) : result string :=
  try_catch
    (body <- weatherxmApiRequest fetch
               ("/stations/" ++ station_id ++ "/latest") apiKey ;;
     rendered declared otherwise (current_weather_text station_id) body)
    caught.

Definition get_hourly_forecast
           (declared : Body -> option WeatherXMHourlyForecastResponse)
           (otherwise : Body -> result string)
           (fetch : Fetch Body) (station_id : string)
           (hours_arg : option number) : result string :=
  let hours := with_default (of_Z 48) hours_arg in
  try_catch
    (body <- weatherxmApiRequest fetch
               ("/stations/" ++ station_id ++ "/forecast/hourly?hours="
                ++ str hours) apiKey ;;
     rendered declared otherwise
              (hourly_forecast_text shortest Date_parse toLocaleString
                                    station_id hours) body)
    caught.

Definition get_daily_forecast
           (declared : Body -> option WeatherXMDailyForecastResponse)
           (otherwise : Body -> result string)
           (fetch : Fetch Body) (station_id : string)
           (days_arg : option number) : result string :=
  let days := with_default (of_Z 7) days_arg in
  try_catch
    (body <- weatherxmApiRequest fetch
               ("/stations/" ++ station_id ++ "/forecast/daily?days="
                ++ str days) apiKey ;;
     rendered declared otherwise
              (daily_forecast_text shortest Date_parse toLocaleString
                                   station_id days) body)
    caught.

Definition get_historical_weather
           (declared : Body -> option WeatherXMHistoricalResponse)
           (otherwise : Body -> result string)
           (fetch : Fetch Body) (station_id start_date end_date : string)
  : result string :=
  try_catch
    (body <- weatherxmApiRequest fetch
               ("/stations/" ++ station_id ++ "/historical?start="
                ++ start_date ++ "&end=" ++ end_date) apiKey ;;
     rendered declared otherwise
              (historical_text shortest Date_parse toLocaleString
                               station_id start_date end_date) body)
    caught.

Definition get_weather_alerts
           (declared : Body -> option WeatherXMAlertsResponse)
           (otherwise : Body -> result string)
           (fetch : Fetch Body) (latitude longitude : number) : result string :=
  try_catch
    (body <- weatherxmApiRequest fetch
               ("/alerts?lat=" ++ str latitude ++ "&lon=" ++ str longitude)
               apiKey ;;
     rendered declared otherwise (weather_alerts_text latitude longitude)
              body)
    caught.

Definition find_weather_stations
           (declared : Body -> option WeatherXMStationsResponse)
           (otherwise : Body -> result string)
           (fetch : Fetch Body) (latitude longitude : number)
           (radius_arg : option number) : result string :=
  let radius := with_default (of_Z 50) radius_arg in
  try_catch
    (body <- weatherxmApiRequest fetch
               ("/stations?lat=" ++ str latitude ++ "&lon=" ++ str longitude
                ++ "&radius=" ++ str radius) apiKey ;;
     rendered declared otherwise
              (found_stations_text latitude longitude radius) body)
    caught.

Definition search_weather_stations
           (declared : Body -> option WeatherXMSearchResponse)
           (otherwise : Body -> result string)
           (fetch : Fetch Body) (query : string)
           (page_arg limit_arg : option number) : result string :=
  let page_ := with_default (of_Z 1) page_arg in
  let limit_ := with_default (of_Z 10) limit_arg in
  try_catch
    (body <- weatherxmApiRequest fetch
               ("/stations/search?q=" ++ JsString.encodeURIComponent query
                ++ "&page=" ++ str page_ ++ "&limit=" ++ str limit_) apiKey ;;
     rendered declared otherwise (searched_stations_text query) body)
    caught.

Definition get_weather_cells
           (declared : Body -> option WeatherXMCellsResponse)
           (otherwise : Body -> result string)
           (fetch : Fetch Body) (latitude longitude : number)
           (radius_arg : option number) : result string :=
  let radius := with_default (of_Z 50) radius_arg in
  try_catch
    (body <- weatherxmApiRequest fetch
               ("/cells?lat=" ++ str latitude ++ "&lon=" ++ str longitude
                ++ "&radius=" ++ str radius) apiKey ;;
     rendered declared otherwise
              (weather_cells_text latitude longitude radius) body)
    caught.

Definition get_station_health
           (declared : Body -> option WeatherXMLatestResponse)
           (otherwise : Body -> result string)
           (fetch : Fetch Body) (station_id : string) : result string :=
  try_catch
    (body <- weatherxmApiRequest fetch
               ("/stations/" ++ station_id ++ "/latest") apiKey ;;
     rendered declared otherwise (station_health_text station_id) body)
    caught.

Definition get_station_local_time
           (declared : Body -> option WeatherXMLatestResponse)
           (otherwise : Body -> result string)
           (fetch : Fetch Body) (station_id : string) : result string :=
  try_catch
    (body <- weatherxmApiRequest fetch
               ("/stations/" ++ station_id ++ "/latest") apiKey ;;
     rendered declared otherwise (station_local_time_text station_id) body)
    caught.

End Server.

(** What the error handling of a handler promises, for the outcome
    [request] of its call to the client and the rendering [render] of a
    body of the declared type: the handler returns, and its text is that
    of the rendering, or "Error: " followed by the message of the [Error]
    thrown by the request or by the statements after it, or
    "Error: Unknown error" when what was thrown is not an [Error]. *)
Definition catches {Body A : Type} (declared : Body -> option A)
           (otherwise : Body -> result string) (render : A -> string)
           (request : result Body) (answer : result string) : Prop :=
  match request with
  | Throw (JsError message) => answer = Ok ("Error: " ++ message)
  | Throw (JsNonError _) => answer = Ok "Error: Unknown error"
  | Ok body =>
      match declared body with
      | Some data => answer = Ok (render data)
      | None =>
          match otherwise body with
          | Ok made => answer = Ok made
          | Throw (JsError message) => answer = Ok ("Error: " ++ message)
          | Throw (JsNonError _) => answer = Ok "Error: Unknown error"
          end
      end
  end.

(** What the beginning of a handler's text says of its [try] block: the
    text begins with "Error: " when the request has failed or the
    statements after it have thrown, it does not when the body has the
    declared type, and it is the text those statements have made of any
    other body. *)
Definition marks_failure {Body A : Type} (declared : Body -> option A)
           (otherwise : Body -> result string) (request : result Body)
           (answer : result string) : Prop :=
  exists text,
    answer = Ok text
    /\ match request with
       | Throw _ => prefix "Error: " text = true
       | Ok body =>
           match declared body with
           | Some _ => prefix "Error: " text = false
           | None =>
               match otherwise body with
               | Throw _ => prefix "Error: " text = true
               | Ok made => text = made
               end
           end
       end.

End Unvalidated.

(** ** Concrete inputs and decision tables used below *)

Module Scenario.
Import ApiClient.
Definition bad_gateway {A : Type} : Response A :=
  {| status := 502;
     statusText := "Upstream fetch failed";
     json := Throw (JsError "Unexpected end of JSON input") |}.
Definition service_unavailable {A : Type} : Response A :=
  {| status := 503;
     statusText := "Service Unavailable";
     json := Throw (JsError "Unexpected end of JSON input") |}.
(** The connection is lost while the body is read. *)
Definition body_cut_short {A : Type} : Response A :=
  {| status := 200; statusText := "OK"; json := Throw (JsError "terminated") |}.
Definition unauthorized {A : Type} : Response A :=
  {| status := 401;
     statusText := "Unauthorized";
     json := Throw (JsError "Unexpected end of JSON input") |}.
Definition respond {A : Type} (r : Response A) : Fetch A := fun _ _ => Resolved r.
Definition reject {A : Type} (e : thrown) : Fetch A := fun _ _ => Rejected e.

Definition ok_response {A : Type} (a : A) : Response A :=
  {| status := 200; statusText := "OK"; json := Ok a |}.

(** A host: Numbers that are not small integers print as "?", every
    timestamp parses to the instant [t], every date prints as [text]. *)
Definition shortest : JsNumber.number -> string := fun _ => "?".
Definition parse_as (t : Z) : string -> option Z := fun _ => Some t.
Definition print_as (text : string) : Z -> string := fun _ => text.

Definition reading (celsius gust : Z) : Schema.Observation :=
  {| Schema.timestamp := "2024-01-01T00:00:00Z";
     Schema.temperature := JsNumber.of_Z celsius;
     Schema.feels_like := JsNumber.of_Z celsius;
     Schema.dew_point := JsNumber.of_Z 5;
     Schema.precipitation_rate := JsNumber.of_Z 0;
     Schema.precipitation_accumulated := JsNumber.lit 12 10;
     Schema.humidity := JsNumber.lit 555 10;
     Schema.wind_speed := JsNumber.of_Z 3;
     Schema.wind_gust := JsNumber.of_Z gust;
     Schema.wind_direction := JsNumber.of_Z 180;
     Schema.uv_index := JsNumber.of_Z 0;
     Schema.pressure := JsNumber.lit 101325 100;
     Schema.solar_irradiance := JsNumber.of_Z 500;
     Schema.icon := "rain" |}.

Definition latest : Schema.WeatherXMLatestResponse :=
  {| Schema.observation := reading 20 5;
     Schema.health :=
       {| Schema.health_timestamp := "2024-01-01T00:00:00Z";
          Schema.data_quality := {| Schema.dq_score := JsNumber.lit 9 10 |};
          Schema.location_quality :=
            {| Schema.lq_score := JsNumber.lit 5 10;
               Schema.lq_reason := "LOCATION_NOT_VERIFIED" |} |};
     Schema.location :=
       {| Schema.lat := JsNumber.lit 407128 10000;
          Schema.lon := JsNumber.lit (-740060) 10000;
          Schema.elevation := JsNumber.of_Z 12 |} |}.

(** Parsed bodies of /stations/{id}/latest: an answer of the declared
    type, or the object [{}], whose [location] is undefined, so that the
    first statement reading [location.lat] throws a [TypeError]. *)
Inductive latest_body : Type :=
| Declared (data : Schema.WeatherXMLatestResponse)
| EmptyObject.

Definition declared_latest (body : latest_body)
  : option Schema.WeatherXMLatestResponse :=
  match body with
  | Declared data => Some data
  | EmptyObject => None
  end.

Definition rendering_of_empty (body : latest_body) : result string :=
  Throw (JsError "Cannot read properties of undefined (reading 'lat')").

Definition twelve_points : list Schema.HistoricalDataPoint :=
  map (fun c => reading c 0) [7; 3; 9; 1; 12; 5; 8; 2; 11; 4; 10; 6].

(** 11.25 - 2^-49, the Number before 11.25 (the literal
    11.249999999999998). *)
Definition just_below_11_25 : JsNumber.number :=
  S754_finite false 6333186975989759 (-49).
End Scenario.

Module WindTable.
Import JsNumber Format.

Definition option_string_eqb (a b : option string) : bool :=
  match a, b with
  | Some x, Some y => String.eqb x y
  | _, _ => false
  end.

(** For a rounded quotient [n]: the Number of [n] is exact, and the
    element at its remainder by 16 is the label of index [n mod 16]. *)
Definition index_ok (n : Z) : bool :=
  match to_integer (of_Z n) with
  | Some z => z =? n
  | None => false
  end
  && option_string_eqb (array_get directions (rem (of_Z n) (of_Z 16)))
                       (nth_error directions (Z.to_nat (n mod 16))).

Definition periodic_at (d : number) : bool :=
  option_string_eqb (getWindDirection d) (getWindDirection (add d (of_Z 360))).

Fixpoint upto (n : nat) (lo : Z) : list Z :=
  match n with
  | O => []
  | S n' => lo :: upto n' (lo + 1)
  end.
End WindTable.

(** The four assessment lines of the station-health handler. *)
Module Assessment.
Import Tools.
Definition excellent : string :=
  "**Overall Assessment:** Excellent data quality" ++ nl.
Definition good : string := "**Overall Assessment:** Good data quality" ++ nl.
Definition fair : string := "**Overall Assessment:** Fair data quality" ++ nl.
Definition poor : string :=
  "**Overall Assessment:** Poor data quality - use with caution" ++ nl.
End Assessment.

(** Texts without an asterisk, and literals that neither contain a needle
    nor end with the beginning of one. *)
Module TextScan.

Definition star_free (s : string) : Prop :=
  Forall (fun c => c <> "*"%char) (list_ascii_of_string s).

Definition star_freeb (s : string) : bool :=
  forallb (fun c => negb (Ascii.eqb c "*")) (list_ascii_of_string s).

(** One of two strings is a prefix of the other. *)
Definition compatible (s n : string) : bool := prefix s n || prefix n s.

Fixpoint safe_literal (needle l : string) : bool :=
  match l with
  | EmptyString => true
  | String _ l' => negb (compatible l needle) && safe_literal needle l'
  end.

(** Prepending [s] does not change whether [needle] is found. *)
Definition clean (needle s : string) : Prop :=
  forall rest, JsString.includes (s ++ rest) needle = JsString.includes rest needle.

(** The labels of the optional lines of the current-weather text. *)
Definition optional_labels : list string :=
  ["**Wind Gust:**"; "**UV Index:**"; "**Solar Irradiance:**";
   "**Precipitation Rate:**"; "**Precipitation Accumulated:**"].

End TextScan.

(** ** Further inputs and decision tables *)

Module Fixtures.
Import ApiClient.

(** A page of text where JSON was expected: the parser quotes the
    beginning of the body in the message of its [SyntaxError]. *)
Definition text_body {A : Type} : Response A :=
  {| status := 200;
     statusText := "OK";
     json := Throw (JsError ("Unexpected token 'P', " ++ Tools.quote
                             ++ "Prefetchin" ++ Tools.quote
                             ++ "... is not valid JSON")) |}.

(** A station, two hours of a forecast, and a page of search results
    that says 25 results, 10 on a page. *)
Definition harbour : Schema.Station :=
  {| Schema.station_id_ := "WXM1";
     Schema.station_name := "Harbour";
     Schema.cellIndex := "8a2a1072b59ffff";
     Schema.station_location := Schema.location Scenario.latest;
     Schema.createdAt := "2023-05-01T00:00:00Z" |}.



Definition search_page : Schema.WeatherXMSearchResponse :=
  {| Schema.results :=
       {| Schema.result_stations := Value [harbour];
          Schema.total := JsNumber.of_Z 25;
          Schema.page := JsNumber.of_Z 1;
          Schema.limit := JsNumber.of_Z 10 |} |}.

End Fixtures.

Module Exchange.
Import ApiClient.

(** Two networks answer the request for [endpoint] alike: the same
    outcome for its URL and the headers of the client. *)
Definition same_answer {A : Type} (apiKey endpoint : string) (f g : Fetch A)
  : Prop :=
  f (WEATHERXM_API_BASE ++ endpoint) (request_headers apiKey)
  = g (WEATHERXM_API_BASE ++ endpoint) (request_headers apiKey).

(** An optional integral argument of a tool call. *)
Definition integral (arg : option Z) : option JsNumber.number :=
  option_map JsNumber.of_Z arg.

(** The characters that delimit the parts of a URL. *)
Definition delimiters : list ascii :=
  ["&"; "="; "?"; "#"; "/"; "+"; " "; ":"; ";"; ","]%char.

End Exchange.

(** Readings given in quarters of a degree or in tenths of a unit, and
    what exact arithmetic says of them. *)
Module Tables.
Import JsNumber Format WindTable.

Definition option_string_same (a b : option string) : bool :=
  match a, b with
  | Some x, Some y => String.eqb x y
  | None, None => true
  | _, _ => false
  end.

(** [k] quarters of a degree. *)
Definition quarters (k : Z) : number := lit k 4.

(** The sector of a direction of [k] quarters of a degree: sixteen
    sectors of 22.5 degrees, the first one centred on north; a boundary
    belongs to the sector that follows it clockwise. *)
Definition sector_of_quarters (k : Z) : Z := ((k + 45) / 90) mod 16.

Definition sector_ok (k : Z) : bool :=
  option_string_same (getWindDirection (quarters k))
                     (nth_error directions (Z.to_nat (sector_of_quarters k))).

(** What the lookup gives for [k] quarters of a degree below zero:
    nothing between -348.75 and -11.25 degrees. *)
Definition below_zero (k : Z) : option string :=
  if (-1395 <=? k) && (k <? -45) then None else Some "N".

Definition below_zero_ok (k : Z) : bool :=
  option_string_same (getWindDirection (quarters k)) (below_zero k).

(** The decimal text of [n / 10^f], after a minus sign when [negative]. *)
Definition decimal (negative : bool) (n : Z) (f : nat) : string :=
  (if negative then "-" else "") ++ fixed_digits n f.

(** Some [n] next to [guess] makes the text [shown n] and satisfies
    [near n]. *)
Definition nearby (guess : Z) (shown : Z -> string) (near : Z -> bool)
           (text : string) : bool :=
  existsb (fun n => String.eqb text (shown n) && near n)
          [guess - 1; guess; guess + 1].

Section Host.

Variable shortest : number -> string.

(** A temperature of [t] tenths of a degree Celsius is
    [(18 t + 3200) / 100] degrees Fahrenheit. *)
Definition temperature_shown (t n : Z) : string :=
  decimal (18 * t + 3200 <? 0) n 1 ++ "°F ("
  ++ decimal (t <? 0) (Z.abs t) 1 ++ "°C)".

Definition temperature_near (t n : Z) : bool :=
  (0 <=? n) && (Z.abs (10 * n - Z.abs (18 * t + 3200)) <=? 5).

Definition temperature_ok (t : Z) : bool :=
  nearby (Z.abs (18 * t + 3200) / 10) (temperature_shown t) (temperature_near t)
         (formatTemperature shortest (lit t 10)).

(** A wind of [t] tenths of a metre per second is [2237 t / 10000]
    miles per hour. *)
Definition wind_near (t n : Z) : bool :=
  (0 <=? n) && (Z.abs (1000 * n - 2237 * t) <=? 500).

Definition wind_ok (t : Z) : bool :=
  nearby (2237 * t / 1000) (fun n => fixed_digits n 1 ++ " mph") (wind_near t)
         (formatWindSpeed shortest (lit t 10)).

(** A pressure of [t] tenths of a hectopascal is [2953 t / 1000000]
    inches of mercury. *)
Definition pressure_near (t n : Z) : bool :=
  (0 <=? n) && (Z.abs (10000 * n - 2953 * t) <=? 5000).

Definition pressure_ok (t : Z) : bool :=
  nearby (2953 * t / 10000) (fun n => fixed_digits n 2 ++ " inHg")
         (pressure_near t) (formatPressure shortest (lit t 10)).

(** A depth of [t] tenths of a millimetre is [t / 254] inches. *)
Definition precipitation_near (t n : Z) : bool :=
  (0 <=? n) && (Z.abs (254 * n - 100 * t) <=? 127).

Definition precipitation_ok (t : Z) : bool :=
  nearby (100 * t / 254) (fun n => fixed_digits n 2 ++ " in")
         (precipitation_near t) (formatPrecipitation shortest (lit t 10)).

(** A data-quality score of [k] hundredths: the percentage shown and
    the assessment. *)
Definition tier (k : Z) : string :=
  if 80 <=? k then Assessment.excellent
  else if 60 <=? k then Assessment.good
  else if 40 <=? k then Assessment.fair
  else Assessment.poor.

Definition quality_ok (k : Z) : bool :=
  String.eqb (toFixed shortest (mul (lit k 100) (of_Z 100)) 0) (JsString.of_Z k)
  && String.eqb (Tools.overall_assessment (lit k 100)) (tier k).

(** The number of pages for [total] results, [size] on a page. *)
Definition pages (total size : Z) : Z := (total + size - 1) / size.

Definition pages_ok (total size : Z) : bool :=
  String.eqb (toString shortest (Math_ceil (div (of_Z total) (of_Z size))))
             (JsString.of_Z (pages total size)).

End Host.

End Tables.

(** * Properties *)

(** ** Strings *)

Lemma prefix_cons_neq (c d : ascii) (n s : string) :
  c <> d -> prefix (String c n) (String d s) = false.
Proof.
  intros Hneq. simpl. destruct (ascii_dec c d) as [Heq | _].
  - contradiction.
  - reflexivity.
Qed.

(** A needle starting with [c] is not found before the first [c]. *)
Lemma includes_skip (c : ascii) (n a b : string) :
  (forall d, In d (list_ascii_of_string a) -> d <> c) ->
  JsString.includes (a ++ b) (String c n) = JsString.includes b (String c n).
Proof.
  induction a as [| d a IH]; intros Hall.
  - reflexivity.
  - change (String d a ++ b) with (String d (a ++ b)).
    change (JsString.includes (String d (a ++ b)) (String c n))
      with (prefix (String c n) (String d (a ++ b))
            || JsString.includes (a ++ b) (String c n)).
    rewrite prefix_cons_neq.
    + simpl. apply IH. intros d' Hin. apply Hall. simpl. now right.
    + intros Heq. apply (Hall d); [simpl; now left | now symmetry].
Qed.

Lemma string_of_uint_digits (d : Decimal.uint) (c : ascii) :
  In c (list_ascii_of_string (NilEmpty.string_of_uint d)) -> In c JsString.digit_chars.
Proof.
  induction d; simpl; intros Hin; try contradiction;
    (destruct Hin as [<- | Hin];
     [unfold JsString.digit_chars; simpl; tauto | exact (IHd Hin)]).
Qed.

Lemma nilzero_digits (d : Decimal.uint) (c : ascii) :
  In c (list_ascii_of_string (NilZero.string_of_uint d)) -> In c JsString.digit_chars.
Proof.
  unfold NilZero.string_of_uint.
  destruct d; cbv beta iota; try apply string_of_uint_digits.
  simpl. intros [<- | []]. unfold JsString.digit_chars; simpl; tauto.
Qed.

Lemma of_Z_digits (z : Z) (c : ascii) :
  In c (list_ascii_of_string (JsString.of_Z z)) -> In c JsString.digit_chars.
Proof.
  unfold JsString.of_Z, NilZero.string_of_int.
  destruct (Z.to_int z) as [d | d].
  - apply nilzero_digits.
  - simpl. intros [<- | Hin]; [unfold JsString.digit_chars; simpl; tauto |].
    now apply (nilzero_digits d).
Qed.

Lemma digit_not_f (c : ascii) : In c JsString.digit_chars -> c <> "f"%char.
Proof.
  unfold JsString.digit_chars. simpl. intros H Heq. subst c.
  repeat (destruct H as [H | H]; [discriminate H |]). exact H.
Qed.

Lemma append_assoc (a b c : string) : (a ++ b) ++ c = a ++ (b ++ c).
Proof.
  induction a as [| x a IH]; simpl; [reflexivity | now rewrite IH].
Qed.

(** The message of an upstream error contains "fetch" exactly when the
    status text does. *)
Lemma upstream_message_includes_fetch (st : Z) (txt : string) :
  JsString.includes
    ("WeatherXM API error: " ++ JsString.of_Z st ++ " " ++ txt) "fetch"
  = JsString.includes txt "fetch".
Proof.
  change ("WeatherXM API error: " ++ JsString.of_Z st ++ " " ++ txt)
    with ("WeatherXM API error: " ++ (JsString.of_Z st ++ String " " txt)).
  rewrite (includes_skip "f" "etch" "WeatherXM API error: ").
  - rewrite (includes_skip "f" "etch" (JsString.of_Z st)).
    + reflexivity.
    + intros d Hin. apply digit_not_f. now apply (of_Z_digits st).
  - simpl. intros d Hin Heq. subst d.
    repeat (destruct Hin as [Hin | Hin]; [discriminate Hin |]). exact Hin.
Qed.

Lemma prefix_app (n s : string) :
  prefix n s = true <-> exists post, s = n ++ post.
Proof.
  revert s. induction n as [| c n IH]; intros s.
  - split; [intros _; now exists s | intros _; destruct s; reflexivity].
  - destruct s as [| d s]; simpl.
    + split; [discriminate | intros [post H]; discriminate H].
    + destruct (ascii_dec c d) as [<- | Hne].
      * rewrite IH. split; intros [post H]; exists post.
        -- now rewrite H.
        -- now injection H.
      * split; [discriminate | intros [post H]]. injection H as H1 H2.
        now elim Hne.
Qed.

(** [includes] decides occurrence. *)
Lemma includes_occurs (s n : string) :
  JsString.includes s n = true <-> JsString.occurs_in n s.
Proof.
  unfold JsString.occurs_in. induction s as [| c s IH].
  - change (JsString.includes "" n) with (prefix n "" || false).
    rewrite orb_false_r, prefix_app. split.
    + intros [post H]. exists "", post. exact H.
    + intros (pre & post & H). destruct pre; simpl in H.
      * now exists post.
      * discriminate H.
  - change (JsString.includes (String c s) n)
      with (prefix n (String c s) || JsString.includes s n).
    rewrite orb_true_iff, prefix_app, IH. split.
    + intros [[post H] | (pre & post & H)].
      * exists "", post. exact H.
      * exists (String c pre), post. simpl. now rewrite H.
    + intros (pre & post & H). destruct pre as [| d pre]; simpl in H.
      * left. now exists post.
      * right. injection H as _ H. now exists pre, post.
Qed.

(** ** The API client *)

Section ClientProperties.
Import ApiClient.
Context {A : Type}.
Variable fetch : Fetch A.
Variables endpoint apiKey : string.

Let outcome := fetch (WEATHERXM_API_BASE ++ endpoint) (request_headers apiKey).

(** The [try] block on a non-success status throws the error of the
    kind the status selects. *)
Lemma attempt_status_error (r : Response A) :
  outcome = Resolved r -> ok r = false ->
  request_attempt fetch endpoint apiKey
  = Throw (error_of_kind (kind_of_status (status r) (statusText r))).
Proof.
  unfold outcome, request_attempt, kind_of_status. intros -> ->. simpl.
  destruct (status r =? 401); [reflexivity |].
  destruct (status r =? 404); [reflexivity |].
  destruct (status r =? 429); [reflexivity |].
  destruct (status r =? 500); reflexivity.
Qed.

Lemma attempt_success (r : Response A) :
  outcome = Resolved r -> ok r = true ->
  request_attempt fetch endpoint apiKey = json r.
Proof.
  unfold outcome, request_attempt. intros -> ->. reflexivity.
Qed.

Lemma attempt_rejected (e : thrown) :
  outcome = Rejected e -> request_attempt fetch endpoint apiKey = Throw e.
Proof.
  unfold outcome, request_attempt. intros ->. reflexivity.
Qed.

(** The message of a status error contains "fetch" only through the
    status text. *)
Lemma status_error_includes_fetch (st : Z) (txt : string) :
  match error_of_kind (kind_of_status st txt) with
  | JsError m => JsString.includes m "fetch" = JsString.includes txt "fetch"
                 \/ JsString.includes m "fetch" = false
  | JsNonError _ => False
  end.
Proof.
  unfold kind_of_status.
  destruct (st =? 401); [right; reflexivity |].
  destruct (st =? 404); [right; reflexivity |].
  destruct (st =? 429); [right; reflexivity |].
  destruct (st =? 500); [right; reflexivity |].
  left. apply upstream_message_includes_fetch.
Qed.

(** With a status text free of "fetch", a non-success status surfaces
    as the error of its kind. *)
Lemma request_status_error (r : Response A) :
  outcome = Resolved r -> ok r = false ->
  JsString.includes (statusText r) "fetch" = false ->
  weatherxmApiRequest fetch endpoint apiKey
  = Throw (error_of_kind (kind_of_status (status r) (statusText r))).
Proof.
  intros Hout Hok Htxt. unfold weatherxmApiRequest.
  rewrite (attempt_status_error r Hout Hok).
  pose proof (status_error_includes_fetch (status r) (statusText r)) as H.
  destruct (error_of_kind (kind_of_status (status r) (statusText r)))
    as [m | v]; [| contradiction].
  unfold try_catch, request_rescue.
  destruct H as [H | H]; [rewrite H, Htxt | rewrite H]; reflexivity.
Qed.

(** A 401, 404, 429 or 500 surfaces as the error of its kind whatever
    the status text. *)
Lemma request_fixed_status_error (r : Response A) :
  outcome = Resolved r -> In (status r) [401; 404; 429; 500] ->
  weatherxmApiRequest fetch endpoint apiKey
  = Throw (error_of_kind (kind_of_status (status r) (statusText r))).
Proof.
  intros Hout Hin. unfold weatherxmApiRequest.
  assert (Hok : ok r = false).
  { unfold ok. simpl in Hin.
    destruct Hin as [<- | [<- | [<- | [<- | []]]]]; reflexivity. }
  rewrite (attempt_status_error r Hout Hok). unfold kind_of_status.
  simpl in Hin.
  destruct Hin as [<- | [<- | [<- | [<- | []]]]]; reflexivity.
Qed.

(** On a success status the parsed body is returned as it is. *)
Lemma request_success (r : Response A) (a : A) :
  outcome = Resolved r -> ok r = true -> json r = Ok a ->
  weatherxmApiRequest fetch endpoint apiKey = Ok a.
Proof.
  intros Hout Hok Hjson. unfold weatherxmApiRequest.
  rewrite (attempt_success r Hout Hok), Hjson. reflexivity.
Qed.

Lemma request_rejected_fetch (m : string) :
  outcome = Rejected (JsError m) -> JsString.includes m "fetch" = true ->
  weatherxmApiRequest fetch endpoint apiKey
  = Throw (error_of_kind NetworkUnavailable).
Proof.
  intros Hout Hm. unfold weatherxmApiRequest.
  rewrite (attempt_rejected _ Hout). simpl. rewrite Hm. reflexivity.
Qed.

Lemma request_rejected_other (e : thrown) :
  outcome = Rejected e ->
  match e with
  | JsError m => JsString.includes m "fetch" = false
  | JsNonError _ => True
  end ->
  weatherxmApiRequest fetch endpoint apiKey = Throw e.
Proof.
  intros Hout He. unfold weatherxmApiRequest.
  rewrite (attempt_rejected _ Hout). destruct e as [m | v]; simpl.
  - rewrite He. reflexivity.
  - reflexivity.
Qed.

End ClientProperties.

(** C1 (at the failing input).  A 502 response whose reason phrase is
    "Upstream fetch failed" is not reported as the upstream error carrying
    its status and status text: the [catch] clause of the client sees
    "fetch" in the message it has just thrown and replaces the error by the
    connection error. *)
Theorem upstream_error_masked_by_rescue :
  ApiClient.weatherxmApiRequest (A := unit)
    (Scenario.respond Scenario.bad_gateway) "/stations/WXM1/latest" "key"
  = Throw (ApiClient.error_of_kind ApiClient.NetworkUnavailable)
  /\ ApiClient.request_attempt (A := unit)
       (Scenario.respond Scenario.bad_gateway) "/stations/WXM1/latest" "key"
     = Throw (ApiClient.error_of_kind
                (ApiClient.UpstreamError 502 "Upstream fetch failed"))
  /\ ApiClient.error_of_kind (ApiClient.UpstreamError 502 "Upstream fetch failed")
     = JsError "WeatherXM API error: 502 Upstream fetch failed"
  /\ ApiClient.error_of_kind ApiClient.NetworkUnavailable
     <> ApiClient.error_of_kind
          (ApiClient.UpstreamError 502 "Upstream fetch failed").
Proof.
  repeat split; try reflexivity. discriminate.
Qed.

(** C3 (as stated, refuted).  A rejection of the fetch whose message does
    not contain "fetch" is rethrown as it is, not as the connection error;
    so is a failure while the body of a successful response is read. *)
Lemma rejection_without_fetch_is_rethrown :
  ApiClient.weatherxmApiRequest (A := unit)
    (Scenario.reject (JsError "Network connection lost."))
    "/stations/WXM1/latest" "key"
  = Throw (JsError "Network connection lost.")
  /\ ApiClient.weatherxmApiRequest (A := unit)
       (Scenario.reject (JsError "Network connection lost."))
       "/stations/WXM1/latest" "key"
     <> Throw (ApiClient.error_of_kind ApiClient.NetworkUnavailable)
  /\ ApiClient.weatherxmApiRequest (A := unit)
       (Scenario.respond Scenario.body_cut_short) "/stations/WXM1/latest" "key"
     = Throw (JsError "terminated").
Proof.
  split; [reflexivity | split; [discriminate | reflexivity]].
Qed.

(** C3 (amended).  The client fails with the connection error when the
    fetch rejects with an [Error] whose message contains "fetch"; every
    other rejection is rethrown unchanged; a non-success status whose
    status text is free of "fetch" and a success status whose body parses
    are not turned into the connection error. *)
Theorem network_unavailable_on_fetch_message :
  forall (A : Type) (fetch : ApiClient.Fetch A) (endpoint apiKey : string),
    let outcome := fetch (ApiClient.WEATHERXM_API_BASE ++ endpoint)
                         (ApiClient.request_headers apiKey) in
    let res := ApiClient.weatherxmApiRequest fetch endpoint apiKey in
    let unavailable := Throw (ApiClient.error_of_kind ApiClient.NetworkUnavailable) in
    (forall m, outcome = ApiClient.Rejected (JsError m) ->
               JsString.includes m "fetch" = true -> res = unavailable)
    /\ (forall m, outcome = ApiClient.Rejected (JsError m) ->
                  JsString.includes m "fetch" = false -> res = Throw (JsError m))
    /\ (forall v, outcome = ApiClient.Rejected (JsNonError v) ->
                  res = Throw (JsNonError v))
    /\ (forall r, outcome = ApiClient.Resolved r -> ApiClient.ok r = false ->
                  JsString.includes (ApiClient.statusText r) "fetch" = false ->
                  res <> unavailable)
    /\ (forall r a, outcome = ApiClient.Resolved r -> ApiClient.ok r = true ->
                    ApiClient.json r = Ok a -> res = Ok a).
Proof.
  intros A fetch endpoint apiKey outcome res unavailable.
  repeat split.
  - intros m Hout Hm. now apply (request_rejected_fetch fetch endpoint apiKey m).
  - intros m Hout Hm.
    now apply (request_rejected_other fetch endpoint apiKey (JsError m)).
  - intros v Hout.
    now apply (request_rejected_other fetch endpoint apiKey (JsNonError v)).
  - intros r Hout Hok Htxt. unfold res.
    rewrite (request_status_error fetch endpoint apiKey r Hout Hok Htxt).
    unfold unavailable, ApiClient.kind_of_status.
    destruct (ApiClient.status r =? 401); [discriminate |].
    destruct (ApiClient.status r =? 404); [discriminate |].
    destruct (ApiClient.status r =? 429); [discriminate |].
    destruct (ApiClient.status r =? 500); discriminate.
  - intros r a Hout Hok Hjson.
    now apply (request_success fetch endpoint apiKey r a).
Qed.

(** Node's fetch rejects with the message "fetch failed". *)
Lemma network_unavailable_on_fetch_message_witness :
  ApiClient.weatherxmApiRequest (A := unit)
    (Scenario.reject (JsError "fetch failed")) "/stations/WXM1/latest" "key"
  = Throw (ApiClient.error_of_kind ApiClient.NetworkUnavailable).
Proof.
  exact (proj1 (network_unavailable_on_fetch_message unit
                  (Scenario.reject (JsError "fetch failed"))
                  "/stations/WXM1/latest" "key")
               "fetch failed" eq_refl eq_refl).
Defined.

(** ** The status table of the client *)

(** X1.  A response with a non-success status makes the client fail with
    the error of the kind its status selects, whenever the status is 401,
    404, 429 or 500 or the status text is free of "fetch"; a success status
    returns the parsed body as it is. *)
Theorem status_selects_error_kind :
  forall (A : Type) (fetch : ApiClient.Fetch A) (endpoint apiKey : string)
         (r : ApiClient.Response A),
    fetch (ApiClient.WEATHERXM_API_BASE ++ endpoint)
          (ApiClient.request_headers apiKey) = ApiClient.Resolved r ->
    (ApiClient.ok r = false ->
     In (ApiClient.status r) [401; 404; 429; 500]
     \/ JsString.includes (ApiClient.statusText r) "fetch" = false ->
     ApiClient.weatherxmApiRequest fetch endpoint apiKey
     = Throw (ApiClient.error_of_kind
                (ApiClient.kind_of_status (ApiClient.status r)
                                          (ApiClient.statusText r))))
    /\ (forall a, ApiClient.ok r = true -> ApiClient.json r = Ok a ->
                  ApiClient.weatherxmApiRequest fetch endpoint apiKey = Ok a).
Proof.
  intros A fetch endpoint apiKey r Hout. split.
  - intros Hok [Hfixed | Htxt].
    + now apply request_fixed_status_error.
    + now apply request_status_error.
  - intros a Hok Hjson. now apply (request_success fetch endpoint apiKey r a).
Qed.

(** A 503 with the reason phrase "Service Unavailable". *)
Lemma status_selects_error_kind_witness :
  ApiClient.weatherxmApiRequest (A := unit)
    (Scenario.respond Scenario.service_unavailable) "/stations/WXM1/latest" "key"
  = Throw (JsError "WeatherXM API error: 503 Service Unavailable").
Proof.
  exact (proj1 (status_selects_error_kind unit
                  (Scenario.respond Scenario.service_unavailable)
                  "/stations/WXM1/latest" "key" Scenario.service_unavailable
                  eq_refl)
               eq_refl (or_intror eq_refl)).
Defined.

(** ** The handlers' [catch] clause *)

Lemma tool_returns {A : Type} (r : result A) (render : A -> string) (a : A) :
  r = Ok a -> Tools.tool (x <- r ;; Ok (render x)) = render a.
Proof.
  intros ->. reflexivity.
Qed.

(** A [try] block followed by the handlers' [catch] clause returns. *)
Lemma try_catch_caught (block : result string) :
  try_catch block Unvalidated.caught = Ok (Tools.tool block).
Proof.
  destruct block as [text | e]; reflexivity.
Qed.

Lemma caught_block {Body A : Type} (declared : Body -> option A)
      (otherwise : Body -> result string) (render : A -> string)
      (request : result Body) :
  Unvalidated.catches declared otherwise render request
    (try_catch (body <- request ;;
                Unvalidated.rendered declared otherwise render body)
               Unvalidated.caught).
Proof.
  unfold Unvalidated.catches, Unvalidated.rendered.
  destruct request as [body | [message | v]]; try reflexivity.
  simpl bind. destruct (declared body) as [data |]; [reflexivity |].
  destruct (otherwise body) as [made | [message | v]]; reflexivity.
Qed.

Section HandlerErrors.
Import JsNumber Schema ApiClient Tools.

Variable shortest : number -> string.
Variable Date_parse : string -> option Z.
Variable toLocaleString : Z -> string.
Variable getTimezoneOffset : Z -> Z.
Variable now : Z.
Variable apiKey : string.
Context {Body : Type}.
Variable otherwise : Body -> result string.

Let str := toString shortest.

(** The handlers of [Tools] are the handlers on bodies of the declared
    type, where the cast changes nothing: their text is the text
    returned. *)
Lemma handlers_on_declared_answers :
  (forall stray fetch station_id,
      Unvalidated.get_current_weather shortest Date_parse toLocaleString now
        apiKey Some stray fetch station_id
      = Ok (get_current_weather shortest Date_parse toLocaleString now apiKey
                                fetch station_id))
  /\ (forall stray fetch station_id hours,
         Unvalidated.get_hourly_forecast shortest Date_parse toLocaleString
           apiKey Some stray fetch station_id hours
         = Ok (get_hourly_forecast shortest Date_parse toLocaleString apiKey
                                   fetch station_id hours))
  /\ (forall stray fetch station_id days,
         Unvalidated.get_daily_forecast shortest Date_parse toLocaleString
           apiKey Some stray fetch station_id days
         = Ok (get_daily_forecast shortest Date_parse toLocaleString apiKey
                                  fetch station_id days))
  /\ (forall stray fetch station_id start_date end_date,
         Unvalidated.get_historical_weather shortest Date_parse toLocaleString
           apiKey Some stray fetch station_id start_date end_date
         = Ok (get_historical_weather shortest Date_parse toLocaleString apiKey
                                      fetch station_id start_date end_date))
  /\ (forall stray fetch latitude longitude,
         Unvalidated.get_weather_alerts shortest Date_parse toLocaleString
           apiKey Some stray fetch latitude longitude
         = Ok (get_weather_alerts shortest Date_parse toLocaleString apiKey
                                  fetch latitude longitude))
  /\ (forall stray fetch latitude longitude radius,
         Unvalidated.find_weather_stations shortest Date_parse toLocaleString
           apiKey Some stray fetch latitude longitude radius
         = Ok (find_weather_stations shortest Date_parse toLocaleString apiKey
                                     fetch latitude longitude radius))
  /\ (forall stray fetch query page limit,
         Unvalidated.search_weather_stations shortest Date_parse toLocaleString
           apiKey Some stray fetch query page limit
         = Ok (search_weather_stations shortest Date_parse toLocaleString apiKey
                                       fetch query page limit))
  /\ (forall stray fetch latitude longitude radius,
         Unvalidated.get_weather_cells shortest apiKey Some stray
           fetch latitude longitude radius
         = Ok (get_weather_cells shortest apiKey fetch latitude longitude radius))
  /\ (forall stray fetch station_id,
         Unvalidated.get_station_health shortest Date_parse toLocaleString
           apiKey Some stray fetch station_id
         = Ok (get_station_health shortest Date_parse toLocaleString apiKey
                                  fetch station_id))
  /\ (forall stray fetch station_id,
         Unvalidated.get_station_local_time shortest Date_parse toLocaleString
           getTimezoneOffset now apiKey Some stray fetch station_id
         = Ok (get_station_local_time shortest Date_parse toLocaleString
                                      getTimezoneOffset now apiKey
                                      fetch station_id)).
Proof.
  repeat split; intros;
    unfold Unvalidated.get_current_weather, Unvalidated.get_hourly_forecast,
      Unvalidated.get_daily_forecast, Unvalidated.get_historical_weather,
      Unvalidated.get_weather_alerts, Unvalidated.find_weather_stations,
      Unvalidated.search_weather_stations, Unvalidated.get_weather_cells,
      Unvalidated.get_station_health, Unvalidated.get_station_local_time,
      get_current_weather, get_hourly_forecast, get_daily_forecast,
      get_historical_weather, get_weather_alerts, find_weather_stations,
      search_weather_stations, get_weather_cells, get_station_health,
      get_station_local_time;
    cbv zeta; rewrite try_catch_caught; f_equal;
    match goal with
    | |- context [weatherxmApiRequest ?f ?e ?k] =>
        destruct (weatherxmApiRequest f e k) as [data | e']
    end; try reflexivity;
    unfold bind, Unvalidated.rendered, Unvalidated.weather_alerts_text,
      Unvalidated.found_stations_text, Unvalidated.searched_stations_text,
      Unvalidated.weather_cells_text; cbv zeta beta iota;
    repeat match goal with
           | |- context [if ?c then _ else _] => destruct c
           end; reflexivity.
Qed.

(** C2.  Each of the ten handlers returns, whatever is thrown inside
    its [try] block, by the request to the API client or by the
    statements that render the body: its text is then "Error: " followed
    by the message, or "Error: Unknown error" when the thrown value is
    not an [Error]; the body is the unvalidated JSON that the handler
    only casts.  A 401 answer to get_current_weather yields exactly the
    invalid-key text. *)
Theorem handlers_return_error_text :
  (forall declared fetch station_id,
      Unvalidated.catches declared otherwise
        (Unvalidated.current_weather_text shortest Date_parse toLocaleString
                                          now station_id)
        (weatherxmApiRequest fetch ("/stations/" ++ station_id ++ "/latest")
                             apiKey)
        (Unvalidated.get_current_weather shortest Date_parse toLocaleString now
           apiKey declared otherwise fetch station_id))
  /\ (forall declared fetch station_id hours,
         Unvalidated.catches declared otherwise
           (hourly_forecast_text shortest Date_parse toLocaleString station_id
                                 (with_default (of_Z 48) hours))
           (weatherxmApiRequest fetch
              ("/stations/" ++ station_id ++ "/forecast/hourly?hours="
               ++ str (with_default (of_Z 48) hours)) apiKey)
           (Unvalidated.get_hourly_forecast shortest Date_parse toLocaleString
              apiKey declared otherwise fetch station_id hours))
  /\ (forall declared fetch station_id days,
         Unvalidated.catches declared otherwise
           (daily_forecast_text shortest Date_parse toLocaleString station_id
                                (with_default (of_Z 7) days))
           (weatherxmApiRequest fetch
              ("/stations/" ++ station_id ++ "/forecast/daily?days="
               ++ str (with_default (of_Z 7) days)) apiKey)
           (Unvalidated.get_daily_forecast shortest Date_parse toLocaleString
              apiKey declared otherwise fetch station_id days))
  /\ (forall declared fetch station_id start_date end_date,
         Unvalidated.catches declared otherwise
           (historical_text shortest Date_parse toLocaleString
                            station_id start_date end_date)
           (weatherxmApiRequest fetch
              ("/stations/" ++ station_id ++ "/historical?start=" ++ start_date
               ++ "&end=" ++ end_date) apiKey)
           (Unvalidated.get_historical_weather shortest Date_parse
              toLocaleString apiKey declared otherwise fetch
              station_id start_date end_date))
  /\ (forall declared fetch latitude longitude,
         Unvalidated.catches declared otherwise
           (Unvalidated.weather_alerts_text shortest Date_parse toLocaleString
                                            latitude longitude)
           (weatherxmApiRequest fetch
              ("/alerts?lat=" ++ str latitude ++ "&lon=" ++ str longitude)
              apiKey)
           (Unvalidated.get_weather_alerts shortest Date_parse toLocaleString
              apiKey declared otherwise fetch latitude longitude))
  /\ (forall declared fetch latitude longitude radius,
         Unvalidated.catches declared otherwise
           (Unvalidated.found_stations_text shortest Date_parse toLocaleString
              latitude longitude (with_default (of_Z 50) radius))
           (weatherxmApiRequest fetch
              ("/stations?lat=" ++ str latitude ++ "&lon=" ++ str longitude
               ++ "&radius=" ++ str (with_default (of_Z 50) radius)) apiKey)
           (Unvalidated.find_weather_stations shortest Date_parse toLocaleString
              apiKey declared otherwise fetch latitude longitude radius))
  /\ (forall declared fetch query page limit,
         Unvalidated.catches declared otherwise
           (Unvalidated.searched_stations_text shortest Date_parse
                                               toLocaleString query)
           (weatherxmApiRequest fetch
              ("/stations/search?q=" ++ JsString.encodeURIComponent query
               ++ "&page=" ++ str (with_default (of_Z 1) page)
               ++ "&limit=" ++ str (with_default (of_Z 10) limit)) apiKey)
           (Unvalidated.search_weather_stations shortest Date_parse
              toLocaleString apiKey declared otherwise fetch
              query page limit))
  /\ (forall declared fetch latitude longitude radius,
         Unvalidated.catches declared otherwise
           (Unvalidated.weather_cells_text shortest latitude longitude
                                           (with_default (of_Z 50) radius))
           (weatherxmApiRequest fetch
              ("/cells?lat=" ++ str latitude ++ "&lon=" ++ str longitude
               ++ "&radius=" ++ str (with_default (of_Z 50) radius)) apiKey)
           (Unvalidated.get_weather_cells shortest apiKey declared
              otherwise fetch latitude longitude radius))
  /\ (forall declared fetch station_id,
         Unvalidated.catches declared otherwise
           (Unvalidated.station_health_text shortest Date_parse toLocaleString
                                            station_id)
           (weatherxmApiRequest fetch ("/stations/" ++ station_id ++ "/latest")
                                apiKey)
           (Unvalidated.get_station_health shortest Date_parse toLocaleString
              apiKey declared otherwise fetch station_id))
  /\ (forall declared fetch station_id,
         Unvalidated.catches declared otherwise
           (Unvalidated.station_local_time_text shortest Date_parse
              toLocaleString getTimezoneOffset now station_id)
           (weatherxmApiRequest fetch ("/stations/" ++ station_id ++ "/latest")
                                apiKey)
           (Unvalidated.get_station_local_time shortest Date_parse
              toLocaleString getTimezoneOffset now apiKey declared
              otherwise fetch station_id))
  /\ (forall declared fetch station_id r,
         fetch (WEATHERXM_API_BASE ++ "/stations/" ++ station_id ++ "/latest")
               (request_headers apiKey) = Resolved r ->
         status r = 401 ->
         Unvalidated.get_current_weather shortest Date_parse toLocaleString now
           apiKey declared otherwise fetch station_id
         = Ok "Error: Invalid API key. Please check your WeatherXM API key.").
Proof.
  repeat split; intros; try apply caught_block.
  unfold Unvalidated.get_current_weather.
  rewrite (request_fixed_status_error fetch ("/stations/" ++ station_id ++ "/latest")
             apiKey r).
  - match goal with H : status r = 401 |- _ => rewrite H end. reflexivity.
  - assumption.
  - match goal with H : status r = 401 |- _ => rewrite H end. simpl. tauto.
Qed.

End HandlerErrors.

(** The object [{}] in answer to get_current_weather: the statement
    that reads [location.lat] throws, and the handler returns the
    message; and a 401. *)
Lemma handlers_return_error_text_witness :
  Unvalidated.get_current_weather Scenario.shortest (Scenario.parse_as 0)
    (Scenario.print_as "Jan 1") 0 "key" Scenario.declared_latest
    Scenario.rendering_of_empty
    (Scenario.respond (Scenario.ok_response Scenario.EmptyObject)) "WXM1"
  = Ok "Error: Cannot read properties of undefined (reading 'lat')"
  /\ Unvalidated.get_current_weather Scenario.shortest (Scenario.parse_as 0)
       (Scenario.print_as "Jan 1") 0 "key" Scenario.declared_latest
       Scenario.rendering_of_empty
       (Scenario.respond Scenario.unauthorized) "WXM1"
     = Ok "Error: Invalid API key. Please check your WeatherXM API key.".
Proof.
  pose proof (handlers_return_error_text Scenario.shortest (Scenario.parse_as 0)
                (Scenario.print_as "Jan 1") (fun _ => 0) 0 "key"
                Scenario.rendering_of_empty) as H.
  split.
  - exact (proj1 H Scenario.declared_latest
                 (Scenario.respond (Scenario.ok_response Scenario.EmptyObject))
                 "WXM1").
  - exact (proj2 (proj2 (proj2 (proj2 (proj2 (proj2 (proj2 (proj2 (proj2 (proj2
             H)))))))))
            Scenario.declared_latest (Scenario.respond Scenario.unauthorized)
            "WXM1" Scenario.unauthorized eq_refl eq_refl).
Defined.

(** ** Numbers: comparison *)

Module NumberFacts.
Import JsNumber.

Lemma compare_cont_eq (p q : positive) :
  Pos.compare_cont Eq p q = Pos.compare p q.
Proof. reflexivity. Qed.

Ltac order_cases :=
  repeat match goal with
         | H : context [Pos.compare_cont Eq ?p ?q] |- _ =>
             rewrite (compare_cont_eq p q) in H
         | |- context [Pos.compare_cont Eq ?p ?q] =>
             rewrite (compare_cont_eq p q)
         end;
  repeat match goal with
         | H : context [Z.compare ?a ?b] |- _ =>
             destruct (Z.compare_spec a b); simpl in H
         | |- context [Z.compare ?a ?b] =>
             destruct (Z.compare_spec a b); simpl
         | H : context [Pos.compare ?a ?b] |- _ =>
             destruct (Pos.compare_spec a b); simpl in H
         | |- context [Pos.compare ?a ?b] =>
             destruct (Pos.compare_spec a b); simpl
         end;
  subst; try reflexivity; try discriminate; try lia.

Lemma compare_antisym (x y : number) :
  SFcompare y x = option_map CompOpp (SFcompare x y).
Proof.
  destruct x as [sx | sx | | sx mx ex], y as [sy | sy | | sy my ey];
    try destruct sx; try destruct sy; simpl; try reflexivity;
    order_cases.
Qed.

Lemma ltb_not_geb (x y : number) : ltb x y = true -> geb x y = false.
Proof.
  unfold ltb, geb, SFltb, SFleb. rewrite (compare_antisym x y).
  destruct (SFcompare x y) as [[] |]; simpl; congruence.
Qed.

Lemma ltb_leb (x y : number) : ltb x y = true -> leb x y = true.
Proof.
  unfold ltb, leb, SFltb, SFleb.
  destruct (SFcompare x y) as [[] |]; congruence.
Qed.

(** Two Numbers other than NaN are comparable. *)
Lemma not_ltb_leb (x y : number) :
  is_nan x = false -> is_nan y = false -> ltb x y = false -> leb y x = true.
Proof.
  unfold ltb, leb, SFltb, SFleb. rewrite (compare_antisym x y).
  destruct x, y; try discriminate; intros _ _;
    destruct (SFcompare _ _) as [[] |] eqn:E; simpl; try congruence;
    discriminate E.
Qed.

Lemma leb_refl (x : number) : is_nan x = false -> leb x x = true.
Proof.
  unfold leb, SFleb.
  destruct x as [s | s | | s m e]; try destruct s; simpl; try reflexivity;
    try discriminate; intros _; rewrite Z.compare_refl, compare_cont_eq,
    Pos.compare_refl; reflexivity.
Qed.

Lemma leb_trans (x y z : number) :
  leb x y = true -> leb y z = true -> leb x z = true.
Proof.
  unfold leb, SFleb.
  destruct x as [sx | sx | | sx mx ex], y as [sy | sy | | sy my ey],
           z as [sz | sz | | sz mz ez];
    try destruct sx; try destruct sy; try destruct sz; simpl;
    try reflexivity; try discriminate; intros Hxy Hyz; order_cases.
Qed.

Lemma ltb_leb_trans (x y z : number) :
  ltb x y = true -> leb y z = true -> ltb x z = true.
Proof.
  unfold ltb, SFltb, leb, SFleb.
  destruct x as [sx | sx | | sx mx ex], y as [sy | sy | | sy my ey],
           z as [sz | sz | | sz mz ez];
    try destruct sx; try destruct sy; try destruct sz; simpl;
    try reflexivity; try discriminate; intros Hxy Hyz; order_cases.
Qed.

End NumberFacts.

(** ** Numbers: size of a correctly rounded result *)

Module RoundingFacts.
Import JsNumber.

Lemma digits2_bounds (p : positive) :
  2 ^ (Zpos (digits2_pos p) - 1) <= Zpos p < 2 ^ Zpos (digits2_pos p).
Proof.
  induction p as [p IH | p IH |]; simpl digits2_pos.
  - rewrite Pos2Z.inj_succ, (Pos2Z.inj_xI p).
    replace (Z.succ (Zpos (digits2_pos p)) - 1)
      with (Z.succ (Zpos (digits2_pos p) - 1)) by lia.
    rewrite !Z.pow_succ_r by lia.
    set (lo := 2 ^ (Zpos (digits2_pos p) - 1)) in *.
    set (hi := 2 ^ Zpos (digits2_pos p)) in *. clearbody lo hi. lia.
  - rewrite Pos2Z.inj_succ, (Pos2Z.inj_xO p).
    replace (Z.succ (Zpos (digits2_pos p)) - 1)
      with (Z.succ (Zpos (digits2_pos p) - 1)) by lia.
    rewrite !Z.pow_succ_r by lia.
    set (lo := 2 ^ (Zpos (digits2_pos p) - 1)) in *.
    set (hi := 2 ^ Zpos (digits2_pos p)) in *. clearbody lo hi. lia.
  - simpl. lia.
Qed.

Lemma shr_m_of_loc (m : Z) (l : location) : shr_m (shr_record_of_loc m l) = m.
Proof. destruct l as [| []]; reflexivity. Qed.

Lemma shr_1_half (mrs : shr_record) :
  0 <= shr_m mrs -> shr_m (shr_1 mrs) = shr_m mrs / 2.
Proof.
  destruct mrs as [m r s]. simpl. intros Hm.
  destruct m as [| [p | p |] | p]; simpl; try lia; try reflexivity.
  - rewrite (Pos2Z.inj_xI p). apply Z.div_unique with (r := 1); lia.
  - rewrite (Pos2Z.inj_xO p). apply Z.div_unique with (r := 0); lia.
Qed.

Lemma shr_m_iter (p : positive) :
  forall mrs, 0 <= shr_m mrs ->
              shr_m (iter_pos shr_1 p mrs) = shr_m mrs / 2 ^ Zpos p.
Proof.
  assert (Hpos : forall mrs, 0 <= shr_m mrs -> 0 <= shr_m (shr_1 mrs)).
  { intros mrs H. rewrite shr_1_half by exact H. apply Z.div_pos; lia. }
  induction p as [p IH | p IH |]; intros mrs Hm; simpl iter_pos.
  - assert (H1 : 0 <= shr_m (shr_1 mrs)) by now apply Hpos.
    assert (H2 : 0 <= shr_m (iter_pos shr_1 p (shr_1 mrs))).
    { rewrite IH by exact H1. apply Z.div_pos; [exact H1 | lia]. }
    rewrite IH by exact H2. rewrite IH by exact H1. rewrite shr_1_half by exact Hm.
    rewrite !Z.div_div by lia. f_equal.
    rewrite (Pos2Z.inj_xI p), Z.pow_add_r, Z.pow_mul_r by lia.
    change (2 ^ 2) with 4. change (2 ^ 1) with 2.
    replace (4 ^ Zpos p) with (2 ^ Zpos p * 2 ^ Zpos p).
    + ring.
    + rewrite <- Z.pow_mul_l. reflexivity.
  - assert (H2 : 0 <= shr_m (iter_pos shr_1 p mrs)).
    { rewrite IH by exact Hm. apply Z.div_pos; [exact Hm | lia]. }
    rewrite IH by exact H2. rewrite IH by exact Hm.
    rewrite Z.div_div by lia. f_equal.
    rewrite (Pos2Z.inj_xO p), Z.pow_mul_r by lia. change (2 ^ 2) with 4.
    rewrite <- Z.pow_mul_l. reflexivity.
  - rewrite shr_1_half by exact Hm. reflexivity.
Qed.

(** One shift of [shr_fexp]: the exponent does not decrease, the value
    does not increase, and the new exponent is the old one or the
    canonical one. *)
Lemma shr_fexp_bound (m e : Z) (l : location) :
  0 <= m ->
  let '(mrs, e') := shr_fexp prec emax m e l in
  0 <= shr_m mrs
  /\ e <= e'
  /\ shr_m mrs * 2 ^ (e' - e) <= m
  /\ (e' = e \/ e' = fexp prec emax (Zdigits2 m + e)).
Proof.
  intros Hm. unfold shr_fexp, shr.
  destruct (fexp prec emax (Zdigits2 m + e) - e) as [| p | p] eqn:En.
  - rewrite shr_m_of_loc, Z.sub_diag. simpl. repeat split; lia.
  - rewrite shr_m_iter by (rewrite shr_m_of_loc; exact Hm).
    rewrite shr_m_of_loc.
    replace (e + Zpos p - e) with (Zpos p) by lia.
    repeat split.
    + apply Z.div_pos; lia.
    + lia.
    + rewrite Z.mul_comm. apply Z.mul_div_le. lia.
    + right. lia.
  - rewrite shr_m_of_loc, Z.sub_diag. simpl. repeat split; lia.
Qed.

Lemma round_nearest_even_bound (m : Z) (l : location) :
  0 <= m -> 0 <= round_nearest_even m l <= m + 1.
Proof.
  intros Hm. unfold round_nearest_even.
  destruct l as [| []]; try destruct (Z.even m); lia.
Qed.

(** [m * 2^e < 2^k] bounds the position of the leading digit. *)
Lemma digits_le (m e e0 k : Z) :
  0 <= m -> e0 <= e -> e <= k ->
  m * 2 ^ (e - e0) < 2 ^ (k - e0) -> Zdigits2 m + e <= k.
Proof.
  intros Hm He Hk Hb.
  destruct m as [| p | p]; unfold Zdigits2; try lia.
  pose proof (digits2_bounds p) as [Hlo _].
  assert (H : 2 ^ (Zpos (digits2_pos p) - 1 + (e - e0)) < 2 ^ (k - e0)).
  { rewrite Z.pow_add_r by lia.
    eapply Z.le_lt_trans; [| exact Hb].
    apply Z.mul_le_mono_nonneg_r; [apply Z.pow_nonneg; lia | exact Hlo]. }
  assert (Zpos (digits2_pos p) - 1 + (e - e0) < k - e0)
    by (apply (Z.pow_lt_mono_r_iff 2); [lia | lia | exact H]).
  lia.
Qed.

Lemma fexp_le (x k : Z) : x <= k -> fexp prec emax x <= Z.max (k - 53) (-1074).
Proof. unfold fexp, emin, prec, emax. lia. Qed.

(** Rounding a value below [2^k] gives a zero or a finite Number below
    [2^(k+1)], with an exponent bounded by that of the input and by
    the canonical exponent of [2^(k+1)]. *)
Lemma binary_round_aux_bound (s : bool) (mz ez : Z) (lz : location) (k : Z) :
  0 <= mz -> ez <= k -> k <= 900 -> -1074 <= k ->
  mz < 2 ^ (k - ez) ->
  binary_round_aux prec emax s mz ez lz = S754_zero s
  \/ exists mq eq,
      binary_round_aux prec emax s mz ez lz = S754_finite s mq eq
      /\ ez <= eq <= Z.max ez (Z.max (k - 52) (-1074))
      /\ Zpos mq * 2 ^ (eq - ez) < 2 ^ (k + 1 - ez).
Proof.
  intros Hmz Hez Hk Hk' Hb. unfold binary_round_aux.
  pose proof (shr_fexp_bound mz ez lz Hmz) as H1.
  destruct (shr_fexp prec emax mz ez lz) as [mrs' e'].
  destruct H1 as (Hm' & He' & Hv' & Hc').
  assert (Hd0 : Zdigits2 mz + ez <= k).
  { apply (digits_le mz ez ez k); try lia. now rewrite Z.sub_diag, Z.mul_1_r. }
  assert (He'k : e' <= Z.max ez (Z.max (k - 53) (-1074))).
  { destruct Hc' as [-> | ->]; [lia |].
    pose proof (fexp_le _ _ Hd0). lia. }
  set (m1 := round_nearest_even (shr_m mrs') (loc_of_shr_record mrs')).
  pose proof (round_nearest_even_bound (shr_m mrs') (loc_of_shr_record mrs') Hm')
    as Hm1. fold m1 in Hm1.
  assert (Hb1 : m1 * 2 ^ (e' - ez) < 2 ^ (k + 1 - ez)).
  { replace (k + 1 - ez) with (Z.succ (k - ez)) by lia.
    rewrite Z.pow_succ_r by lia.
    assert (Hp : 2 ^ (e' - ez) <= 2 ^ (k - ez)) by (apply Z.pow_le_mono_r; lia).
    assert (Hq : 0 < 2 ^ (e' - ez)) by (apply Z.pow_pos_nonneg; lia).
    nia. }
  pose proof (shr_fexp_bound m1 e' loc_Exact (proj1 Hm1)) as H2.
  destruct (shr_fexp prec emax m1 e' loc_Exact) as [mrs'' e''].
  destruct H2 as (Hm'' & He'' & Hv'' & Hc'').
  assert (Hd1 : Zdigits2 m1 + e' <= k + 1).
  { apply (digits_le m1 e' ez (k + 1)); try lia. }
  assert (He''k : e'' <= Z.max ez (Z.max (k - 52) (-1074))).
  { destruct Hc'' as [-> | ->]; [lia |].
    pose proof (fexp_le _ _ Hd1). lia. }
  destruct (shr_m mrs'') as [| mq | mq] eqn:Emq; [now left | | lia].
  right. exists mq, e''.
  replace (e'' <=? emax - prec) with true
    by (symmetry; apply Z.leb_le; unfold emax, prec; lia).
  repeat split; try lia.
  eapply Z.le_lt_trans; [| exact Hb1].
  replace (e'' - ez) with ((e'' - e') + (e' - ez)) by lia.
  rewrite Z.pow_add_r, Z.mul_assoc by lia.
  apply Z.mul_le_mono_nonneg_r; [apply Z.pow_nonneg; lia | exact Hv''].
Qed.

End RoundingFacts.

(** ** Wind direction *)

Module WindFacts.
Import JsNumber Format WindTable RoundingFacts.

Lemma option_string_eqb_eq (a b : option string) :
  option_string_eqb a b = true -> a = b /\ exists s, a = Some s.
Proof.
  destruct a as [x |], b as [y |]; simpl; try discriminate.
  intros H. apply String.eqb_eq in H. subst y. split; [reflexivity | now exists x].
Qed.

Lemma in_upto (n : nat) :
  forall lo z, lo <= z < lo + Z.of_nat n -> In z (upto n lo).
Proof.
  induction n as [| n IH]; intros lo z Hz.
  - simpl in Hz. lia.
  - simpl. destruct (Z.eq_dec lo z) as [-> | Hne]; [now left | right].
    apply IH. lia.
Qed.

Lemma index_table : forallb index_ok (upto 65 0) = true.
Proof. vm_compute. reflexivity. Qed.

Lemma index_ok_upto_64 (n : Z) : 0 <= n <= 64 -> index_ok n = true.
Proof.
  intros Hn. pose proof index_table as H.
  rewrite forallb_forall in H. apply H. apply in_upto. simpl. lia.
Qed.

Lemma twenty_two_and_a_half :
  lit 225 10 = S754_finite false 6333186975989760 (-48).
Proof. reflexivity. Qed.

Lemma three_hundred_sixty : of_Z 360 = S754_finite false 6333186975989760 (-44).
Proof. reflexivity. Qed.

(** A well-formed finite Number has at most 53 digits. *)
Lemma valid_mantissa (s : bool) (m : positive) (e : Z) :
  valid (S754_finite s m e) = true -> Zpos (digits2_pos m) <= 53.
Proof.
  unfold valid, valid_binary, bounded, canonical_mantissa, fexp, emin, prec, emax.
  intros H. apply andb_prop in H. destruct H as [H _].
  apply Z.eqb_eq in H. lia.
Qed.

Lemma below_360 (m : positive) (e : Z) :
  ltb (S754_finite false m e) (of_Z 360) = true -> e <= -44.
Proof.
  rewrite three_hundred_sixty. unfold ltb, SFltb, SFcompare.
  destruct (Z.compare_spec e (-44)); try discriminate; lia.
Qed.

(** The integer quotient that [SFdiv] rounds, for a dividend below 512
    and the divisor 22.5. *)
Lemma div_core_bound (m : positive) (e : Z) :
  Zpos (digits2_pos m) <= 53 -> e <= -44 ->
  let '(mz, ez, lz) :=
    SFdiv_core_binary prec emax (Zpos m) e 6333186975989760 (-48) in
  0 <= mz /\ ez <= -49 /\ mz < 2 ^ (5 - ez).
Proof.
  intros Hd He. unfold SFdiv_core_binary.
  change (Zdigits2 6333186975989760) with 53.
  change (Zdigits2 (Zpos m)) with (Zpos (digits2_pos m)).
  set (e' := Z.min (fexp prec emax (Zpos (digits2_pos m) + e - (53 + -48)))
                   (e - -48)).
  assert (He' : e' <= -49 /\ e' <= e + 48).
  { unfold e', fexp, emin, prec, emax. lia. }
  set (sh := e - -48 - e').
  assert (Hsh : 0 <= sh) by (unfold sh; lia).
  set (m' := match sh with
             | 0 => Zpos m
             | Zpos _ => Z.shiftl (Zpos m) sh
             | Zneg _ => 0
             end).
  assert (Hm' : m' = Zpos m * 2 ^ sh).
  { unfold m'. destruct sh as [| p | p] eqn:Es.
    - rewrite Z.pow_0_r. lia.
    - apply Z.shiftl_mul_pow2. lia.
    - lia. }
  pose proof (Z_div_mod m' 6333186975989760 eq_refl) as Hdiv.
  destruct (Z.div_eucl m' 6333186975989760) as [q r].
  destruct Hdiv as [Hq Hr].
  pose proof (digits2_bounds m) as [_ Hhi].
  assert (Hm53 : Zpos m < 2 ^ 53).
  { eapply Z.lt_le_trans; [exact Hhi |]. apply Z.pow_le_mono_r; lia. }
  assert (Hpow : 0 < 2 ^ sh) by (apply Z.pow_pos_nonneg; lia).
  assert (Hq0 : 0 <= q) by nia.
  assert (Hqb : q < 2 ^ (sh + 1)).
  { rewrite Z.pow_add_r by lia. change (2 ^ 1) with 2.
    change (2 ^ 53) with 9007199254740992 in Hm53. nia. }
  repeat split; try lia.
  eapply Z.lt_le_trans; [exact Hqb |]. apply Z.pow_le_mono_r; unfold sh; lia.
Qed.

(** The quotient of a Number in (0, 360) by 22.5 is a zero or a
    positive finite Number below 64 with a negative exponent. *)
Lemma div_bound (m : positive) (e : Z) :
  valid (S754_finite false m e) = true ->
  ltb (S754_finite false m e) (of_Z 360) = true ->
  div (S754_finite false m e) (lit 225 10) = S754_zero false
  \/ exists mq eq,
      div (S754_finite false m e) (lit 225 10) = S754_finite false mq eq
      /\ eq < 0 /\ Zpos mq < 2 ^ (6 - eq).
Proof.
  intros Hv Hlt. rewrite twenty_two_and_a_half. unfold div, SFdiv.
  pose proof (div_core_bound m e (valid_mantissa _ _ _ Hv) (below_360 _ _ Hlt)) as Hc.
  destruct (SFdiv_core_binary prec emax (Zpos m) e 6333186975989760 (-48))
    as [[mz ez] lz].
  destruct Hc as (Hmz & Hez & Hb).
  change (xorb false false) with false.
  destruct (binary_round_aux_bound false mz ez lz 5)
    as [Hz | (mq & eq & Hq & He & Hbq)];
    try lia.
  - now left.
  - right. exists mq, eq. split; [exact Hq |]. split; [lia |].
    replace (5 + 1 - ez) with ((6 - eq) + (eq - ez)) in Hbq by lia.
    rewrite Z.pow_add_r in Hbq by lia.
    assert (Hp : 0 < 2 ^ (eq - ez)) by (apply Z.pow_pos_nonneg; lia).
    nia.
Qed.

(** [Math.round] of such a quotient is an integer between 0 and 64. *)
Lemma round_bound (mq : positive) (eq : Z) :
  eq < 0 -> Zpos mq < 2 ^ (6 - eq) ->
  Math_round (S754_finite false mq eq) = S754_zero false
  \/ exists n, 0 < n <= 64 /\ Math_round (S754_finite false mq eq) = of_Z n.
Proof.
  intros He Hb. unfold Math_round.
  replace (0 <=? eq) with false by (symmetry; apply Z.leb_gt; exact He).
  unfold signed.
  set (n := (2 * Zpos mq + 2 ^ (- eq)) / 2 ^ (1 - eq)).
  assert (Hp : 0 < 2 ^ (- eq)) by (apply Z.pow_pos_nonneg; lia).
  assert (H1 : 2 ^ (1 - eq) = 2 * 2 ^ (- eq)).
  { replace (1 - eq) with (Z.succ (- eq)) by lia. apply Z.pow_succ_r. lia. }
  assert (H6 : 2 ^ (6 - eq) = 64 * 2 ^ (- eq)).
  { replace (6 - eq) with (6 + - eq) by lia. rewrite Z.pow_add_r by lia.
    reflexivity. }
  assert (Hn : 0 <= n < 65).
  { unfold n. split.
    - apply Z.div_pos; lia.
    - apply Z.div_lt_upper_bound; lia. }
  destruct (Z.eqb_spec n 0) as [_ | Hne]; [now left |].
  right. exists n. split; [lia | reflexivity].
Qed.

End WindFacts.

Module WindDirection.
Import JsNumber Format WindTable WindFacts.

Lemma index_ok_label (n : Z) :
  index_ok n = true ->
  to_integer (of_Z n) = Some n
  /\ exists label,
      array_get directions (rem (of_Z n) (of_Z 16)) = Some label
      /\ nth_error directions (Z.to_nat (n mod 16)) = Some label.
Proof.
  unfold index_ok. intros H. apply andb_prop in H. destruct H as [Hz Hl].
  split.
  - destruct (to_integer (of_Z n)) as [z |]; [| discriminate].
    apply Z.eqb_eq in Hz. now subst z.
  - apply option_string_eqb_eq in Hl. destruct Hl as [Heq [label Hl]].
    exists label. split; [exact Hl | now rewrite <- Heq].
Qed.

Lemma periodic_whole_degrees :
  forallb (fun z => periodic_at (of_Z z)) (upto 360 0) = true.
Proof. vm_compute. reflexivity. Qed.

Lemma periodic_tenths :
  forallb (fun z => periodic_at (lit z 10)) (upto 3600 0) = true.
Proof. vm_compute. reflexivity. Qed.

(** C5 (as stated, refuted).  The Number just below 11.25 lies in
    [0, 360) and is labelled N, but adding 360 rounds the sum to 371.25,
    whose quotient by 22.5 is exactly 16.5 and rounds up to 17: the label
    is NNE. *)
Lemma periodicity_fails_below_11_25 :
  valid Scenario.just_below_11_25 = true
  /\ leb (of_Z 0) Scenario.just_below_11_25 = true
  /\ ltb Scenario.just_below_11_25 (of_Z 360) = true
  /\ getWindDirection Scenario.just_below_11_25 = Some "N"
  /\ getWindDirection (add Scenario.just_below_11_25 (of_Z 360)) = Some "NNE"
  /\ getWindDirection Scenario.just_below_11_25
     <> getWindDirection (add Scenario.just_below_11_25 (of_Z 360)).
Proof.
  repeat split; try reflexivity. vm_compute. discriminate.
Qed.

(** C5 (amended).  For every Number [d] in [0, 360) the result is one of
    the sixteen labels, the one at index [n mod 16] where [n] is
    [Math.round(d / 22.5)]; and the label of [d + 360] is the label of
    [d] for every [d] in [0, 360) that is a whole number of degrees or of
    tenths of a degree. *)
Theorem wind_direction_labels :
  (forall d, valid d = true -> leb (of_Z 0) d = true -> ltb d (of_Z 360) = true ->
     exists n label,
       0 <= n
       /\ to_integer (Math_round (div d (lit 225 10))) = Some n
       /\ getWindDirection d = Some label
       /\ nth_error directions (Z.to_nat (n mod 16)) = Some label
       /\ In label directions)
  /\ (forall z, 0 <= z < 360 ->
        getWindDirection (add (of_Z z) (of_Z 360)) = getWindDirection (of_Z z))
  /\ (forall z, 0 <= z < 3600 ->
        getWindDirection (add (lit z 10) (of_Z 360)) = getWindDirection (lit z 10)).
Proof.
  split; [| split].
  - intros d Hv H0 H360.
    assert (Hquot : Math_round (div d (lit 225 10)) = S754_zero false
                    \/ Math_round (div d (lit 225 10)) = S754_zero true
                    \/ exists n, 0 < n <= 64
                                 /\ Math_round (div d (lit 225 10)) = of_Z n).
    { destruct d as [s | s | | s m e]; try discriminate.
      - destruct s; [right; left | left]; reflexivity.
      - destruct s; discriminate.
      - destruct s; [discriminate |].
        destruct (div_bound m e Hv H360) as [-> | (mq & eq & -> & He & Hb)].
        + left. reflexivity.
        + destruct (round_bound mq eq He Hb) as [-> | Hn];
            [left; reflexivity | right; right; exact Hn]. }
    unfold getWindDirection, direction_index.
    destruct Hquot as [-> | [-> | (n & Hn & ->)]].
    + exists 0, "N". repeat split; try reflexivity; try lia. simpl. tauto.
    + exists 0, "N". repeat split; try reflexivity; try lia. simpl. tauto.
    + destruct (index_ok_label n (index_ok_upto_64 n ltac:(lia)))
        as (Hexact & label & Hget & Hnth).
      exists n, label. repeat split; try assumption; try lia.
      eapply nth_error_In. exact Hnth.
  - intros z Hz. pose proof periodic_whole_degrees as H.
    rewrite forallb_forall in H.
    destruct (option_string_eqb_eq _ _ (H z (in_upto 360 0 z ltac:(simpl; lia))))
      as [Heq _].
    symmetry. exact Heq.
  - intros z Hz. pose proof periodic_tenths as H.
    rewrite forallb_forall in H.
    destruct (option_string_eqb_eq _ _ (H z (in_upto 3600 0 z ltac:(simpl; lia))))
      as [Heq _].
    symmetry. exact Heq.
Qed.

(** 202.5 degrees: south-south-west. *)
Lemma wind_direction_labels_witness :
  exists n label,
    0 <= n
    /\ to_integer (Math_round (div (lit 2025 10) (lit 225 10))) = Some n
    /\ getWindDirection (lit 2025 10) = Some label
    /\ nth_error directions (Z.to_nat (n mod 16)) = Some label
    /\ In label directions.
Proof.
  exact (proj1 wind_direction_labels (lit 2025 10) eq_refl eq_refl eq_refl).
Defined.

End WindDirection.

(** ** Temperature *)

Module Temperature.
Import JsNumber Format.

(** [toFixed] prints the nearest multiple of [10^-f], the larger one of
    two: [n - 1/2 <= |x| * 10^f < n + 1/2]. *)
Lemma fixed_nearest_spec (m : positive) (e : Z) (f : nat) :
  let n := fixed_nearest m e f in
  if 0 <=? e then n = Zpos m * 10 ^ Z.of_nat f * 2 ^ e
  else (2 * n - 1) * 2 ^ (- e) <= 2 * (Zpos m * 10 ^ Z.of_nat f)
       /\ 2 * (Zpos m * 10 ^ Z.of_nat f) < (2 * n + 1) * 2 ^ (- e).
Proof.
  unfold fixed_nearest. destruct (Z.leb_spec 0 e) as [He | He]; [reflexivity |].
  set (x := Zpos m * 10 ^ Z.of_nat f).
  assert (Hp : 0 < 2 ^ (- e)) by (apply Z.pow_pos_nonneg; lia).
  assert (H1 : 2 ^ (1 - e) = 2 * 2 ^ (- e)).
  { replace (1 - e) with (Z.succ (- e)) by lia. apply Z.pow_succ_r. lia. }
  rewrite H1.
  pose proof (Z.div_mod (2 * x + 2 ^ (- e)) (2 * 2 ^ (- e)) ltac:(lia)) as Hdm.
  pose proof (Z.mod_pos_bound (2 * x + 2 ^ (- e)) (2 * 2 ^ (- e)) ltac:(lia)) as Hmod.
  set (q := (2 * x + 2 ^ (- e)) / (2 * 2 ^ (- e))) in *.
  set (r := (2 * x + 2 ^ (- e)) mod (2 * 2 ^ (- e))) in *.
  clearbody q r. nia.
Qed.

Lemma toFixed_finite (shortest : number -> string)
      (s : bool) (m : positive) (e : Z) (f : nat) :
  ge_1e21 m e = false ->
  toFixed shortest (S754_finite s m e) f
  = (if s then "-" else "") ++ fixed_digits (fixed_nearest m e f) f.
Proof.
  intros H. unfold toFixed. rewrite H. reflexivity.
Qed.

(** C4.  [formatTemperature(c)] is [F] to one decimal, "°F (", [c] to
    one decimal, "°C)", where [F] is [c * 9 / 5 + 32]; the text of [c]
    to one decimal followed by "°C" occurs in it; and "to one decimal"
    is the nearest tenth of the exact value of the Number. *)
Theorem formatTemperature_shape :
  forall (shortest : number -> string) (c : number),
    let fahrenheit := add (div (mul c (of_Z 9)) (of_Z 5)) (of_Z 32) in
    formatTemperature shortest c
    = toFixed shortest fahrenheit 1 ++ "°F (" ++ toFixed shortest c 1 ++ "°C)"
    /\ JsString.occurs_in (toFixed shortest c 1 ++ "°C")
                          (formatTemperature shortest c)
    /\ (forall s m e,
           ge_1e21 m e = false ->
           let n := fixed_nearest m e 1 in
           toFixed shortest (S754_finite s m e) 1
           = (if s then "-" else "") ++ fixed_digits n 1
           /\ if 0 <=? e then n = Zpos m * 10 * 2 ^ e
              else (2 * n - 1) * 2 ^ (- e) <= 2 * (Zpos m * 10)
                   /\ 2 * (Zpos m * 10) < (2 * n + 1) * 2 ^ (- e)).
Proof.
  intros shortest c fahrenheit. split; [reflexivity |]. split.
  - exists (toFixed shortest fahrenheit 1 ++ "°F ("), ")".
    unfold formatTemperature. fold fahrenheit.
    rewrite !append_assoc. reflexivity.
  - intros s m e H n. split; [now apply toFixed_finite |].
    exact (fixed_nearest_spec m e 1).
Qed.

End Temperature.

(** ** Markdown assembly *)

Lemma append_nil_r (s : string) : s ++ "" = s.
Proof.
  induction s as [| c s IH]; simpl; [reflexivity | now rewrite IH].
Qed.

Lemma markdown_of_cons (x : string) (l : list string) :
  Tools.markdown_of (x :: l) = x ++ Tools.markdown_of l.
Proof.
  unfold Tools.markdown_of. destruct l as [| y l]; simpl.
  - now rewrite append_nil_r.
  - reflexivity.
Qed.

Lemma markdown_of_app (l1 l2 : list string) :
  Tools.markdown_of (l1 ++ l2)%list = Tools.markdown_of l1 ++ Tools.markdown_of l2.
Proof.
  induction l1 as [| x l1 IH].
  - reflexivity.
  - change ((x :: l1) ++ l2)%list with (x :: (l1 ++ l2))%list.
    rewrite !markdown_of_cons, IH, append_assoc. reflexivity.
Qed.

(** A chunk appended to the markdown occurs in the text. *)
Lemma chunk_occurs (c : string) (chunks : list string) :
  In c chunks -> JsString.occurs_in c (Tools.markdown_of chunks).
Proof.
  induction chunks as [| x l IH]; intros Hin; [contradiction |].
  rewrite markdown_of_cons. destruct Hin as [-> | Hin].
  - exists "", (Tools.markdown_of l). reflexivity.
  - destruct (IH Hin) as (pre & post & Heq).
    exists (x ++ pre), post. rewrite Heq, append_assoc. reflexivity.
Qed.

Lemma has_line_existsb (label : string) (chunks : list string) :
  Tools.has_line label chunks <-> existsb (prefix label) chunks = true.
Proof.
  unfold Tools.has_line. rewrite existsb_exists. reflexivity.
Qed.

(** ** Station health *)

Module StationHealth.
Import JsNumber Schema ApiClient Tools NumberFacts Assessment.

Lemma tiers_ordered :
  leb (lit 4 10) (lit 6 10) = true /\ leb (lit 6 10) (lit 8 10) = true.
Proof. split; vm_compute; reflexivity. Qed.

(** C6.  The assessment line has four tiers with inclusive lower bounds
    0.8, 0.6 and 0.4; it is the last thing the station-health handler
    appends. *)
Theorem overall_assessment_tiers :
  forall score : number,
    (geb score (lit 8 10) = true -> overall_assessment score = excellent)
    /\ (geb score (lit 6 10) = true -> ltb score (lit 8 10) = true ->
        overall_assessment score = good)
    /\ (geb score (lit 4 10) = true -> ltb score (lit 6 10) = true ->
        overall_assessment score = fair)
    /\ (ltb score (lit 4 10) = true -> overall_assessment score = poor)
    /\ overall_assessment (lit 8 10) = excellent
    /\ overall_assessment (lit 79999 100000) = good
    /\ overall_assessment (lit 4 10) = fair
    /\ overall_assessment (lit 39999 100000) = poor
    /\ (forall shortest Date_parse toLocaleString apiKey fetch station_id data,
           weatherxmApiRequest fetch ("/stations/" ++ station_id ++ "/latest") apiKey
           = Ok data ->
           dq_score (data_quality (health data)) = score ->
           exists before,
             get_station_health shortest Date_parse toLocaleString apiKey
                                fetch station_id
             = before ++ overall_assessment score).
Proof.
  intros score. destruct tiers_ordered as [H46 H68].
  split; [| split; [| split; [| split; [| split; [| split; [| split; [| split]]]]]]].
  - unfold overall_assessment. intros ->. reflexivity.
  - unfold overall_assessment. intros H6 H8.
    rewrite (ltb_not_geb _ _ H8), H6. reflexivity.
  - unfold overall_assessment. intros H4 H6.
    rewrite (ltb_not_geb _ _ (ltb_leb_trans _ _ _ H6 H68)),
      (ltb_not_geb _ _ H6), H4.
    reflexivity.
  - unfold overall_assessment. intros H4.
    pose proof (ltb_leb_trans _ _ _ H4 H46) as H6.
    rewrite (ltb_not_geb _ _ (ltb_leb_trans _ _ _ H6 H68)),
      (ltb_not_geb _ _ H6), (ltb_not_geb _ _ H4).
    reflexivity.
  - vm_compute. reflexivity.
  - vm_compute. reflexivity.
  - vm_compute. reflexivity.
  - vm_compute. reflexivity.
  - intros shortest Date_parse toLocaleString apiKey fetch station_id data Hreq Hs.
    unfold get_station_health. rewrite Hreq. simpl bind. unfold tool.
    unfold station_health_chunks. rewrite Hs.
    match goal with
    | |- context [markdown_of [?a; ?b; ?c; ?d; ?e; ?f; ?g; ?h]] =>
        exists (markdown_of [a; b; c; d; e; f; g]);
        change [a; b; c; d; e; f; g; h] with ([a; b; c; d; e; f; g] ++ [h])%list
    end.
    rewrite markdown_of_app. f_equal.
Qed.

End StationHealth.

(** ** Historical weather *)

Module Historical.
Import JsNumber Schema ApiClient Format Tools NumberFacts.

Lemma min_step_spec (lowest x : number) :
  is_nan lowest = false -> is_nan x = false ->
  (min_step lowest x = lowest \/ min_step lowest x = x)
  /\ leb (min_step lowest x) lowest = true
  /\ leb (min_step lowest x) x = true.
Proof.
  intros Hl Hx. unfold min_step. rewrite Hl, Hx. simpl orb. cbv iota.
  assert (Hgen : let r := if ltb x lowest then x else lowest in
                 (r = lowest \/ r = x) /\ leb r lowest = true /\ leb r x = true).
  { destruct (ltb x lowest) eqn:E; simpl.
    - repeat split; [now right | now apply ltb_leb | now apply leb_refl].
    - repeat split; [now left | now apply leb_refl | now apply not_ltb_leb]. }
  destruct lowest as [[] | | |]; try exact Hgen;
    destruct x as [[] | | |]; try exact Hgen.
  repeat split; auto.
Qed.

Lemma max_step_spec (highest x : number) :
  is_nan highest = false -> is_nan x = false ->
  (max_step highest x = highest \/ max_step highest x = x)
  /\ leb highest (max_step highest x) = true
  /\ leb x (max_step highest x) = true.
Proof.
  intros Hh Hx. unfold max_step. rewrite Hh, Hx. simpl orb. cbv iota.
  assert (Hgen : let r := if gtb x highest then x else highest in
                 (r = highest \/ r = x) /\ leb highest r = true /\ leb x r = true).
  { unfold gtb. destruct (SFltb highest x) eqn:E; simpl.
    - repeat split; [now right | now apply ltb_leb | now apply leb_refl].
    - repeat split; [now left | now apply leb_refl | now apply not_ltb_leb]. }
  destruct highest as [[] | | |]; try exact Hgen;
    destruct x as [[] | | |]; try exact Hgen.
  repeat split; auto.
Qed.

Lemma fold_min_spec (xs : list number) :
  forall acc, is_nan acc = false -> no_nan xs ->
    let r := fold_left min_step xs acc in
    is_nan r = false /\ (r = acc \/ In r xs) /\ leb r acc = true
    /\ Forall (fun x => leb r x = true) xs.
Proof.
  induction xs as [| x xs IH]; intros acc Hacc Hxs; simpl.
  - repeat split; auto. now apply leb_refl.
  - inversion Hxs as [| ? ? Hx Hrest]; subst.
    destruct (min_step_spec acc x Hacc Hx) as (Hsel & Hla & Hlx).
    assert (Hstep : is_nan (min_step acc x) = false)
      by (destruct Hsel as [-> | ->]; assumption).
    destruct (IH (min_step acc x) Hstep Hrest) as (Hn & Hin & Hle & Hall).
    repeat split.
    + exact Hn.
    + destruct Hin as [Heq | Hin]; [| right; now right].
      rewrite Heq. destruct Hsel as [-> | ->]; [now left | right; now left].
    + eapply leb_trans; eauto.
    + constructor; [eapply leb_trans; eauto | exact Hall].
Qed.

Lemma fold_max_spec (xs : list number) :
  forall acc, is_nan acc = false -> no_nan xs ->
    let r := fold_left max_step xs acc in
    is_nan r = false /\ (r = acc \/ In r xs) /\ leb acc r = true
    /\ Forall (fun x => leb x r = true) xs.
Proof.
  induction xs as [| x xs IH]; intros acc Hacc Hxs; simpl.
  - repeat split; auto. now apply leb_refl.
  - inversion Hxs as [| ? ? Hx Hrest]; subst.
    destruct (max_step_spec acc x Hacc Hx) as (Hsel & Hla & Hlx).
    assert (Hstep : is_nan (max_step acc x) = false)
      by (destruct Hsel as [-> | ->]; assumption).
    destruct (IH (max_step acc x) Hstep Hrest) as (Hn & Hin & Hle & Hall).
    repeat split.
    + exact Hn.
    + destruct Hin as [Heq | Hin]; [| right; now right].
      rewrite Heq. destruct Hsel as [-> | ->]; [now left | right; now left].
    + eapply leb_trans; eauto.
    + constructor; [eapply leb_trans; eauto | exact Hall].
Qed.

(** [Math.min] of a non-empty list without NaN is one of its elements
    and is below all of them. *)
Lemma Math_min_spec (xs : list number) :
  xs <> [] -> no_nan xs ->
  In (Math_min xs) xs /\ Forall (fun x => leb (Math_min xs) x = true) xs.
Proof.
  intros Hne Hxs. unfold Math_min.
  destruct (fold_min_spec xs (S754_infinity false) eq_refl Hxs)
    as (_ & Hin & _ & Hall).
  split; [| exact Hall].
  destruct Hin as [Heq | Hin]; [| exact Hin].
  destruct xs as [| x xs]; [contradiction |].
  inversion Hall as [| ? ? Hx _]; subst.
  rewrite Heq in Hx. rewrite Heq. left.
  destruct x as [| [] | |]; try discriminate Hx. reflexivity.
Qed.

Lemma Math_max_spec (xs : list number) :
  xs <> [] -> no_nan xs ->
  In (Math_max xs) xs /\ Forall (fun x => leb x (Math_max xs) = true) xs.
Proof.
  intros Hne Hxs. unfold Math_max.
  destruct (fold_max_spec xs (S754_infinity true) eq_refl Hxs)
    as (_ & Hin & _ & Hall).
  split; [| exact Hall].
  destruct Hin as [Heq | Hin]; [| exact Hin].
  destruct xs as [| x xs]; [contradiction |].
  inversion Hall as [| ? ? Hx _]; subst.
  rewrite Heq in Hx. rewrite Heq. left.
  destruct x as [[] | [] | | []]; try discriminate Hx. reflexivity.
Qed.

Lemma slice_last10_length {A : Type} (l : list A) :
  List.length (slice_last10 l) = Nat.min (List.length l) 10.
Proof.
  unfold slice_last10. rewrite length_skipn. lia.
Qed.

Lemma slice_last10_suffix {A : Type} (l : list A) :
  l = (firstn (List.length l - 10) l ++ slice_last10 l)%list.
Proof.
  unfold slice_last10. symmetry. apply firstn_skipn.
Qed.

Lemma fold_left_map {A B C : Type} (f : C -> B -> C) (g : A -> B) (l : list A) :
  forall acc, fold_left (fun c a => f c (g a)) l acc = fold_left f (map g l) acc.
Proof.
  induction l as [| a l IH]; intros acc; simpl; [reflexivity | apply IH].
Qed.

Lemma precipTotal_sum (historicalData : list HistoricalDataPoint) :
  precipTotal historicalData = sum (map precipitation_accumulated historicalData).
Proof.
  unfold precipTotal, sum.
  apply (fold_left_map (fun a b => add a b) precipitation_accumulated).
Qed.

Section Rendering.

Variable shortest : number -> string.
Variable Date_parse : string -> option Z.
Variable toLocaleString : Z -> string.
Variable apiKey : string.

(** C7.  When the request returns a non-empty dataset,
    get_historical_weather returns the heading, the summary with the
    least and the greatest temperature, the mean (the sum of the
    temperatures divided by the number of points) and the sum of the
    accumulated precipitation, then one line for each of the last
    [min N 10] points, in the order of the array; the handler that only
    casts the body returns the same text. *)
Theorem historical_summary_and_recent :
  forall (fetch : Fetch WeatherXMHistoricalResponse)
         (station_id start_date end_date : string)
         (response : WeatherXMHistoricalResponse)
         (historicalData : list HistoricalDataPoint),
    weatherxmApiRequest fetch
      ("/stations/" ++ station_id ++ "/historical?start=" ++ start_date
       ++ "&end=" ++ end_date) apiKey = Ok response ->
    data response = Value historicalData ->
    historicalData <> [] ->
    no_nan (map temperature historicalData) ->
    let temperatures := map temperature historicalData in
    let count := List.length historicalData in
    let minTemp := Math_min temperatures in
    let maxTemp := Math_max temperatures in
    let mean :=
      div (fold_left (fun total t => add total t) temperatures (of_Z 0))
          (of_Z (Z.of_nat count)) in
    let precipitation :=
      fold_left (fun total p => add total p)
                (map precipitation_accumulated historicalData) (of_Z 0) in
    let recent := skipn (count - 10) historicalData in
    let line (obs : HistoricalDataPoint) :=
      "**" ++ formatLocalTime Date_parse toLocaleString (timestamp obs)
      ++ ":** " ++ formatTemperature shortest (temperature obs) ++ ", "
      ++ toFixed shortest (humidity obs) 0 ++ "% humidity, "
      ++ formatWindSpeed shortest (wind_speed obs) ++ nl in
    let text :=
      get_historical_weather shortest Date_parse toLocaleString apiKey fetch
                             station_id start_date end_date in
    text
    = "# Historical Weather Data - " ++ station_id ++ nl ++ nl
      ++ "Period: " ++ start_date ++ " to " ++ end_date ++ nl
      ++ "Data points: " ++ JsString.of_nat count ++ nl ++ nl
      ++ "## Summary Statistics" ++ nl ++ nl
      ++ "**Temperature Range:** " ++ formatTemperature shortest minTemp
      ++ " to " ++ formatTemperature shortest maxTemp ++ nl
      ++ "**Average Temperature:** " ++ formatTemperature shortest mean ++ nl
      ++ "**Total Precipitation:** "
      ++ formatPrecipitation shortest precipitation ++ nl ++ nl
      ++ "## Recent Observations" ++ nl ++ nl
      ++ String.concat "" (map line recent)
    /\ In minTemp temperatures
    /\ Forall (fun t => leb minTemp t = true) temperatures
    /\ In maxTemp temperatures
    /\ Forall (fun t => leb t maxTemp = true) temperatures
    /\ List.length recent = Nat.min count 10
    /\ historicalData = (firstn (count - 10) historicalData ++ recent)%list
    /\ (forall obs, In obs recent -> JsString.occurs_in (line obs) text)
    /\ (forall (Body : Type) (declared : Body -> option WeatherXMHistoricalResponse)
               (otherwise : Body -> result string) (unvalidated : Fetch Body)
               (body : Body),
           weatherxmApiRequest unvalidated
             ("/stations/" ++ station_id ++ "/historical?start=" ++ start_date
              ++ "&end=" ++ end_date) apiKey = Ok body ->
           declared body = Some response ->
           Unvalidated.get_historical_weather shortest Date_parse toLocaleString
             apiKey declared otherwise unvalidated station_id start_date
             end_date
           = Ok text).
Proof.
  intros fetch station_id start_date end_date response historicalData
         Hreq Hdata Hne Hnan
         temperatures count minTemp maxTemp mean precipitation recent line text.
  assert (Htne : temperatures <> []).
  { unfold temperatures. destruct historicalData; [contradiction | discriminate]. }
  destruct (Math_min_spec temperatures Htne Hnan) as [Hmin_in Hmin_le].
  destruct (Math_max_spec temperatures Htne Hnan) as [Hmax_in Hmax_le].
  assert (Hlen : (List.length historicalData =? 0)%nat = false)
    by (destruct historicalData; [contradiction | reflexivity]).
  assert (Htyped : text = historical_text shortest Date_parse toLocaleString
                                          station_id start_date end_date
                                          response).
  { unfold text, get_historical_weather. rewrite Hreq. reflexivity. }
  assert (Htext :
            text
            = markdown_of
                (List.app
                   ["# Historical Weather Data - " ++ station_id ++ nl ++ nl;
                    "Period: " ++ start_date ++ " to " ++ end_date ++ nl;
                    "Data points: " ++ JsString.of_nat count ++ nl ++ nl;
                    "## Summary Statistics" ++ nl ++ nl;
                    "**Temperature Range:** " ++ formatTemperature shortest minTemp
                      ++ " to " ++ formatTemperature shortest maxTemp ++ nl;
                    "**Average Temperature:** "
                      ++ formatTemperature shortest mean ++ nl;
                    "**Total Precipitation:** "
                      ++ formatPrecipitation shortest precipitation ++ nl ++ nl;
                    "## Recent Observations" ++ nl ++ nl]
                   (map line recent))).
  { rewrite Htyped.
    unfold historical_text. rewrite Hdata. simpl or_empty. rewrite Hlen.
    unfold historical_chunks, summary_chunks, recent_chunks, avgTemp,
      temperatures_of.
    rewrite precipTotal_sum, length_map. reflexivity. }
  split; [| repeat split; try assumption].
  - rewrite Htext, markdown_of_app, !markdown_of_cons, !append_assoc.
    reflexivity.
  - unfold recent, count. rewrite length_skipn. lia.
  - symmetry. apply firstn_skipn.
  - intros obs Hin. rewrite Htext, markdown_of_app.
    destruct (chunk_occurs (line obs) (map line recent)
                           ltac:(now apply in_map)) as (pre & post & Heq).
    eexists (_ ++ pre), post. rewrite Heq, append_assoc. reflexivity.
  - intros Body declared otherwise unvalidated body Hbody Hdeclared.
    unfold Unvalidated.get_historical_weather. rewrite Hbody.
    unfold bind, Unvalidated.rendered. rewrite Hdeclared.
    rewrite Htyped. reflexivity.
Qed.

End Rendering.

End Historical.

(** ** Searching the rendered text *)

Module TextFacts.
Import JsNumber Format TextScan.

Lemma star_free_app (a b : string) :
  star_free (a ++ b) <-> star_free a /\ star_free b.
Proof.
  unfold star_free. induction a as [| c a IH]; simpl.
  - split; [intros H; split; [constructor | exact H] | intros [_ H]; exact H].
  - split.
    + intros H. inversion H as [| ? ? Hc Hrest]; subst.
      apply IH in Hrest. destruct Hrest as [Ha Hb].
      split; [constructor; assumption | exact Hb].
    + intros [Ha Hb]. inversion Ha as [| ? ? Hc Hrest]; subst.
      constructor; [exact Hc | apply IH; split; assumption].
Qed.

Lemma star_free_literal (s : string) : star_freeb s = true -> star_free s.
Proof.
  unfold star_freeb, star_free. rewrite forallb_forall, Forall_forall.
  intros H c Hin Heq. specialize (H c Hin). subst c. discriminate H.
Qed.

Lemma star_free_of_Z (z : Z) : star_free (JsString.of_Z z).
Proof.
  unfold star_free. rewrite Forall_forall. intros c Hin Heq.
  apply of_Z_digits in Hin. subst c. unfold JsString.digit_chars in Hin.
  simpl in Hin.
  repeat (destruct Hin as [Hin | Hin]; [discriminate Hin |]). exact Hin.
Qed.

Lemma star_free_zeros (n : nat) : star_free (JsString.zeros n).
Proof.
  unfold star_free. induction n as [| n IH]; simpl; constructor;
    [discriminate | exact IH].
Qed.

Lemma star_free_substring (s : string) :
  star_free s -> forall n m, star_free (substring n m s).
Proof.
  unfold star_free. induction s as [| c s IH]; intros Hs n m.
  - destruct n, m; constructor.
  - inversion Hs as [| ? ? Hc Hrest]; subst.
    destruct n as [| n]; simpl.
    + destruct m as [| m]; simpl; [constructor |].
      constructor; [exact Hc | apply (IH Hrest 0%nat m)].
    + apply (IH Hrest n m).
Qed.

Lemma star_free_fixed_digits (n : Z) (f : nat) : star_free (fixed_digits n f).
Proof.
  unfold fixed_digits. destruct f as [| f]; [apply star_free_of_Z |].
  set (m' := if Nat.leb _ _ then _ else _).
  assert (Hm : star_free m').
  { unfold m'. destruct (Nat.leb _ _); [| apply star_free_of_Z].
    apply star_free_app. split; [apply star_free_zeros | apply star_free_of_Z]. }
  apply star_free_app. split; [now apply star_free_substring |].
  apply star_free_app. split; [now apply star_free_literal |].
  now apply star_free_substring.
Qed.

Section Host.

Variable shortest : number -> string.
Variable Date_parse : string -> option Z.
Variable toLocaleString : Z -> string.
Variable now : Z.

Hypothesis shortest_star_free : forall x, star_free (shortest x).
Hypothesis toLocaleString_star_free : forall t, star_free (toLocaleString t).

Lemma star_free_toString (x : number) : star_free (toString shortest x).
Proof.
  unfold toString. destruct x as [s | s | | s m e];
    try destruct s; try (now apply star_free_literal).
  - destruct (to_integer _); [| apply shortest_star_free].
    destruct (_ <? _); [apply star_free_of_Z | apply shortest_star_free].
  - destruct (to_integer _); [| apply shortest_star_free].
    destruct (_ <? _); [apply star_free_of_Z | apply shortest_star_free].
Qed.

Lemma star_free_toFixed (x : number) (f : nat) :
  star_free (toFixed shortest x f).
Proof.
  unfold toFixed. destruct x as [s | s | | s m e];
    try (destruct s; now apply star_free_literal);
    try (now apply star_free_literal).
  - apply star_free_fixed_digits.
  - apply star_free_app. split.
    + destruct s; now apply star_free_literal.
    + destruct (ge_1e21 m e);
        [apply star_free_toString | apply star_free_fixed_digits].
Qed.

Lemma star_free_formatTemperature (c : number) :
  star_free (formatTemperature shortest c).
Proof.
  unfold formatTemperature. cbv zeta.
  repeat (apply star_free_app; split);
    try apply star_free_toFixed; now apply star_free_literal.
Qed.

Lemma star_free_formatWindSpeed (v : number) :
  star_free (formatWindSpeed shortest v).
Proof.
  unfold formatWindSpeed. cbv zeta.
  apply star_free_app; split;
    [apply star_free_toFixed | now apply star_free_literal].
Qed.

Lemma star_free_formatPressure (p : number) :
  star_free (formatPressure shortest p).
Proof.
  unfold formatPressure. cbv zeta.
  apply star_free_app; split;
    [apply star_free_toFixed | now apply star_free_literal].
Qed.

Lemma star_free_formatPrecipitation (mm : number) :
  star_free (formatPrecipitation shortest mm).
Proof.
  unfold formatPrecipitation. cbv zeta.
  apply star_free_app; split;
    [apply star_free_toFixed | now apply star_free_literal].
Qed.

Lemma star_free_formatLocalTime (timestamp : string) :
  star_free (formatLocalTime Date_parse toLocaleString timestamp).
Proof.
  unfold formatLocalTime, date_toLocaleString.
  destruct (Date_parse timestamp);
    [apply toLocaleString_star_free | now apply star_free_literal].
Qed.

Lemma star_free_formatTimeAgo (timestamp : string) :
  star_free (formatTimeAgo Date_parse now timestamp).
Proof.
  unfold formatTimeAgo.
  destruct (Date_parse timestamp); [| now apply star_free_literal].
  cbv zeta.
  destruct (_ <? 1); [now apply star_free_literal |].
  destruct (_ <? 60).
  - apply star_free_app; split;
      [apply star_free_of_Z | now apply star_free_literal].
  - destruct (_ =? 0);
      repeat (apply star_free_app; split);
      try apply star_free_of_Z; now apply star_free_literal.
Qed.

End Host.

Lemma star_free_icon (icon : string) :
  star_free (getWeatherIconDescription icon).
Proof.
  unfold getWeatherIconDescription, iconMap, Object_prototype, lookup.
  repeat (destruct (String.eqb _ icon); [now apply star_free_literal |]).
  now apply star_free_literal.
Qed.

Lemma star_free_direction (degrees : number) :
  star_free (show (getWindDirection degrees)).
Proof.
  unfold getWindDirection, array_get, show.
  destruct (to_integer _) as [k |]; [| now apply star_free_literal].
  destruct (0 <=? k); [| now apply star_free_literal].
  destruct (nth_error directions (Z.to_nat k)) as [label |] eqn:E;
    [| now apply star_free_literal].
  apply nth_error_In in E. unfold directions in E. simpl in E.
  repeat (destruct E as [<- | E]; [now apply star_free_literal |]).
  contradiction.
Qed.

(** *** Clean texts *)

Lemma clean_nil (needle : string) : clean needle "".
Proof. intros rest. reflexivity. Qed.

Lemma clean_app (needle a b : string) :
  clean needle a -> clean needle b -> clean needle (a ++ b).
Proof.
  intros Ha Hb rest. rewrite append_assoc, Ha, Hb. reflexivity.
Qed.

Lemma clean_star_free (needle a : string) :
  star_free a -> clean (String "*" needle) a.
Proof.
  intros Ha rest. apply includes_skip. unfold star_free in Ha.
  rewrite Forall_forall in Ha. exact Ha.
Qed.

Lemma incompatible_prefix (n : string) :
  forall s rest, compatible s n = false -> prefix n (s ++ rest) = false.
Proof.
  unfold compatible. induction n as [| a n IH]; intros s rest H.
  - destruct s; discriminate H.
  - destruct s as [| b s]; [discriminate H |].
    simpl in *. destruct (ascii_dec b a) as [-> | Hne].
    + destruct (ascii_dec a a) as [_ | Hne]; [| contradiction].
      apply IH. exact H.
    + destruct (ascii_dec a b) as [-> | _]; [contradiction | reflexivity].
Qed.

Lemma clean_literal (needle l : string) :
  safe_literal needle l = true -> clean needle l.
Proof.
  induction l as [| c l IH]; intros H rest; [reflexivity |].
  simpl in H. apply andb_prop in H. destruct H as [Hc Hl].
  apply negb_true_iff in Hc.
  change (String c l ++ rest) with (String c (l ++ rest)).
  change (JsString.includes (String c (l ++ rest)) needle)
    with (prefix needle (String c (l ++ rest))
          || JsString.includes (l ++ rest) needle).
  change (String c (l ++ rest)) with (String c l ++ rest).
  rewrite (incompatible_prefix needle (String c l) rest Hc).
  simpl. apply IH. exact Hl.
Qed.

Lemma found_at_head (needle s rest : string) :
  prefix needle s = true -> JsString.includes (s ++ rest) needle = true.
Proof.
  intros H. apply includes_occurs. apply prefix_app in H.
  destruct H as [post ->]. exists "", (post ++ rest).
  simpl. now rewrite append_assoc.
Qed.

End TextFacts.

(** ** The optional lines in the text of the current weather *)

Module CurrentWeatherText.
Import JsNumber Schema ApiClient Format Tools TextScan TextFacts.

Lemma clean_markdown (needle : string) (chunks : list string) :
  Forall (clean needle) chunks -> clean needle (markdown_of chunks).
Proof.
  induction 1 as [| x l Hx Hl IH].
  - apply clean_nil.
  - rewrite markdown_of_cons. now apply clean_app.
Qed.

(** Clean chunks before the rest do not matter. *)
Lemma scan_skip (needle : string) (l1 l2 : list string) :
  Forall (clean needle) l1 ->
  JsString.includes (markdown_of (l1 ++ l2)%list) needle
  = JsString.includes (markdown_of l2) needle.
Proof.
  intros H. rewrite markdown_of_app. apply (clean_markdown needle l1 H).
Qed.

Lemma scan_none (needle : string) (l : list string) :
  Forall (clean needle) l -> JsString.includes "" needle = false ->
  JsString.includes (markdown_of l) needle = false.
Proof.
  intros H Hn. rewrite <- (append_nil_r (markdown_of l)).
  rewrite (clean_markdown needle l H). exact Hn.
Qed.

Lemma scan_found (needle x : string) (l : list string) :
  prefix needle x = true ->
  JsString.includes (markdown_of (x :: l)) needle = true.
Proof.
  intros H. rewrite markdown_of_cons. now apply found_at_head.
Qed.

Create HintDb star_free.

#[local] Hint Resolve star_free_toString star_free_toFixed
  star_free_formatTemperature star_free_formatWindSpeed
  star_free_formatPressure star_free_formatPrecipitation
  star_free_formatLocalTime star_free_formatTimeAgo
  star_free_icon star_free_direction : star_free.

Ltac solve_clean :=
  lazymatch goal with
  | |- clean _ (_ ++ _) => apply clean_app; solve_clean
  | |- clean _ _ =>
      first [ apply clean_star_free; solve [auto with star_free]
            | apply clean_literal; vm_compute; reflexivity ]
  end.

Ltac all_clean := repeat constructor; solve_clean.

Ltac each_label H :=
  unfold optional_labels in H; simpl in H;
  repeat (destruct H as [<- | H]); [.. | contradiction].

Section Host.

Variable shortest : number -> string.
Variable Date_parse : string -> option Z.
Variable toLocaleString : Z -> string.
Variable now : Z.

Hypothesis shortest_star_free : forall x, star_free (shortest x).
Hypothesis toLocaleString_star_free : forall t, star_free (toLocaleString t).

Lemma head_clean (needle station_id : string) (data : WeatherXMLatestResponse) :
  In needle optional_labels -> star_free station_id ->
  Forall (clean needle)
         (current_weather_head shortest Date_parse toLocaleString now
                               station_id data).
Proof.
  intros Hn Hid. unfold current_weather_head. cbv zeta.
  each_label Hn; all_clean.
Qed.

Lemma pressure_clean (needle : string) (obs : Observation) :
  In needle optional_labels ->
  Forall (clean needle) (pressure_line shortest obs).
Proof.
  intros Hn. unfold pressure_line. each_label Hn; all_clean.
Qed.

Lemma data_quality_clean (needle : string) (health : Health) :
  In needle optional_labels ->
  Forall (clean needle) (data_quality_line shortest health).
Proof.
  intros Hn. unfold data_quality_line. each_label Hn; all_clean.
Qed.

(** An optional line is clean for the labels of the other lines. *)
Lemma wind_gust_clean (needle : string) (obs : Observation) :
  In needle optional_labels -> needle <> "**Wind Gust:**" ->
  Forall (clean needle) (wind_gust_line shortest obs).
Proof.
  intros Hn Hne. unfold wind_gust_line.
  destruct (gtb _ _); [| constructor].
  each_label Hn; try (now elim Hne); all_clean.
Qed.

Lemma uv_index_clean (needle : string) (obs : Observation) :
  In needle optional_labels -> needle <> "**UV Index:**" ->
  Forall (clean needle) (uv_index_line shortest obs).
Proof.
  intros Hn Hne. unfold uv_index_line.
  destruct (gtb _ _); [| constructor].
  each_label Hn; try (now elim Hne); all_clean.
Qed.

Lemma solar_irradiance_clean (needle : string) (obs : Observation) :
  In needle optional_labels -> needle <> "**Solar Irradiance:**" ->
  Forall (clean needle) (solar_irradiance_line shortest obs).
Proof.
  intros Hn Hne. unfold solar_irradiance_line.
  destruct (gtb _ _); [| constructor].
  each_label Hn; try (now elim Hne); all_clean.
Qed.

Lemma precipitation_rate_clean (needle : string) (obs : Observation) :
  In needle optional_labels -> needle <> "**Precipitation Rate:**" ->
  Forall (clean needle) (precipitation_rate_line shortest obs).
Proof.
  intros Hn Hne. unfold precipitation_rate_line.
  destruct (gtb _ _); [| constructor].
  each_label Hn; try (now elim Hne); all_clean.
Qed.

Lemma precipitation_accumulated_clean (needle : string) (obs : Observation) :
  In needle optional_labels -> needle <> "**Precipitation Accumulated:**" ->
  Forall (clean needle) (precipitation_accumulated_line shortest obs).
Proof.
  intros Hn Hne. unfold precipitation_accumulated_line.
  destruct (gtb _ _); [| constructor].
  each_label Hn; try (now elim Hne); all_clean.
Qed.

Ltac piece_clean :=
  first [ apply head_clean | apply pressure_clean | apply data_quality_clean
        | apply wind_gust_clean | apply uv_index_clean
        | apply solar_irradiance_clean | apply precipitation_rate_clean
        | apply precipitation_accumulated_clean ];
  first [ assumption | discriminate | simpl; tauto ].

Ltac rest_clean :=
  repeat (apply Forall_app; split); first [apply Forall_nil | piece_clean].

Ltac scan_to_own_line :=
  unfold current_weather_chunks; cbv zeta;
  repeat (rewrite scan_skip by piece_clean).

(** When neither the station id nor what the host prints contains an
    asterisk, the text of the current weather contains the label of an
    optional line exactly when the guard of the line holds. *)
Lemma optional_labels_in_text :
  forall (station_id : string) (data : WeatherXMLatestResponse),
    star_free station_id ->
    let obs := observation data in
    let text := markdown_of
                  (current_weather_chunks shortest Date_parse toLocaleString
                                          now station_id data) in
    JsString.includes text "**Wind Gust:**"
    = gtb (wind_gust obs) (wind_speed obs)
    /\ JsString.includes text "**UV Index:**" = gtb (uv_index obs) (of_Z 0)
    /\ JsString.includes text "**Solar Irradiance:**"
       = gtb (solar_irradiance obs) (of_Z 0)
    /\ JsString.includes text "**Precipitation Rate:**"
       = gtb (precipitation_rate obs) (of_Z 0)
    /\ JsString.includes text "**Precipitation Accumulated:**"
       = gtb (precipitation_accumulated obs) (of_Z 0).
Proof.
  intros station_id data Hid obs text. unfold text.
  split; [| split; [| split; [| split]]].
  - scan_to_own_line. fold obs. unfold wind_gust_line.
    destruct (gtb (wind_gust obs) (wind_speed obs)).
    + apply scan_found. reflexivity.
    + apply scan_none; [rest_clean | reflexivity].
  - scan_to_own_line. fold obs. unfold uv_index_line.
    destruct (gtb (uv_index obs) (of_Z 0)).
    + apply scan_found. reflexivity.
    + apply scan_none; [rest_clean | reflexivity].
  - scan_to_own_line. fold obs. unfold solar_irradiance_line.
    destruct (gtb (solar_irradiance obs) (of_Z 0)).
    + apply scan_found. reflexivity.
    + apply scan_none; [rest_clean | reflexivity].
  - scan_to_own_line. fold obs. unfold precipitation_rate_line.
    destruct (gtb (precipitation_rate obs) (of_Z 0)).
    + apply scan_found. reflexivity.
    + apply scan_none; [rest_clean | reflexivity].
  - scan_to_own_line. fold obs. unfold precipitation_accumulated_line.
    destruct (gtb (precipitation_accumulated obs) (of_Z 0)).
    + apply scan_found. reflexivity.
    + apply scan_none; [rest_clean | reflexivity].
Qed.

End Host.

End CurrentWeatherText.

(** ** Current weather *)

Module CurrentWeather.
Import JsNumber Schema ApiClient Format Tools NumberFacts TextScan.

Section Rendering.

Variable shortest : number -> string.
Variable Date_parse : string -> option Z.
Variable toLocaleString : Z -> string.
Variable now : Z.

Let chunks := current_weather_chunks shortest Date_parse toLocaleString now.

(** Which labelled lines the chunks contain, as booleans. *)
Lemma optional_lines_existsb (station_id : string)
      (data : WeatherXMLatestResponse) :
  let obs := observation data in
  existsb (prefix "**Wind Gust:**") (chunks station_id data)
  = gtb (wind_gust obs) (wind_speed obs)
  /\ existsb (prefix "**UV Index:**") (chunks station_id data)
     = gtb (uv_index obs) (of_Z 0)
  /\ existsb (prefix "**Solar Irradiance:**") (chunks station_id data)
     = gtb (solar_irradiance obs) (of_Z 0)
  /\ existsb (prefix "**Precipitation Rate:**") (chunks station_id data)
     = gtb (precipitation_rate obs) (of_Z 0)
  /\ existsb (prefix "**Precipitation Accumulated:**") (chunks station_id data)
     = gtb (precipitation_accumulated obs) (of_Z 0).
Proof.
  intros obs. unfold chunks, current_weather_chunks. fold obs.
  unfold current_weather_head, pressure_line, data_quality_line,
    wind_gust_line, uv_index_line, solar_irradiance_line,
    precipitation_rate_line, precipitation_accumulated_line.
  destruct (gtb (wind_gust obs) (wind_speed obs));
    destruct (gtb (uv_index obs) (of_Z 0));
    destruct (gtb (solar_irradiance obs) (of_Z 0));
    destruct (gtb (precipitation_rate obs) (of_Z 0));
    destruct (gtb (precipitation_accumulated obs) (of_Z 0));
    repeat split; reflexivity.
Qed.

Lemma optional_lines_included (station_id : string)
      (data : WeatherXMLatestResponse) :
  let obs := observation data in
  forall line,
    In line (wind_gust_line shortest obs)
    \/ In line (uv_index_line shortest obs)
    \/ In line (solar_irradiance_line shortest obs)
    \/ In line (precipitation_rate_line shortest obs)
    \/ In line (precipitation_accumulated_line shortest obs) ->
    In line (chunks station_id data).
Proof.
  intros obs line. unfold chunks, current_weather_chunks. fold obs.
  rewrite !in_app_iff. tauto.
Qed.

(** C8.  A successful get_current_weather returns the chunks joined;
    among them there is a wind-gust line exactly when the gust exceeds
    the wind speed, and a UV-index, solar-irradiance,
    precipitation-rate or precipitation-accumulated line exactly when
    the value exceeds 0; a value of 0 or less has no line; a line whose
    guard holds occurs in the text returned; and when neither the
    station id nor what the host prints contains an asterisk, the text
    contains the label of a line exactly when its guard holds. *)
Theorem current_weather_optional_lines :
  forall (apiKey : string) (fetch : Fetch WeatherXMLatestResponse)
         (station_id : string) (data : WeatherXMLatestResponse),
    weatherxmApiRequest fetch ("/stations/" ++ station_id ++ "/latest") apiKey
    = Ok data ->
    let obs := observation data in
    let lines := chunks station_id data in
    let text := get_current_weather shortest Date_parse toLocaleString now
                                    apiKey fetch station_id in
    text = markdown_of lines
    /\ (has_line "**Wind Gust:**" lines
        <-> gtb (wind_gust obs) (wind_speed obs) = true)
    /\ (has_line "**UV Index:**" lines <-> gtb (uv_index obs) (of_Z 0) = true)
    /\ (has_line "**Solar Irradiance:**" lines
        <-> gtb (solar_irradiance obs) (of_Z 0) = true)
    /\ (has_line "**Precipitation Rate:**" lines
        <-> gtb (precipitation_rate obs) (of_Z 0) = true)
    /\ (has_line "**Precipitation Accumulated:**" lines
        <-> gtb (precipitation_accumulated obs) (of_Z 0) = true)
    /\ (forall value, leb value (of_Z 0) = true -> gtb value (of_Z 0) = false)
    /\ (gtb (wind_gust obs) (wind_speed obs) = true ->
        JsString.occurs_in
          ("**Wind Gust:** " ++ formatWindSpeed shortest (wind_gust obs) ++ nl)
          text)
    /\ (gtb (uv_index obs) (of_Z 0) = true ->
        JsString.occurs_in
          ("**UV Index:** " ++ toFixed shortest (uv_index obs) 1 ++ nl) text)
    /\ (gtb (solar_irradiance obs) (of_Z 0) = true ->
        JsString.occurs_in
          ("**Solar Irradiance:** " ++ toFixed shortest (solar_irradiance obs) 0
           ++ " W/m²" ++ nl) text)
    /\ (gtb (precipitation_rate obs) (of_Z 0) = true ->
        JsString.occurs_in
          ("**Precipitation Rate:** "
           ++ formatPrecipitation shortest (precipitation_rate obs)
           ++ "/hr" ++ nl) text)
    /\ (gtb (precipitation_accumulated obs) (of_Z 0) = true ->
        JsString.occurs_in
          ("**Precipitation Accumulated:** "
           ++ formatPrecipitation shortest (precipitation_accumulated obs) ++ nl)
          text)
    /\ (star_free station_id ->
        (forall x, star_free (shortest x)) ->
        (forall t, star_free (toLocaleString t)) ->
        JsString.includes text "**Wind Gust:**"
        = gtb (wind_gust obs) (wind_speed obs)
        /\ JsString.includes text "**UV Index:**" = gtb (uv_index obs) (of_Z 0)
        /\ JsString.includes text "**Solar Irradiance:**"
           = gtb (solar_irradiance obs) (of_Z 0)
        /\ JsString.includes text "**Precipitation Rate:**"
           = gtb (precipitation_rate obs) (of_Z 0)
        /\ JsString.includes text "**Precipitation Accumulated:**"
           = gtb (precipitation_accumulated obs) (of_Z 0)).
Proof.
  intros apiKey fetch station_id data Hreq obs lines text.
  destruct (optional_lines_existsb station_id data)
    as (Hgust & Huv & Hsolar & Hrate & Hacc).
  fold obs in Hgust, Huv, Hsolar, Hrate, Hacc.
  fold lines in Hgust, Huv, Hsolar, Hrate, Hacc.
  assert (Htext : text = markdown_of lines).
  { unfold text, get_current_weather. rewrite Hreq. reflexivity. }
  pose proof (optional_lines_included station_id data) as Hincl.
  fold obs lines in Hincl. cbv zeta in Hincl.
  split; [exact Htext |].
  split; [rewrite has_line_existsb, Hgust; tauto |].
  split; [rewrite has_line_existsb, Huv; tauto |].
  split; [rewrite has_line_existsb, Hsolar; tauto |].
  split; [rewrite has_line_existsb, Hrate; tauto |].
  split; [rewrite has_line_existsb, Hacc; tauto |].
  split.
  { intros value Hle. unfold gtb. fold (ltb (of_Z 0) value).
    destruct (ltb (of_Z 0) value) eqn:E; [| reflexivity].
    pose proof (ltb_not_geb _ _ E) as Hge. unfold geb in Hge.
    unfold leb in Hle. congruence. }
  rewrite Htext.
  split; [| split; [| split; [| split; [| split]]]];
    [| | | | | intros Hid Hshortest Hlocale;
              exact (CurrentWeatherText.optional_labels_in_text
                       shortest Date_parse toLocaleString now
                       Hshortest Hlocale station_id data Hid)];
    intros Hguard; apply chunk_occurs; apply Hincl.
  - left. unfold wind_gust_line. fold obs. rewrite Hguard. now left.
  - right; left. unfold uv_index_line. fold obs. rewrite Hguard. now left.
  - right; right; left. unfold solar_irradiance_line. fold obs.
    rewrite Hguard. now left.
  - right; right; right; left. unfold precipitation_rate_line. fold obs.
    rewrite Hguard. now left.
  - right; right; right; right. unfold precipitation_accumulated_line. fold obs.
    rewrite Hguard. now left.
Qed.

End Rendering.

End CurrentWeather.

(** ** Forecasts *)

Module Forecast.
Import JsNumber Schema ApiClient Format Tools.

Section Rendering.

Variable shortest : number -> string.
Variable Date_parse : string -> option Z.
Variable toLocaleString : Z -> string.
Variable apiKey : string.

Let str := toString shortest.

(** C9.  A forecast field that is missing or null is read as the
    empty list, as is done before the points are iterated: the hourly
    and the daily handler then return the no-forecast text with the
    station id. *)
Theorem absent_forecast_reports_none :
  (forall station_id hours field,
      field = Undefined \/ field = Null \/ field = Value [] ->
      hourly_forecast_text shortest Date_parse toLocaleString station_id hours
                           {| hourly_forecast := field |}
      = "No hourly forecast available for station " ++ station_id)
  /\ (forall station_id days field,
         field = Undefined \/ field = Null \/ field = Value [] ->
         daily_forecast_text shortest Date_parse toLocaleString station_id days
                             {| daily_forecast := field |}
         = "No daily forecast available for station " ++ station_id)
  /\ (forall fetch station_id hours data,
         weatherxmApiRequest fetch
           ("/stations/" ++ station_id ++ "/forecast/hourly?hours="
            ++ str (with_default (of_Z 48) hours)) apiKey = Ok data ->
         hourly_forecast data = Undefined \/ hourly_forecast data = Null ->
         get_hourly_forecast shortest Date_parse toLocaleString apiKey
                             fetch station_id hours
         = "No hourly forecast available for station " ++ station_id
         /\ JsString.occurs_in station_id
              (get_hourly_forecast shortest Date_parse toLocaleString apiKey
                                   fetch station_id hours))
  /\ (forall fetch station_id days data,
         weatherxmApiRequest fetch
           ("/stations/" ++ station_id ++ "/forecast/daily?days="
            ++ str (with_default (of_Z 7) days)) apiKey = Ok data ->
         daily_forecast data = Undefined \/ daily_forecast data = Null ->
         get_daily_forecast shortest Date_parse toLocaleString apiKey
                            fetch station_id days
         = "No daily forecast available for station " ++ station_id
         /\ JsString.occurs_in station_id
              (get_daily_forecast shortest Date_parse toLocaleString apiKey
                                  fetch station_id days))
  /\ (forall station_id hours data,
         hourly_forecast_text shortest Date_parse toLocaleString station_id hours
                              data
         = hourly_forecast_text shortest Date_parse toLocaleString station_id
             hours {| hourly_forecast := Value (or_empty (hourly_forecast data)) |})
  /\ (forall station_id days data,
         daily_forecast_text shortest Date_parse toLocaleString station_id days
                             data
         = daily_forecast_text shortest Date_parse toLocaleString station_id
             days {| daily_forecast := Value (or_empty (daily_forecast data)) |}).
Proof.
  split; [| split; [| split; [| split; [| split]]]].
  - intros station_id hours field [-> | [-> | ->]]; reflexivity.
  - intros station_id days field [-> | [-> | ->]]; reflexivity.
  - intros fetch station_id hours [field] Hreq Habsent.
    unfold get_hourly_forecast. cbv zeta. fold str.
    rewrite (tool_returns _ _ _ Hreq). simpl in Habsent.
    assert (Htext : hourly_forecast_text shortest Date_parse toLocaleString
                      station_id (with_default (of_Z 48) hours)
                      {| hourly_forecast := field |}
                    = "No hourly forecast available for station " ++ station_id)
      by (destruct Habsent as [-> | ->]; reflexivity).
    rewrite Htext. split; [reflexivity |].
    exists "No hourly forecast available for station ", "".
    now rewrite append_nil_r.
  - intros fetch station_id days [field] Hreq Habsent.
    unfold get_daily_forecast. cbv zeta. fold str.
    rewrite (tool_returns _ _ _ Hreq). simpl in Habsent.
    assert (Htext : daily_forecast_text shortest Date_parse toLocaleString
                      station_id (with_default (of_Z 7) days)
                      {| daily_forecast := field |}
                    = "No daily forecast available for station " ++ station_id)
      by (destruct Habsent as [-> | ->]; reflexivity).
    rewrite Htext. split; [reflexivity |].
    exists "No daily forecast available for station ", "".
    now rewrite append_nil_r.
  - intros station_id hours [field]. reflexivity.
  - intros station_id days [field]. reflexivity.
Qed.

End Rendering.

End Forecast.

(** ** Time ago *)

Module TimeAgo.
Import Format.

(** C10.  With a valid observation instant less than one minute before
    the clock, or after it, the text is "just now"; otherwise the
    minutes and hours printed are positive. *)
Theorem formatTimeAgo_just_now :
  forall (Date_parse : string -> option Z) (now : Z)
         (timestamp : string) (observed : Z),
    Date_parse timestamp = Some observed ->
    (now - observed < 60000 ->
     formatTimeAgo Date_parse now timestamp = "just now")
    /\ (formatTimeAgo Date_parse now timestamp = "just now"
        \/ (exists m, 1 <= m < 60
                      /\ formatTimeAgo Date_parse now timestamp
                         = JsString.of_Z m ++ "m ago")
        \/ (exists h, 1 <= h
                      /\ formatTimeAgo Date_parse now timestamp
                         = JsString.of_Z h ++ "h ago")
        \/ (exists h m, 1 <= h /\ 1 <= m < 60
                        /\ formatTimeAgo Date_parse now timestamp
                           = JsString.of_Z h ++ "h " ++ JsString.of_Z m ++ "m ago")).
Proof.
  intros Date_parse now timestamp observed Hparse.
  unfold formatTimeAgo. rewrite Hparse. cbv zeta.
  change (1000 * 60) with 60000.
  set (diffMinutes := (now - observed) / 60000).
  split.
  - intros Hlt.
    assert (Hd : diffMinutes < 1)
      by (unfold diffMinutes; apply Z.div_lt_upper_bound; lia).
    apply Z.ltb_lt in Hd. rewrite Hd. reflexivity.
  - destruct (Z.ltb_spec diffMinutes 1) as [_ | H1]; [now left |].
    destruct (Z.ltb_spec diffMinutes 60) as [H60 | H60].
    + right; left. exists diffMinutes. split; [lia | reflexivity].
    + assert (Hh : 1 <= diffMinutes / 60)
        by (apply Z.div_le_lower_bound; lia).
      pose proof (Z.rem_bound_pos diffMinutes 60 ltac:(lia) ltac:(lia)) as Hr.
      destruct (Z.eqb_spec (Z.rem diffMinutes 60) 0) as [_ | Hne].
      * right; right; left. exists (diffMinutes / 60). split; [lia | reflexivity].
      * right; right; right. exists (diffMinutes / 60), (Z.rem diffMinutes 60).
        repeat split; try lia.
Qed.

End TimeAgo.

(** ** The claims at concrete inputs *)

Module Instances.
Import JsNumber Schema ApiClient Format Tools Scenario.

(** 20 degrees Celsius: the tenths printed are the nearest ones. *)
Lemma formatTemperature_shape_witness :
  toFixed shortest (of_Z 20) 1 = "20.0"
  /\ formatTemperature shortest (of_Z 20) = "68.0°F (20.0°C)".
Proof.
  split.
  - destruct (Temperature.formatTemperature_shape shortest (of_Z 20))
      as (_ & _ & Hfixed).
    exact (proj1 (Hfixed false 5629499534213120%positive (-48) eq_refl)).
  - exact (proj1 (Temperature.formatTemperature_shape shortest (of_Z 20))).
Defined.

(** A score of 0.9 is excellent. *)
Lemma overall_assessment_tiers_witness :
  geb (lit 9 10) (lit 8 10) = true
  /\ overall_assessment (lit 9 10) = Assessment.excellent.
Proof.
  split; [vm_compute; reflexivity |].
  apply (proj1 (StationHealth.overall_assessment_tiers (lit 9 10))).
  vm_compute. reflexivity.
Defined.

(** Twelve points with the temperatures 7, 3, 9, 1, 12, 5, 8, 2, 11, 4,
    10 and 6: the text returned, with the ten lines from 9 to 6. *)
Lemma historical_summary_and_recent_witness :
  get_historical_weather shortest (parse_as 0) (print_as "Jan 1") "key"
    (respond (ok_response {| data := Value twelve_points |}))
    "WXM1" "2024-01-01" "2024-01-12"
  = "# Historical Weather Data - WXM1" ++ nl ++ nl
    ++ "Period: 2024-01-01 to 2024-01-12" ++ nl
    ++ "Data points: 12" ++ nl ++ nl
    ++ "## Summary Statistics" ++ nl ++ nl
    ++ "**Temperature Range:** 33.8°F (1.0°C) to 53.6°F (12.0°C)" ++ nl
    ++ "**Average Temperature:** 43.7°F (6.5°C)" ++ nl
    ++ "**Total Precipitation:** 0.57 in" ++ nl ++ nl
    ++ "## Recent Observations" ++ nl ++ nl
    ++ "**Jan 1:** 48.2°F (9.0°C), 56% humidity, 6.7 mph" ++ nl
    ++ "**Jan 1:** 33.8°F (1.0°C), 56% humidity, 6.7 mph" ++ nl
    ++ "**Jan 1:** 53.6°F (12.0°C), 56% humidity, 6.7 mph" ++ nl
    ++ "**Jan 1:** 41.0°F (5.0°C), 56% humidity, 6.7 mph" ++ nl
    ++ "**Jan 1:** 46.4°F (8.0°C), 56% humidity, 6.7 mph" ++ nl
    ++ "**Jan 1:** 35.6°F (2.0°C), 56% humidity, 6.7 mph" ++ nl
    ++ "**Jan 1:** 51.8°F (11.0°C), 56% humidity, 6.7 mph" ++ nl
    ++ "**Jan 1:** 39.2°F (4.0°C), 56% humidity, 6.7 mph" ++ nl
    ++ "**Jan 1:** 50.0°F (10.0°C), 56% humidity, 6.7 mph" ++ nl
    ++ "**Jan 1:** 42.8°F (6.0°C), 56% humidity, 6.7 mph" ++ nl
  /\ twelve_points <> []
  /\ no_nan (map temperature twelve_points).
Proof.
  assert (Hne : twelve_points <> []) by discriminate.
  assert (Hnan : no_nan (map temperature twelve_points))
    by (repeat constructor).
  destruct (Historical.historical_summary_and_recent
              shortest (parse_as 0) (print_as "Jan 1") "key"
              (respond (ok_response {| data := Value twelve_points |}))
              "WXM1" "2024-01-01" "2024-01-12"
              {| data := Value twelve_points |} twelve_points
              eq_refl eq_refl Hne Hnan)
    as (Htext & _).
  split; [| split; [exact Hne | exact Hnan]].
  rewrite Htext. vm_compute. reflexivity.
Defined.

(** A gust of 5 m/s over a wind of 3 m/s has its line; a UV index of 0
    has none. *)
Lemma current_weather_optional_lines_witness :
  has_line "**Wind Gust:**"
           (current_weather_chunks shortest (parse_as 0) (print_as "Jan 1") 0
                                   "WXM1" latest)
  /\ ~ has_line "**UV Index:**"
       (current_weather_chunks shortest (parse_as 0) (print_as "Jan 1") 0
                               "WXM1" latest)
  /\ JsString.includes
       (get_current_weather shortest (parse_as 0) (print_as "Jan 1") 0 "key"
                            (respond (ok_response latest)) "WXM1")
       "**Wind Gust:**" = true.
Proof.
  destruct (CurrentWeather.current_weather_optional_lines
              shortest (parse_as 0) (print_as "Jan 1") 0
              "key" (respond (ok_response latest)) "WXM1" latest eq_refl)
    as (_ & Hgust & Huv & _ & _ & _ & _ & _ & _ & _ & _ & _ & Htext).
  split; [| split].
  - apply Hgust. vm_compute. reflexivity.
  - intros H. apply Huv in H. vm_compute in H. discriminate H.
  - assert (Hid : TextScan.star_free "WXM1")
      by (apply TextFacts.star_free_literal; reflexivity).
    assert (Hshortest : forall x, TextScan.star_free (shortest x))
      by (intros x; apply TextFacts.star_free_literal; reflexivity).
    assert (Hlocale : forall t, TextScan.star_free (print_as "Jan 1" t))
      by (intros t; apply TextFacts.star_free_literal; reflexivity).
    destruct (Htext Hid Hshortest Hlocale) as [Hlabel _].
    rewrite Hlabel. vm_compute. reflexivity.
Defined.

(** A body without the forecast key. *)
Lemma absent_forecast_reports_none_witness :
  get_hourly_forecast shortest (parse_as 0) (print_as "Jan 1") "key"
    (respond (ok_response {| hourly_forecast := Undefined |})) "WXM1" None
  = "No hourly forecast available for station WXM1".
Proof.
  destruct (Forecast.absent_forecast_reports_none
              shortest (parse_as 0) (print_as "Jan 1") "key")
    as (_ & _ & Hhourly & _).
  exact (proj1 (Hhourly (respond (ok_response {| hourly_forecast := Undefined |}))
                        "WXM1" None {| hourly_forecast := Undefined |}
                        eq_refl (or_introl eq_refl))).
Defined.

(** An observation stamped thirty seconds after the clock. *)
Lemma formatTimeAgo_just_now_witness :
  0 - 30000 < 60000
  /\ formatTimeAgo (parse_as 30000) 0 "2030-01-01T00:00:30Z" = "just now".
Proof.
  split; [lia |].
  apply (proj1 (TimeAgo.formatTimeAgo_just_now
                  (parse_as 30000) 0 "2030-01-01T00:00:30Z" 30000 eq_refl)).
  lia.
Defined.

End Instances.

(** ** The worked values of the specification *)

Module Examples.
Import JsNumber Format Scenario.

(** One inch, the standard atmosphere and ten metres per second. *)
Theorem worked_conversions :
  formatPrecipitation shortest (lit 254 10) = "1.00 in"
  /\ formatPressure shortest (lit 101325 100) = "29.92 inHg"
  /\ formatWindSpeed shortest (of_Z 10) = "22.4 mph".
Proof. repeat split; vm_compute; reflexivity. Qed.

Example formatTemperature_minus_forty :
  formatTemperature shortest (of_Z (-40)) = "-40.0°F (-40.0°C)".
Proof. vm_compute. reflexivity. Qed.

Example icon_thunderstorm :
  getWeatherIconDescription "thunderstorm" = "Thunderstorm"
  /\ getWeatherIconDescription "tornado" = "Unknown".
Proof. split; reflexivity. Qed.

Example time_ago_values :
  map (fun now => formatTimeAgo (parse_as 0) now "t")
      [59999; 60000; 3599999; 3600000; 3660000]
  = ["just now"; "1m ago"; "59m ago"; "1h ago"; "1h 1m ago"]
  /\ formatTimeAgo (fun _ => None) 0 "never" = "NaNh NaNm ago".
Proof. split; vm_compute; reflexivity. Qed.

Example wind_direction_values :
  map (fun d => getWindDirection (of_Z d)) [0; 11; 12; 90; 180; 349; 359]
  = [Some "N"; Some "N"; Some "NNE"; Some "E"; Some "S"; Some "N"; Some "N"]
  /\ getWindDirection (of_Z (-45)) = None
  /\ getWindDirection NaN = None.
Proof. repeat split; vm_compute; reflexivity. Qed.

End Examples.

(** ** Numbers: integers *)

Module IntegerFacts.
Import JsNumber RoundingFacts.

Lemma iter_xO_value (d p : positive) :
  Zpos (Pos.iter xO p d) = Zpos p * 2 ^ Zpos d.
Proof.
  induction d as [| d IH] using Pos.peano_ind.
  - simpl. lia.
  - rewrite Pos.iter_succ, Pos2Z.inj_xO, IH, Pos2Z.inj_succ, Z.pow_succ_r by lia.
    ring.
Qed.

Lemma iter_xO_digits (d p : positive) :
  Zpos (digits2_pos (Pos.iter xO p d)) = Zpos (digits2_pos p) + Zpos d.
Proof.
  induction d as [| d IH] using Pos.peano_ind.
  - simpl. lia.
  - rewrite Pos.iter_succ. simpl digits2_pos. rewrite Pos2Z.inj_succ, IH. lia.
Qed.

(** Rounding a canonical mantissa changes nothing. *)
Lemma binary_round_aux_canonical (s : bool) (m : positive) (e : Z) :
  fexp prec emax (Zpos (digits2_pos m) + e) = e -> e <= emax - prec ->
  binary_round_aux prec emax s (Zpos m) e loc_Exact = S754_finite s m e.
Proof.
  intros Hc He. unfold binary_round_aux, shr_fexp.
  change (Zdigits2 (Zpos m)) with (Zpos (digits2_pos m)).
  rewrite Hc, Z.sub_diag.
  cbv beta iota delta [shr shr_record_of_loc shr_m loc_of_shr_record
                       round_nearest_even].
  change (Zdigits2 (Zpos m)) with (Zpos (digits2_pos m)).
  rewrite Hc, Z.sub_diag. cbv beta iota.
  replace (e <=? emax - prec) with true by (symmetry; now apply Z.leb_le).
  reflexivity.
Qed.

(** The Number of an integer below 2^53 in absolute value is that
    integer: the mantissa is the integer shifted to 53 digits. *)
Lemma binary_round_small (s : bool) (m : positive) :
  Zpos m < 2 ^ 53 ->
  exists m' e, binary_round prec emax s m 0 = S754_finite s m' e
               /\ -52 <= e <= 0 /\ Zpos m' = Zpos m * 2 ^ (- e).
Proof.
  intros Hm.
  assert (Hd : 1 <= Zpos (digits2_pos m) <= 53).
  { split; [lia |]. pose proof (digits2_bounds m) as [Hlo _].
    assert (H : 2 ^ (Zpos (digits2_pos m) - 1) < 2 ^ 53) by lia.
    apply Z.pow_lt_mono_r_iff in H; lia. }
  unfold binary_round, shl_align.
  rewrite Z.add_0_r.
  assert (Hf : fexp prec emax (Zpos (digits2_pos m)) = Zpos (digits2_pos m) - 53)
    by (unfold fexp, emin, prec, emax; lia).
  rewrite Hf, Z.sub_0_r.
  destruct (Zpos (digits2_pos m) - 53) as [| d | d] eqn:Ed; [| lia |].
  - exists m, 0. split.
    + apply binary_round_aux_canonical; [| unfold emax, prec; lia].
      rewrite Z.add_0_r. exact Hf.
    + split; [lia |]. simpl. lia.
  - exists (Pos.iter xO m d), (Zneg d). split.
    + apply binary_round_aux_canonical; [| unfold emax, prec; lia].
      rewrite iter_xO_digits. unfold fexp, emin, prec, emax. lia.
    + split; [lia |]. rewrite iter_xO_value. reflexivity.
Qed.

Lemma to_integer_of_Z (z : Z) :
  Z.abs z < 2 ^ 53 -> to_integer (of_Z z) = Some z.
Proof.
  intros Hz. unfold of_Z, binary_normalize.
  destruct z as [| m | m]; [reflexivity | |].
  - destruct (binary_round_small false m) as (m' & e & -> & He & Hm'); [lia |].
    unfold to_integer, signed. rewrite Hm'.
    destruct (Z.leb_spec 0 e) as [H0 | H0].
    + replace e with 0 by lia. simpl. f_equal. lia.
    + rewrite Z_mod_mult, Z.eqb_refl, Z_div_mult; [reflexivity |].
      apply Z.lt_gt. apply Z.pow_pos_nonneg; lia.
  - destruct (binary_round_small true m) as (m' & e & -> & He & Hm'); [lia |].
    unfold to_integer, signed. rewrite Hm'.
    destruct (Z.leb_spec 0 e) as [H0 | H0].
    + replace e with 0 by lia. simpl. f_equal. lia.
    + rewrite Z_mod_mult, Z.eqb_refl, Z_div_mult; [reflexivity |].
      apply Z.lt_gt. apply Z.pow_pos_nonneg; lia.
Qed.

(** An integer below 2^53 is printed with its decimal digits. *)
Lemma toString_of_Z (shortest : number -> string) (z : Z) :
  Z.abs z < 2 ^ 53 -> toString shortest (of_Z z) = JsString.of_Z z.
Proof.
  intros Hz. pose proof (to_integer_of_Z z Hz) as Hi. unfold toString.
  destruct (of_Z z) as [s | s | | s m e] eqn:E; try discriminate Hi.
  - simpl in Hi. injection Hi as <-. reflexivity.
  - rewrite Hi. replace (Z.abs z <? 2 ^ 53) with true
      by (symmetry; now apply Z.ltb_lt).
    reflexivity.
Qed.

End IntegerFacts.

(** ** The API client: what reaches the caller *)

Module ClientOutcome.
Import ApiClient.

Lemma network_message_lacks_fetch :
  JsString.includes
    "Unable to connect to WeatherXM service. Please check your internet connection."
    "fetch" = false.
Proof. reflexivity. Qed.

(** What the [catch] clause throws is never rewritten by it again. *)
Lemma rescue_settles {A : Type} (e : thrown) :
  exists e', request_rescue (A := A) e = Throw e'
             /\ request_rescue (A := A) e' = Throw e'
             /\ match e' with
                | JsError m => JsString.includes m "fetch" = false
                | JsNonError _ => True
                end.
Proof.
  destruct e as [m | v].
  - unfold request_rescue at 1. destruct (JsString.includes m "fetch") eqn:Hm.
    + eexists. split; [reflexivity |]. split; reflexivity.
    + exists (JsError m). split; [reflexivity |]. simpl. rewrite Hm. now split.
  - exists (JsNonError v). repeat split.
Qed.

(** The client fails only with what its [catch] clause throws. *)
Lemma failure_is_rescued {A : Type} (fetch : Fetch A) (endpoint apiKey : string)
      (e : thrown) :
  weatherxmApiRequest fetch endpoint apiKey = Throw e ->
  exists e0, request_rescue (A := A) e0 = Throw e.
Proof.
  unfold weatherxmApiRequest, try_catch.
  destruct (request_attempt fetch endpoint apiKey) as [a | e0]; [discriminate |].
  intros H. now exists e0.
Qed.

(** A value comes from the [try] block: the [catch] clause only throws. *)
Lemma value_from_attempt {A : Type} (fetch : Fetch A) (endpoint apiKey : string)
      (a : A) :
  weatherxmApiRequest fetch endpoint apiKey = Ok a ->
  request_attempt fetch endpoint apiKey = Ok a.
Proof.
  unfold weatherxmApiRequest, try_catch.
  destruct (request_attempt fetch endpoint apiKey) as [b | e]; [trivial |].
  destruct (rescue_settles (A := A) e) as (e' & -> & _). discriminate.
Qed.

(** X2.  The client returns a value exactly when the fetch resolves with
    a status from 200 to 299 and the body parses to that value: no other
    outcome of the request is turned into data. *)
Theorem value_only_from_parsed_success :
  forall (A : Type) (fetch : Fetch A) (endpoint apiKey : string) (a : A),
    weatherxmApiRequest fetch endpoint apiKey = Ok a
    <-> exists r,
        fetch (WEATHERXM_API_BASE ++ endpoint) (request_headers apiKey)
        = Resolved r
        /\ 200 <= status r <= 299
        /\ json r = Ok a.
Proof.
  intros A fetch endpoint apiKey a. split.
  - intros H. apply value_from_attempt in H.
    destruct (fetch (WEATHERXM_API_BASE ++ endpoint) (request_headers apiKey))
      as [e | r] eqn:Hout.
    + rewrite (attempt_rejected fetch endpoint apiKey e Hout) in H. discriminate H.
    + exists r. split; [reflexivity |].
      destruct (ok r) eqn:Hok.
      * rewrite (attempt_success fetch endpoint apiKey r Hout Hok) in H.
        split; [| exact H].
        unfold ok in Hok. apply andb_prop in Hok. destruct Hok as [H1 H2].
        apply Z.leb_le in H1, H2. lia.
      * rewrite (attempt_status_error fetch endpoint apiKey r Hout Hok) in H.
        discriminate H.
  - intros (r & Hout & Hst & Hjson).
    apply (request_success fetch endpoint apiKey r a Hout); [| exact Hjson].
    unfold ok. apply andb_true_intro. split; apply Z.leb_le; lia.
Qed.

(** X3.  No [Error] that leaves the client has a message containing
    "fetch", and the [catch] clause applied to what the client throws
    gives the same failure again. *)
Theorem thrown_messages_lack_fetch :
  forall (A : Type) (fetch : Fetch A) (endpoint apiKey : string),
    (forall m, weatherxmApiRequest fetch endpoint apiKey = Throw (JsError m) ->
               JsString.includes m "fetch" = false)
    /\ (forall e, weatherxmApiRequest fetch endpoint apiKey = Throw e ->
                  request_rescue (A := A) e = Throw e).
Proof.
  intros A fetch endpoint apiKey.
  assert (Hsettled : forall e,
             weatherxmApiRequest fetch endpoint apiKey = Throw e ->
             request_rescue (A := A) e = Throw e
             /\ match e with
                | JsError m => JsString.includes m "fetch" = false
                | JsNonError _ => True
                end).
  { intros e H. destruct (failure_is_rescued fetch endpoint apiKey e H) as [e0 He0].
    destruct (rescue_settles (A := A) e0) as (e' & He' & Hfix & Hm).
    rewrite He0 in He'. injection He' as <-. now split. }
  split.
  - intros m H. exact (proj2 (Hsettled _ H)).
  - intros e H. exact (proj1 (Hsettled _ H)).
Qed.

(** X4.  When a response with a success status has a body that cannot
    be read or parsed, the failure [e] of [response.json()] is rethrown
    as it is, unless it is an [Error] whose message contains "fetch":
    that one is reported as the connection error. *)
Theorem unreadable_body_classified_by_message :
  forall (A : Type) (fetch : Fetch A) (endpoint apiKey : string)
         (r : Response A) (e : thrown),
    fetch (WEATHERXM_API_BASE ++ endpoint) (request_headers apiKey) = Resolved r ->
    ok r = true ->
    json r = Throw e ->
    weatherxmApiRequest fetch endpoint apiKey
    = match e with
      | JsError m =>
          if JsString.includes m "fetch"
          then Throw (error_of_kind NetworkUnavailable)
          else Throw (JsError m)
      | JsNonError v => Throw (JsNonError v)
      end.
Proof.
  intros A fetch endpoint apiKey r e Hout Hok Hjson.
  unfold weatherxmApiRequest.
  rewrite (attempt_success fetch endpoint apiKey r Hout Hok), Hjson.
  destruct e as [m | v]; reflexivity.
Qed.

End ClientOutcome.

(** ** The handlers: listings without entries, and failures *)

Lemma or_empty_nil {A : Type} (field : nullable (list A)) :
  or_empty field = [] <-> field = Undefined \/ field = Null \/ field = Value [].
Proof.
  destruct field as [| | l]; simpl.
  - tauto.
  - split; [tauto | reflexivity].
  - split.
    + intros ->. tauto.
    + intros [H | [H | H]]; try discriminate H. now injection H.
Qed.

Lemma error_text_prefix (e : thrown) : prefix "Error: " (Tools.error_text e) = true.
Proof.
  apply prefix_app. unfold Tools.error_text.
  destruct e as [m | v]; [now exists m | now exists "Unknown error"].
Qed.

Module Listings.
Import JsNumber Schema ApiClient Format Tools.

Section Rendering.

Variable shortest : number -> string.
Variable Date_parse : string -> option Z.
Variable toLocaleString : Z -> string.
Variable getTimezoneOffset : Z -> Z.
Variable now : Z.
Variable apiKey : string.

Let str := toString shortest.

(** X5.  When the request succeeds and the array of the response is
    missing, null or empty, the historical, alerts, nearby-stations,
    station-search and cells handlers return their answer built from
    the arguments of the call, and nothing else: one sentence, which the
    nearby-stations handler ends with a full stop and puts after the
    heading "# WeatherXM Stations" and a blank line. *)
Theorem empty_listing_reports_none :
  (forall fetch station_id start_date end_date response,
      weatherxmApiRequest fetch
        ("/stations/" ++ station_id ++ "/historical?start=" ++ start_date
         ++ "&end=" ++ end_date) apiKey = Ok response ->
      data response = Undefined \/ data response = Null
      \/ data response = Value [] ->
      get_historical_weather shortest Date_parse toLocaleString apiKey
                             fetch station_id start_date end_date
      = "No historical data available for station " ++ station_id
        ++ " between " ++ start_date ++ " and " ++ end_date)
  /\ (forall fetch latitude longitude response,
         weatherxmApiRequest fetch
           ("/alerts?lat=" ++ str latitude ++ "&lon=" ++ str longitude) apiKey
         = Ok response ->
         alerts response = Undefined \/ alerts response = Null
         \/ alerts response = Value [] ->
         get_weather_alerts shortest Date_parse toLocaleString apiKey
                            fetch latitude longitude
         = "No active weather alerts for location " ++ str latitude ++ ", "
           ++ str longitude)
  /\ (forall fetch latitude longitude radius response,
         weatherxmApiRequest fetch
           ("/stations?lat=" ++ str latitude ++ "&lon=" ++ str longitude
            ++ "&radius=" ++ str (with_default (of_Z 50) radius)) apiKey
         = Ok response ->
         stations response = Undefined \/ stations response = Null
         \/ stations response = Value [] ->
         find_weather_stations shortest Date_parse toLocaleString apiKey
                               fetch latitude longitude radius
         = "# WeatherXM Stations" ++ nl ++ nl
           ++ "No weather stations found within "
           ++ str (with_default (of_Z 50) radius) ++ "km of "
           ++ str latitude ++ ", " ++ str longitude ++ ".")
  /\ (forall fetch query page limit response,
         weatherxmApiRequest fetch
           ("/stations/search?q=" ++ JsString.encodeURIComponent query
            ++ "&page=" ++ str (with_default (of_Z 1) page)
            ++ "&limit=" ++ str (with_default (of_Z 10) limit)) apiKey
         = Ok response ->
         result_stations (results response) = Undefined
         \/ result_stations (results response) = Null
         \/ result_stations (results response) = Value [] ->
         search_weather_stations shortest Date_parse toLocaleString apiKey
                                 fetch query page limit
         = "No weather stations found matching " ++ quote ++ query ++ quote)
  /\ (forall fetch latitude longitude radius response,
         weatherxmApiRequest fetch
           ("/cells?lat=" ++ str latitude ++ "&lon=" ++ str longitude
            ++ "&radius=" ++ str (with_default (of_Z 50) radius)) apiKey
         = Ok response ->
         cells response = Undefined \/ cells response = Null
         \/ cells response = Value [] ->
         get_weather_cells shortest apiKey fetch latitude longitude radius
         = "No weather cells found within "
           ++ str (with_default (of_Z 50) radius) ++ "km of "
           ++ str latitude ++ ", " ++ str longitude).
Proof.
  split; [| split; [| split; [| split]]].
  - intros fetch station_id start_date end_date response Hreq Hnone.
    apply or_empty_nil in Hnone.
    unfold get_historical_weather. rewrite Hreq. simpl bind. unfold tool.
    unfold historical_text. cbv zeta. rewrite Hnone. reflexivity.
  - intros fetch latitude longitude response Hreq Hnone.
    apply or_empty_nil in Hnone.
    unfold get_weather_alerts. fold str. rewrite Hreq. simpl bind. cbv zeta.
    rewrite Hnone. reflexivity.
  - intros fetch latitude longitude radius response Hreq Hnone.
    apply or_empty_nil in Hnone.
    unfold find_weather_stations. cbv zeta. fold str. rewrite Hreq.
    simpl bind. rewrite Hnone. reflexivity.
  - intros fetch query page limit response Hreq Hnone.
    apply or_empty_nil in Hnone.
    unfold search_weather_stations. cbv zeta. fold str. rewrite Hreq.
    simpl bind. rewrite Hnone. reflexivity.
  - intros fetch latitude longitude radius response Hreq Hnone.
    apply or_empty_nil in Hnone.
    unfold get_weather_cells. cbv zeta. fold str. rewrite Hreq.
    simpl bind. rewrite Hnone. reflexivity.
Qed.


(** The first chunk of a text decides how it begins. *)
Ltac begins_with_own_heading :=
  intros ?; cbv zeta beta;
  repeat match goal with
         | |- context [if ?c then _ else _] => destruct c
         end;
  first [ reflexivity
        | unfold current_weather_chunks, current_weather_head,
            station_health_chunks, historical_text, historical_chunks,
            hourly_forecast_text, daily_forecast_text;
          cbv zeta;
          repeat match goal with
                 | |- context [if ?c then _ else _] => destruct c
                 end;
          first [ reflexivity
                | cbn [app]; rewrite markdown_of_cons; reflexivity ] ].

(** A handler whose texts on bodies of the declared type do not begin
    with "Error: " marks its failures, and only them, with it. *)
Lemma marked_block {Body A : Type} (declared : Body -> option A)
      (otherwise : Body -> result string) (render : A -> string)
      (request : result Body) :
  (forall data, prefix "Error: " (render data) = false) ->
  Unvalidated.marks_failure declared otherwise request
    (try_catch (body <- request ;;
                Unvalidated.rendered declared otherwise render body)
               Unvalidated.caught).
Proof.
  intros Hrender. unfold Unvalidated.marks_failure. rewrite try_catch_caught.
  eexists; split; [reflexivity |].
  destruct request as [body | e]; [| apply error_text_prefix].
  unfold bind, Unvalidated.rendered.
  destruct (declared body) as [data |]; [apply Hrender |].
  destruct (otherwise body) as [made | e]; [reflexivity | apply error_text_prefix].
Qed.

Section Marks.

Context {Body : Type}.
Variable otherwise : Body -> result string.

(** X6.  The text of each of the ten handlers begins with "Error: "
    whenever its request to the API client has failed or the statements
    after the request have thrown, and never when the request has
    returned a body of the declared type: every such answer begins with
    a heading or a sentence of its own.  On any other body that those
    statements get through, the text is the one they have made. *)
Theorem error_prefix_marks_failure :
  (forall declared fetch station_id,
      Unvalidated.marks_failure declared otherwise
        (weatherxmApiRequest fetch ("/stations/" ++ station_id ++ "/latest")
                             apiKey)
        (Unvalidated.get_current_weather shortest Date_parse toLocaleString now
           apiKey declared otherwise fetch station_id))
  /\ (forall declared fetch station_id hours,
         Unvalidated.marks_failure declared otherwise
           (weatherxmApiRequest fetch
              ("/stations/" ++ station_id ++ "/forecast/hourly?hours="
               ++ str (with_default (of_Z 48) hours)) apiKey)
           (Unvalidated.get_hourly_forecast shortest Date_parse toLocaleString
              apiKey declared otherwise fetch station_id hours))
  /\ (forall declared fetch station_id days,
         Unvalidated.marks_failure declared otherwise
           (weatherxmApiRequest fetch
              ("/stations/" ++ station_id ++ "/forecast/daily?days="
               ++ str (with_default (of_Z 7) days)) apiKey)
           (Unvalidated.get_daily_forecast shortest Date_parse toLocaleString
              apiKey declared otherwise fetch station_id days))
  /\ (forall declared fetch station_id start_date end_date,
         Unvalidated.marks_failure declared otherwise
           (weatherxmApiRequest fetch
              ("/stations/" ++ station_id ++ "/historical?start=" ++ start_date
               ++ "&end=" ++ end_date) apiKey)
           (Unvalidated.get_historical_weather shortest Date_parse
              toLocaleString apiKey declared otherwise fetch
              station_id start_date end_date))
  /\ (forall declared fetch latitude longitude,
         Unvalidated.marks_failure declared otherwise
           (weatherxmApiRequest fetch
              ("/alerts?lat=" ++ str latitude ++ "&lon=" ++ str longitude)
              apiKey)
           (Unvalidated.get_weather_alerts shortest Date_parse toLocaleString
              apiKey declared otherwise fetch latitude longitude))
  /\ (forall declared fetch latitude longitude radius,
         Unvalidated.marks_failure declared otherwise
           (weatherxmApiRequest fetch
              ("/stations?lat=" ++ str latitude ++ "&lon=" ++ str longitude
               ++ "&radius=" ++ str (with_default (of_Z 50) radius)) apiKey)
           (Unvalidated.find_weather_stations shortest Date_parse toLocaleString
              apiKey declared otherwise fetch latitude longitude radius))
  /\ (forall declared fetch query page limit,
         Unvalidated.marks_failure declared otherwise
           (weatherxmApiRequest fetch
              ("/stations/search?q=" ++ JsString.encodeURIComponent query
               ++ "&page=" ++ str (with_default (of_Z 1) page)
               ++ "&limit=" ++ str (with_default (of_Z 10) limit)) apiKey)
           (Unvalidated.search_weather_stations shortest Date_parse
              toLocaleString apiKey declared otherwise fetch
              query page limit))
  /\ (forall declared fetch latitude longitude radius,
         Unvalidated.marks_failure declared otherwise
           (weatherxmApiRequest fetch
              ("/cells?lat=" ++ str latitude ++ "&lon=" ++ str longitude
               ++ "&radius=" ++ str (with_default (of_Z 50) radius)) apiKey)
           (Unvalidated.get_weather_cells shortest apiKey declared
              otherwise fetch latitude longitude radius))
  /\ (forall declared fetch station_id,
         Unvalidated.marks_failure declared otherwise
           (weatherxmApiRequest fetch ("/stations/" ++ station_id ++ "/latest")
                                apiKey)
           (Unvalidated.get_station_health shortest Date_parse toLocaleString
              apiKey declared otherwise fetch station_id))
  /\ (forall declared fetch station_id,
         Unvalidated.marks_failure declared otherwise
           (weatherxmApiRequest fetch ("/stations/" ++ station_id ++ "/latest")
                                apiKey)
           (Unvalidated.get_station_local_time shortest Date_parse
              toLocaleString getTimezoneOffset now apiKey declared
              otherwise fetch station_id)).
Proof.
  repeat split; intros;
    unfold Unvalidated.get_current_weather, Unvalidated.get_hourly_forecast,
      Unvalidated.get_daily_forecast, Unvalidated.get_historical_weather,
      Unvalidated.get_weather_alerts, Unvalidated.find_weather_stations,
      Unvalidated.search_weather_stations, Unvalidated.get_weather_cells,
      Unvalidated.get_station_health, Unvalidated.get_station_local_time;
    cbv zeta; fold str; apply marked_block;
    unfold Unvalidated.current_weather_text, Unvalidated.weather_alerts_text,
      Unvalidated.found_stations_text, Unvalidated.searched_stations_text,
      Unvalidated.weather_cells_text, Unvalidated.station_health_text,
      Unvalidated.station_local_time_text;
    begins_with_own_heading.
Qed.

End Marks.

End Rendering.

End Listings.

(** ** Readings with one or two decimals *)

Module TableFacts.
Import JsNumber Format WindTable Tables.

Lemma option_string_same_eq (a b : option string) :
  option_string_same a b = true -> a = b.
Proof.
  destruct a as [x |], b as [y |]; simpl; try discriminate; [| reflexivity].
  intros H. apply String.eqb_eq in H. now subst y.
Qed.

(** A table checked on [n] consecutive integers holds at each of them. *)
Lemma table_at (check : Z -> bool) (n : nat) (lo z : Z) :
  forallb check (upto n lo) = true -> lo <= z < lo + Z.of_nat n ->
  check z = true.
Proof.
  intros H Hz. rewrite forallb_forall in H. apply H.
  now apply WindFacts.in_upto.
Qed.

Lemma nearby_found (guess : Z) (shown : Z -> string) (near : Z -> bool)
      (text : string) :
  nearby guess shown near text = true ->
  exists n, text = shown n /\ near n = true.
Proof.
  unfold nearby. rewrite existsb_exists. intros (n & _ & H).
  apply andb_prop in H. destruct H as [Heq Hnear].
  apply String.eqb_eq in Heq. now exists n.
Qed.

Lemma sector_table : forallb sector_ok (upto 1440 0) = true.
Proof. vm_compute. reflexivity. Qed.

Lemma below_zero_table : forallb below_zero_ok (upto 1440 (-1440)) = true.
Proof. vm_compute. reflexivity. Qed.

Section Host.

Variable shortest : number -> string.

Lemma temperature_table :
  forallb (temperature_ok shortest) (upto 1501 (-900)) = true.
Proof. vm_compute. reflexivity. Qed.

Lemma wind_table : forallb (wind_ok shortest) (upto 1001 0) = true.
Proof. vm_compute. reflexivity. Qed.

Lemma pressure_table : forallb (pressure_ok shortest) (upto 2151 8700) = true.
Proof. vm_compute. reflexivity. Qed.

Lemma precipitation_table :
  forallb (precipitation_ok shortest) (upto 2001 0) = true.
Proof. vm_compute. reflexivity. Qed.

Lemma quality_table : forallb (quality_ok shortest) (upto 101 0) = true.
Proof. vm_compute. reflexivity. Qed.

Lemma pages_table :
  forallb (fun size => forallb (fun total => pages_ok shortest total size)
                               (upto 101 0))
          (upto 50 1) = true.
Proof. vm_compute. reflexivity. Qed.

Lemma pages_at (total size : Z) :
  0 <= total <= 100 -> 1 <= size <= 50 ->
  toString shortest (Math_ceil (div (of_Z total) (of_Z size)))
  = JsString.of_Z ((total + size - 1) / size).
Proof.
  intros Ht Hs.
  pose proof (table_at _ 50 1 size pages_table ltac:(simpl; lia)) as H.
  cbv beta in H.
  pose proof (table_at _ 101 0 total H ltac:(simpl; lia)) as H'.
  now apply String.eqb_eq in H'.
Qed.

End Host.

End TableFacts.

Module Sectors.
Import JsNumber Schema Format Tools WindTable Tables TableFacts.

(** X12.  For a direction that is a whole number of quarters of a
    degree from 0 up to 360, the label is that of the sector of 22.5
    degrees the direction lies in, in exact arithmetic: sector 0 (N) is
    centred on 0 degrees and a boundary such as 11.25 belongs to the
    sector that follows. *)
Theorem wind_sector_of_quarter_degrees :
  forall k : Z,
    0 <= k < 1440 ->
    getWindDirection (quarters k)
    = nth_error directions (Z.to_nat (((k + 45) / 90) mod 16))
    /\ exists label, getWindDirection (quarters k) = Some label.
Proof.
  intros k Hk.
  pose proof (table_at sector_ok 1440 0 k sector_table ltac:(simpl; lia)) as H.
  apply option_string_same_eq in H. unfold sector_of_quarters in H.
  split; [exact H |].
  rewrite H.
  destruct (nth_error directions (Z.to_nat (((k + 45) / 90) mod 16)))
    as [label |] eqn:E; [now exists label |].
  apply nth_error_None in E. simpl in E.
  pose proof (Z.mod_pos_bound ((k + 45) / 90) 16 ltac:(lia)). lia.
Qed.

Section Host.

Variable shortest : number -> string.
Variable Date_parse : string -> option Z.
Variable toLocaleString : Z -> string.
Variable now : Z.

(** X13.  The lookup has no label for a direction that is not a
    number, for an infinite one, and for every multiple of a quarter of a
    degree from -348.75 to -11.5 (the other ones down to -360 are labelled
    N); the current-weather text then says that the wind is from
    undefined. *)
Theorem wind_direction_undefined :
  getWindDirection NaN = None
  /\ (forall s, getWindDirection (S754_infinity s) = None)
  /\ (forall k, -1440 <= k < 0 ->
        getWindDirection (quarters k)
        = if (-1395 <=? k) && (k <? -45) then None else Some "N")
  /\ (forall station_id data,
         getWindDirection (wind_direction (observation data)) = None ->
         In ("**Wind:** "
             ++ formatWindSpeed shortest (wind_speed (observation data))
             ++ " from undefined ("
             ++ toString shortest (wind_direction (observation data))
             ++ "°)" ++ nl)
            (current_weather_chunks shortest Date_parse toLocaleString now
                                    station_id data)).
Proof.
  split; [reflexivity |]. split; [intros []; reflexivity |]. split.
  - intros k Hk.
    pose proof (table_at below_zero_ok 1440 (-1440) k below_zero_table
                  ltac:(simpl; lia)) as H.
    now apply option_string_same_eq in H.
  - intros station_id data Hnone.
    unfold current_weather_chunks. cbv zeta. apply in_or_app. left.
    unfold current_weather_head. cbv zeta. rewrite Hnone.
    do 10 right. left. reflexivity.
Qed.

End Host.

End Sectors.

(** ** The handlers: one section for each entry *)

Lemma markdown_of_flat_map {A : Type} (f : A -> list string) (l : list A) :
  Tools.markdown_of (flat_map f l)
  = Tools.markdown_of (map (fun x => Tools.markdown_of (f x)) l).
Proof.
  induction l as [| a l IH].
  - reflexivity.
  - change (flat_map f (a :: l)) with (f a ++ flat_map f l)%list.
    change (map (fun x => Tools.markdown_of (f x)) (a :: l))
      with (Tools.markdown_of (f a) :: map (fun x => Tools.markdown_of (f x)) l).
    rewrite markdown_of_app, markdown_of_cons, IH. reflexivity.
Qed.



Lemma markdown_of_four (a b c d : string) :
  Tools.markdown_of [a; b; c; d] = a ++ b ++ c ++ d.
Proof. reflexivity. Qed.

Lemma occurs_after (s t heading : string) :
  JsString.occurs_in s t -> JsString.occurs_in s (heading ++ t).
Proof.
  intros (pre & post & ->). exists (heading ++ pre), post.
  now rewrite append_assoc.
Qed.

(** A text made of a heading and one section for each entry of [l],
    in the order of [l]. *)
Lemma sections_listed {A : Type} (f : A -> list string) (l : list A)
      (heading : list string) :
  Tools.markdown_of (heading ++ flat_map f l)%list
  = Tools.markdown_of heading
    ++ Tools.markdown_of (map (fun x => Tools.markdown_of (f x)) l).
Proof.
  rewrite markdown_of_app, markdown_of_flat_map. reflexivity.
Qed.


Lemma length_eqb_cons {A : Type} (l : list A) :
  l <> [] -> (List.length l =? 0)%nat = false.
Proof. destruct l; [contradiction | reflexivity]. Qed.

Module Sections.
Import JsNumber Schema ApiClient Format Tools.

Section Rendering.

Variable shortest : number -> string.
Variable Date_parse : string -> option Z.
Variable toLocaleString : Z -> string.
Variable apiKey : string.

Let str := toString shortest.
Let searched_section (station : Station) : string :=
  markdown_of (searched_station_chunks shortest Date_parse toLocaleString station).



(** The text of a station search with entries. *)
Lemma search_results_text fetch query page limit response entries :
  weatherxmApiRequest fetch
    ("/stations/search?q=" ++ JsString.encodeURIComponent query
     ++ "&page=" ++ str (with_default (of_Z 1) page)
     ++ "&limit=" ++ str (with_default (of_Z 10) limit)) apiKey
  = Ok response ->
  result_stations (results response) = Value entries ->
  entries <> [] ->
  search_weather_stations shortest Date_parse toLocaleString apiKey
                          fetch query page limit
  = ("# Weather Station Search Results" ++ nl ++ nl)
    ++ ("Query: " ++ quote ++ query ++ quote ++ nl)
    ++ ("Found " ++ str (total (results response)) ++ " total stations" ++ nl)
    ++ ("Page " ++ str (Schema.page (results response)) ++ " of "
        ++ str (Math_ceil (div (total (results response))
                               (Schema.limit (results response))))
        ++ nl ++ nl)
    ++ markdown_of (map searched_section entries).
Proof.
  intros Hreq Hfield Hne.
  unfold search_weather_stations. cbv zeta. fold str. rewrite Hreq.
  unfold bind. cbv beta iota zeta. rewrite Hfield. simpl or_empty.
  rewrite (length_eqb_cons _ Hne). unfold tool.
  rewrite sections_listed, markdown_of_four.
  now rewrite !append_assoc.
Qed.


(** X11.  In the text of a station search, the number of pages is the
    quotient of the total by the page size of the response, rounded up:
    exactly so for a total of up to 100 results and a size from 1 to 50;
    with a size of zero it is Infinity, or NaN when the total is zero
    too. *)
Theorem search_page_count :
  forall fetch query page limit response entries (total size : Z),
    weatherxmApiRequest fetch
      ("/stations/search?q=" ++ JsString.encodeURIComponent query
       ++ "&page=" ++ str (with_default (of_Z 1) page)
       ++ "&limit=" ++ str (with_default (of_Z 10) limit)) apiKey
    = Ok response ->
    result_stations (results response) = Value entries ->
    entries <> [] ->
    Schema.total (results response) = of_Z total ->
    Schema.limit (results response) = of_Z size ->
    let text := search_weather_stations shortest Date_parse toLocaleString
                                        apiKey fetch query page limit in
    let pages_line (count : string) :=
      "Page " ++ str (Schema.page (results response)) ++ " of " ++ count
      ++ nl ++ nl in
    (0 <= total <= 100 -> 1 <= size <= 50 ->
     JsString.occurs_in
       (pages_line (JsString.of_Z ((total + size - 1) / size))) text)
    /\ (0 < total < 2 ^ 53 -> size = 0 ->
        JsString.occurs_in (pages_line "Infinity") text)
    /\ (total = 0 -> size = 0 -> JsString.occurs_in (pages_line "NaN") text).
Proof.
  intros fetch query page limit response entries total size
         Hreq Hfield Hne Htotal Hsize text pages_line.
  pose proof (search_results_text fetch query page limit response entries
                Hreq Hfield Hne) as Htext.
  fold text in Htext. rewrite Htotal, Hsize in Htext.
  assert (Hline : forall count,
             str (Math_ceil (div (of_Z total) (of_Z size))) = count ->
             JsString.occurs_in (pages_line count) text).
  { intros count Hcount. rewrite Htext, Hcount.
    do 3 apply occurs_after.
    exists "", (markdown_of (map searched_section entries)).
    reflexivity. }
  split; [| split].
  - intros Ht Hs. apply Hline.
    pose proof (TableFacts.pages_at shortest total size Ht Hs) as H.
    exact H.
  - intros Ht ->. apply Hline.
    destruct total as [| m | m]; try lia.
    destruct (IntegerFacts.binary_round_small false m ltac:(lia))
      as (m' & e & Hm & _).
    unfold of_Z at 1. unfold binary_normalize. rewrite Hm. reflexivity.
  - intros -> ->. apply Hline. reflexivity.
Qed.

End Rendering.

End Sections.

(** ** The handlers: the request each one makes *)

Lemma request_same_answer {A : Type} (apiKey endpoint : string)
      (f g : ApiClient.Fetch A) :
  Exchange.same_answer apiKey endpoint f g ->
  ApiClient.weatherxmApiRequest f endpoint apiKey
  = ApiClient.weatherxmApiRequest g endpoint apiKey.
Proof.
  unfold Exchange.same_answer, ApiClient.weatherxmApiRequest,
    ApiClient.request_attempt.
  intros ->. reflexivity.
Qed.

Lemma integral_default (shortest : JsNumber.number -> string)
      (default : Z) (arg : option Z) :
  Z.abs (with_default default arg) < 2 ^ 53 ->
  JsNumber.toString shortest
    (with_default (JsNumber.of_Z default) (Exchange.integral arg))
  = JsString.of_Z (with_default default arg).
Proof.
  intros H. destruct arg as [n |]; simpl in *;
    now apply IntegerFacts.toString_of_Z.
Qed.

Module Requests.
Import JsNumber Schema ApiClient Format Tools Exchange.

Section Server.

Variable shortest : number -> string.
Variable Date_parse : string -> option Z.
Variable toLocaleString : Z -> string.
Variable getTimezoneOffset : Z -> Z.
Variable now : Z.
Variable apiKey : string.

Let str := toString shortest.

(** X9.  The text of a handler depends on the network only through
    the answer to one request, with the three headers of the client:
    /stations/ID/latest for the current weather, the health and the
    local time; the forecast, historical, alerts, stations and cells
    endpoints with the arguments of the call.  The station id and the
    dates are copied as they are; an integral number of hours, days or
    kilometres is written with its decimal digits whatever its size, and
    an omitted one is 48 hours, 7 days or 50 kilometres. *)
Theorem handlers_request_one_endpoint :
  (forall f g station_id,
      same_answer apiKey ("/stations/" ++ station_id ++ "/latest") f g ->
      get_current_weather shortest Date_parse toLocaleString now apiKey
                          f station_id
      = get_current_weather shortest Date_parse toLocaleString now apiKey
                            g station_id
      /\ get_station_health shortest Date_parse toLocaleString apiKey
                            f station_id
         = get_station_health shortest Date_parse toLocaleString apiKey
                              g station_id
      /\ get_station_local_time shortest Date_parse toLocaleString
                                getTimezoneOffset now apiKey f station_id
         = get_station_local_time shortest Date_parse toLocaleString
                                  getTimezoneOffset now apiKey g station_id)
  /\ (forall f g station_id hours,
         Z.abs (with_default 48 hours) < 2 ^ 53 ->
         same_answer apiKey
           ("/stations/" ++ station_id ++ "/forecast/hourly?hours="
            ++ JsString.of_Z (with_default 48 hours)) f g ->
         get_hourly_forecast shortest Date_parse toLocaleString apiKey
                             f station_id (integral hours)
         = get_hourly_forecast shortest Date_parse toLocaleString apiKey
                               g station_id (integral hours))
  /\ (forall f g station_id days,
         Z.abs (with_default 7 days) < 2 ^ 53 ->
         same_answer apiKey
           ("/stations/" ++ station_id ++ "/forecast/daily?days="
            ++ JsString.of_Z (with_default 7 days)) f g ->
         get_daily_forecast shortest Date_parse toLocaleString apiKey
                            f station_id (integral days)
         = get_daily_forecast shortest Date_parse toLocaleString apiKey
                              g station_id (integral days))
  /\ (forall f g station_id start_date end_date,
         same_answer apiKey
           ("/stations/" ++ station_id ++ "/historical?start=" ++ start_date
            ++ "&end=" ++ end_date) f g ->
         get_historical_weather shortest Date_parse toLocaleString apiKey
                                f station_id start_date end_date
         = get_historical_weather shortest Date_parse toLocaleString apiKey
                                  g station_id start_date end_date)
  /\ (forall f g latitude longitude,
         same_answer apiKey
           ("/alerts?lat=" ++ str latitude ++ "&lon=" ++ str longitude) f g ->
         get_weather_alerts shortest Date_parse toLocaleString apiKey
                            f latitude longitude
         = get_weather_alerts shortest Date_parse toLocaleString apiKey
                              g latitude longitude)
  /\ (forall f g latitude longitude radius,
         Z.abs (with_default 50 radius) < 2 ^ 53 ->
         same_answer apiKey
           ("/stations?lat=" ++ str latitude ++ "&lon=" ++ str longitude
            ++ "&radius=" ++ JsString.of_Z (with_default 50 radius)) f g ->
         find_weather_stations shortest Date_parse toLocaleString apiKey
                               f latitude longitude (integral radius)
         = find_weather_stations shortest Date_parse toLocaleString apiKey
                                 g latitude longitude (integral radius))
  /\ (forall f g latitude longitude radius,
         Z.abs (with_default 50 radius) < 2 ^ 53 ->
         same_answer apiKey
           ("/cells?lat=" ++ str latitude ++ "&lon=" ++ str longitude
            ++ "&radius=" ++ JsString.of_Z (with_default 50 radius)) f g ->
         get_weather_cells shortest apiKey f latitude longitude (integral radius)
         = get_weather_cells shortest apiKey
                             g latitude longitude (integral radius)).
Proof.
  split; [| split; [| split; [| split; [| split; [| split]]]]].
  - intros f g station_id Hsame. apply request_same_answer in Hsame.
    unfold get_current_weather, get_station_health, get_station_local_time.
    rewrite Hsame. repeat split.
  - intros f g station_id hours Hn Hsame. apply request_same_answer in Hsame.
    unfold get_hourly_forecast. cbv zeta.
    rewrite (integral_default shortest 48 hours Hn), Hsame. reflexivity.
  - intros f g station_id days Hn Hsame. apply request_same_answer in Hsame.
    unfold get_daily_forecast. cbv zeta.
    rewrite (integral_default shortest 7 days Hn), Hsame. reflexivity.
  - intros f g station_id start_date end_date Hsame.
    apply request_same_answer in Hsame.
    unfold get_historical_weather. rewrite Hsame. reflexivity.
  - intros f g latitude longitude Hsame. apply request_same_answer in Hsame.
    unfold get_weather_alerts. fold str. rewrite Hsame. reflexivity.
  - intros f g latitude longitude radius Hn Hsame.
    apply request_same_answer in Hsame.
    unfold find_weather_stations. cbv zeta. fold str.
    pose proof (integral_default shortest 50 radius Hn) as Hr. fold str in Hr.
    rewrite Hr, Hsame. reflexivity.
  - intros f g latitude longitude radius Hn Hsame.
    apply request_same_answer in Hsame.
    unfold get_weather_cells. cbv zeta. fold str.
    pose proof (integral_default shortest 50 radius Hn) as Hr. fold str in Hr.
    rewrite Hr, Hsame. reflexivity.
Qed.

End Server.

End Requests.

(** ** The station search: the query in the URL *)

Module QueryEncoding.
Import JsString Exchange.

Lemma list_ascii_app (a b : string) :
  list_ascii_of_string (a ++ b)
  = (list_ascii_of_string a ++ list_ascii_of_string b)%list.
Proof.
  induction a as [| c a IH]; simpl; [reflexivity | now rewrite IH].
Qed.

Lemma hex_digit_unreserved (n : N) : uri_unreserved (hex_digit n) = true.
Proof.
  destruct n as [| [[[[p | p |] | [p | p |] |] | [[p | p |] | [p | p |] |] |]
                    | [[[p | p |] | [p | p |] |] | [[p | p |] | [p | p |] |] |] |]];
    reflexivity.
Qed.

(** The escaped text is made of unreserved characters and of percent
    signs. *)
Lemma encoded_alphabet (s : string) :
  Forall (fun c => uri_unreserved c = true \/ c = "%"%char)
         (list_ascii_of_string (encodeURIComponent s)).
Proof.
  induction s as [| c s IH]; [constructor |].
  simpl encodeURIComponent. rewrite list_ascii_app. apply Forall_app. split.
  - destruct (uri_unreserved c) eqn:Hc; simpl.
    + constructor; [now left | constructor].
    + apply Forall_cons; [now right |].
      apply Forall_cons; [left; apply hex_digit_unreserved |].
      apply Forall_cons; [left; apply hex_digit_unreserved | constructor].
  - exact IH.
Qed.

(** The value of a hexadecimal digit. *)
Lemma hex_digit_injective (a b : N) :
  (a < 16)%N -> (b < 16)%N -> hex_digit a = hex_digit b -> a = b.
Proof.
  intros Ha Hb.
  assert (Hcases : forall n, (n < 16)%N ->
             In n [0; 1; 2; 3; 4; 5; 6; 7; 8; 9; 10; 11; 12; 13; 14; 15]%N).
  { intros n Hn.
    destruct n as [| [[[[p | p |] | [p | p |] |] | [[p | p |] | [p | p |] |] |]
                      | [[[p | p |] | [p | p |] |] | [[p | p |] | [p | p |] |] |] |]];
      try (exfalso; lia); simpl; tauto. }
  pose proof (Hcases a Ha) as Ia. pose proof (Hcases b Hb) as Ib.
  simpl in Ia, Ib.
  repeat (destruct Ia as [<- | Ia]; [| ]);
    try contradiction;
    repeat (destruct Ib as [<- | Ib]; [| ]);
    try contradiction; intros H; try reflexivity; discriminate H.
Qed.

Lemma byte_below_256 (c : ascii) : (N_of_ascii c < 256)%N.
Proof. apply N_ascii_bounded. Qed.

Lemma escape_injective (c d : ascii) :
  hex_digit (N_of_ascii c / 16) = hex_digit (N_of_ascii d / 16) ->
  hex_digit (N_of_ascii c mod 16) = hex_digit (N_of_ascii d mod 16) ->
  c = d.
Proof.
  intros Hhi Hlo.
  pose proof (byte_below_256 c) as Hc. pose proof (byte_below_256 d) as Hd.
  apply hex_digit_injective in Hhi;
    [| apply N.Div0.div_lt_upper_bound; lia
     | apply N.Div0.div_lt_upper_bound; lia].
  apply hex_digit_injective in Hlo;
    [| apply N.mod_lt; lia | apply N.mod_lt; lia].
  assert (Hn : N_of_ascii c = N_of_ascii d).
  { rewrite (N.div_mod (N_of_ascii c) 16), (N.div_mod (N_of_ascii d) 16) by lia.
    now rewrite Hhi, Hlo. }
  rewrite <- (ascii_N_embedding c), <- (ascii_N_embedding d). now rewrite Hn.
Qed.

(** Distinct texts have distinct escaped forms. *)
Lemma encode_injective (s t : string) :
  encodeURIComponent s = encodeURIComponent t -> s = t.
Proof.
  revert t. induction s as [| c s IH]; intros [| d t]; simpl.
  - reflexivity.
  - destruct (uri_unreserved d); discriminate.
  - destruct (uri_unreserved c); discriminate.
  - destruct (uri_unreserved c) eqn:Hc, (uri_unreserved d) eqn:Hd; simpl;
      intros H.
    + injection H as -> H. f_equal. now apply IH.
    + injection H as -> _. discriminate Hc.
    + injection H as <- _. discriminate Hd.
    + injection H as Hhi Hlo H. f_equal; [| now apply IH].
      now apply escape_injective.
Qed.

End QueryEncoding.

Module StationSearch.
Import JsNumber Schema ApiClient Format Tools Exchange.

Section Server.

Variable shortest : number -> string.
Variable Date_parse : string -> option Z.
Variable toLocaleString : Z -> string.
Variable apiKey : string.

(** X10.  The station search makes one request, to
    /stations/search?q=Q&page=P&limit=L, where P and L are the decimal
    digits of the integral page and limit of the call (1 and 10 when
    omitted) and Q is the escaped query: Q is made of unreserved
    characters and percent escapes only, so that no delimiter of the query
    reaches the URL, and distinct queries give distinct Q. *)
Theorem search_query_is_escaped :
  forall (query : string) (page limit : option Z),
    Z.abs (with_default 1 page) < 2 ^ 53 ->
    Z.abs (with_default 10 limit) < 2 ^ 53 ->
    let Q := JsString.encodeURIComponent query in
    (forall f g,
        same_answer apiKey
          ("/stations/search?q=" ++ Q
           ++ "&page=" ++ JsString.of_Z (with_default 1 page)
           ++ "&limit=" ++ JsString.of_Z (with_default 10 limit)) f g ->
        search_weather_stations shortest Date_parse toLocaleString apiKey
                                f query (integral page) (integral limit)
        = search_weather_stations shortest Date_parse toLocaleString apiKey
                                  g query (integral page) (integral limit))
    /\ Forall (fun c => JsString.uri_unreserved c = true \/ c = "%"%char)
              (list_ascii_of_string Q)
    /\ (forall c, In c delimiters -> ~ In c (list_ascii_of_string Q))
    /\ (forall other, JsString.encodeURIComponent other = Q -> other = query).
Proof.
  intros query page limit Hp Hl Q. split; [| split; [| split]].
  - intros f g Hsame. apply request_same_answer in Hsame.
    unfold search_weather_stations. cbv zeta.
    rewrite (integral_default shortest 1 page Hp),
      (integral_default shortest 10 limit Hl).
    fold Q. rewrite Hsame. reflexivity.
  - apply QueryEncoding.encoded_alphabet.
  - intros c Hc Hin.
    pose proof (QueryEncoding.encoded_alphabet query) as Hall.
    rewrite Forall_forall in Hall. unfold delimiters in Hc. simpl in Hc.
    destruct (Hall c Hin) as [Hu | ->].
    + repeat (destruct Hc as [<- | Hc]; [discriminate Hu |]). exact Hc.
    + repeat (destruct Hc as [Hc | Hc]; [discriminate Hc |]). exact Hc.
  - intros other H. now apply QueryEncoding.encode_injective.
Qed.

End Server.

End StationSearch.

(** ** Conversions of readings given in tenths *)

Module Conversions.
Import JsNumber Schema Format Tools WindTable Tables TableFacts.

Section Host.

Variable shortest : number -> string.

(** X14.  For a temperature of [t] tenths of a degree Celsius between
    -90.0 and 60.0, the text shows the reading itself with one decimal and,
    before it, a Fahrenheit value [n / 10] within 0.05 of the exact
    [(18 t + 3200) / 100], with the minus sign of the exact value. *)
Theorem fahrenheit_within_half_a_tenth :
  forall t : Z,
    -900 <= t <= 600 ->
    exists n : Z,
      0 <= n
      /\ Z.abs (10 * n - Z.abs (18 * t + 3200)) <= 5
      /\ formatTemperature shortest (lit t 10)
         = decimal (18 * t + 3200 <? 0) n 1 ++ "°F ("
           ++ decimal (t <? 0) (Z.abs t) 1 ++ "°C)".
Proof.
  intros t Ht.
  pose proof (table_at (temperature_ok shortest) 1501 (-900) t
                (temperature_table shortest) ltac:(simpl; lia)) as H.
  apply nearby_found in H. destruct H as (n & Htext & Hnear).
  unfold temperature_near in Hnear. apply andb_prop in Hnear.
  destruct Hnear as [H0 H5]. apply Z.leb_le in H0, H5.
  exists n. repeat split; try assumption.
Qed.

(** X15.  For a reading given in tenths of its unit, each converted
    value is shown within half a unit of its last decimal of the exact
    one: miles per hour [2237 t / 10000] with one decimal for a wind of up
    to 100 m/s, inches of mercury [2953 t / 1000000] with two decimals
    for a pressure from 870 to 1085 hPa, inches [t / 254] with two decimals
    for up to 200 mm of precipitation. *)
Theorem conversions_within_half_a_unit :
  (forall t, 0 <= t <= 1000 ->
     exists n, 0 <= n /\ Z.abs (1000 * n - 2237 * t) <= 500
               /\ formatWindSpeed shortest (lit t 10)
                  = fixed_digits n 1 ++ " mph")
  /\ (forall t, 8700 <= t <= 10850 ->
        exists n, 0 <= n /\ Z.abs (10000 * n - 2953 * t) <= 5000
                  /\ formatPressure shortest (lit t 10)
                     = fixed_digits n 2 ++ " inHg")
  /\ (forall t, 0 <= t <= 2000 ->
        exists n, 0 <= n /\ Z.abs (254 * n - 100 * t) <= 127
                  /\ formatPrecipitation shortest (lit t 10)
                     = fixed_digits n 2 ++ " in").
Proof.
  split; [| split]; intros t Ht.
  - pose proof (table_at (wind_ok shortest) 1001 0 t (wind_table shortest)
                  ltac:(simpl; lia)) as H.
    apply nearby_found in H. destruct H as (n & Htext & Hnear).
    apply andb_prop in Hnear. destruct Hnear as [H0 H5].
    apply Z.leb_le in H0, H5. now exists n.
  - pose proof (table_at (pressure_ok shortest) 2151 8700 t
                  (pressure_table shortest) ltac:(simpl; lia)) as H.
    apply nearby_found in H. destruct H as (n & Htext & Hnear).
    apply andb_prop in Hnear. destruct Hnear as [H0 H5].
    apply Z.leb_le in H0, H5. now exists n.
  - pose proof (table_at (precipitation_ok shortest) 2001 0 t
                  (precipitation_table shortest) ltac:(simpl; lia)) as H.
    apply nearby_found in H. destruct H as (n & Htext & Hnear).
    apply andb_prop in Hnear. destruct Hnear as [H0 H5].
    apply Z.leb_le in H0, H5. now exists n.
Qed.

Variable Date_parse : string -> option Z.
Variable toLocaleString : Z -> string.
Variable now : Z.
Variable apiKey : string.

(** X16.  For a data-quality score of [k] hundredths, from 0.00 to
    1.00, the text of get_station_health shows [k] as the percentage and
    ends with the assessment of the tier of [k]: excellent from 80, good
    from 60, fair from 40, poor below; the text of get_current_weather
    ends with the same percentage. *)
Theorem quality_percent_and_tier :
  forall (k : Z) (fetch : ApiClient.Fetch WeatherXMLatestResponse)
         (station_id : string) (data : WeatherXMLatestResponse),
    0 <= k <= 100 ->
    ApiClient.weatherxmApiRequest fetch ("/stations/" ++ station_id ++ "/latest")
                                  apiKey = Ok data ->
    dq_score (data_quality (health data)) = lit k 100 ->
    let assessment :=
      if 80 <=? k then "Excellent data quality"
      else if 60 <=? k then "Good data quality"
      else if 40 <=? k then "Fair data quality"
      else "Poor data quality - use with caution" in
    get_station_health shortest Date_parse toLocaleString apiKey fetch station_id
    = "# Station Health - " ++ station_id ++ nl ++ nl
      ++ "**Location:** " ++ toFixed shortest (lat (location data)) 4 ++ ", "
      ++ toFixed shortest (lon (location data)) 4 ++ nl
      ++ "**Elevation:** " ++ toString shortest (elevation (location data))
      ++ "m" ++ nl ++ nl
      ++ "**Health Check:** "
      ++ formatLocalTime Date_parse toLocaleString
                         (health_timestamp (health data)) ++ nl ++ nl
      ++ "**Data Quality Score:** " ++ JsString.of_Z k ++ "%" ++ nl
      ++ "**Location Quality Score:** "
      ++ toFixed shortest
                 (mul (lq_score (location_quality (health data))) (of_Z 100)) 0
      ++ "%" ++ nl
      ++ "**Location Quality Reason:** "
      ++ lq_reason (location_quality (health data)) ++ nl ++ nl
      ++ "**Overall Assessment:** " ++ assessment ++ nl
    /\ exists before,
        get_current_weather shortest Date_parse toLocaleString now apiKey
                            fetch station_id
        = before ++ nl ++ "**Data Quality Score:** " ++ JsString.of_Z k ++ "%"
          ++ nl.
Proof.
  intros k fetch station_id data Hk Hreq Hscore assessment.
  pose proof (table_at (quality_ok shortest) 101 0 k (quality_table shortest)
                ltac:(simpl; lia)) as H.
  apply andb_prop in H. destruct H as [Hpercent Htier].
  apply String.eqb_eq in Hpercent, Htier.
  assert (Hassessment : tier k = "**Overall Assessment:** " ++ assessment ++ nl).
  { unfold tier, assessment.
    destruct (80 <=? k); [reflexivity |].
    destruct (60 <=? k); [reflexivity |].
    destruct (40 <=? k); reflexivity. }
  split.
  - unfold get_station_health. rewrite Hreq. unfold bind, tool.
    unfold station_health_chunks. cbv zeta.
    rewrite Hscore, Hpercent, Htier, Hassessment.
    rewrite !markdown_of_cons, !append_assoc. reflexivity.
  - unfold get_current_weather. rewrite Hreq. unfold bind, tool.
    unfold current_weather_chunks. cbv zeta.
    rewrite !markdown_of_app. unfold data_quality_line.
    rewrite Hscore, Hpercent. rewrite <- !append_assoc.
    eexists. rewrite markdown_of_cons. change (markdown_of []) with "".
    rewrite append_nil_r, <- !append_assoc. reflexivity.
Qed.

End Host.

End Conversions.

(** ** Icons *)

Module Icons.
Import Format.

Lemma lookup_none (key : string) (m : list (string * string)) :
  lookup key m = None <-> ~ In key (map fst m).
Proof.
  induction m as [| [k v] m IH]; simpl.
  - tauto.
  - destruct (String.eqb_spec k key) as [-> | Hne].
    + split; [discriminate | intros H; elim H; now left].
    + rewrite IH. tauto.
Qed.

Lemma lookup_some (key v : string) (m : list (string * string)) :
  lookup key m = Some v -> In (key, v) m.
Proof.
  induction m as [| [k w] m IH]; simpl; [discriminate |].
  destruct (String.eqb_spec k key) as [-> | Hne].
  - intros H. injection H as ->. now left.
  - intros H. right. now apply IH.
Qed.

(** With distinct keys, the entry found is the only one of its key. *)
Lemma lookup_in (key v : string) (m : list (string * string)) :
  NoDup (map fst m) -> In (key, v) m -> lookup key m = Some v.
Proof.
  induction m as [| [k w] m IH]; simpl; [contradiction |].
  intros Hnd Hin. inversion Hnd as [| ? ? Hk Hrest]; subst.
  destruct (String.eqb_spec k key) as [-> | Hne].
  - destruct Hin as [H | H]; [now injection H as -> |].
    elim Hk. change key with (fst (key, v)). now apply in_map.
  - destruct Hin as [H | H]; [injection H as -> _; now elim Hne |].
    now apply IH.
Qed.

(** The names of the table and the inherited names are all distinct. *)
Lemma names_distinct : NoDup (map fst (iconMap ++ Object_prototype)%list).
Proof.
  unfold iconMap, Object_prototype. simpl.
  repeat (constructor;
          [simpl; intros H;
           repeat (destruct H as [H | H]; [discriminate H |]); exact H |]).
  constructor.
Qed.

Lemma lookup_app (key : string) (m1 m2 : list (string * string)) :
  lookup key (m1 ++ m2)%list
  = match lookup key m1 with
    | Some v => Some v
    | None => lookup key m2
    end.
Proof.
  induction m1 as [| [k v] m1 IH]; simpl; [reflexivity |].
  destruct (String.eqb k key); [reflexivity | exact IH].
Qed.

(** The description is what is found under the name among the own and
    then the inherited members. *)
Lemma description_lookup (icon : string) :
  getWeatherIconDescription icon
  = match lookup icon (iconMap ++ Object_prototype)%list with
    | Some text => text
    | None => "Unknown"
    end.
Proof.
  unfold getWeatherIconDescription. rewrite lookup_app.
  destruct (lookup icon iconMap); reflexivity.
Qed.

Lemma no_text_is_unknown (text : string) :
  In text (map snd (iconMap ++ Object_prototype)%list) -> text <> "Unknown".
Proof.
  unfold iconMap, Object_prototype. simpl. intros H.
  repeat (destruct H as [<- | H]; [discriminate |]). contradiction.
Qed.

(** X17.  The description of an icon is the label stored under that
    name in the table of eleven names; for one of the twelve names that
    the table, a plain object, inherits, it is the text of the inherited
    member, since that member is truthy; it is "Unknown" exactly for
    every other name.  Names are compared as they are written. *)
Theorem icon_description_of_name :
  forall icon : string,
    (forall label, In (icon, label) iconMap ->
                   getWeatherIconDescription icon = label)
    /\ (forall member, In (icon, member) Object_prototype ->
                       getWeatherIconDescription icon = member
                       /\ getWeatherIconDescription icon <> "Unknown")
    /\ (getWeatherIconDescription icon = "Unknown"
        <-> ~ In icon (map fst iconMap)
            /\ ~ In icon (map fst Object_prototype))
    /\ List.length iconMap = 11%nat
    /\ List.length Object_prototype = 12%nat
    /\ NoDup (map fst (iconMap ++ Object_prototype)%list).
Proof.
  intros icon. split; [| split; [| split; [| split; [| split]]]].
  - intros label Hin. rewrite description_lookup.
    rewrite (lookup_in icon label _ names_distinct); [reflexivity |].
    apply in_or_app. now left.
  - intros member Hin.
    assert (Hdesc : getWeatherIconDescription icon = member).
    { rewrite description_lookup.
      rewrite (lookup_in icon member _ names_distinct); [reflexivity |].
      apply in_or_app. now right. }
    split; [exact Hdesc |]. rewrite Hdesc. apply no_text_is_unknown.
    change member with (snd (icon, member)). apply in_map.
    apply in_or_app. now right.
  - rewrite description_lookup.
    destruct (lookup icon (iconMap ++ Object_prototype)%list) as [text |] eqn:E.
    + apply lookup_some in E. split.
      * intros ->. exfalso.
        apply (no_text_is_unknown "Unknown"); [| reflexivity].
        change "Unknown" with (snd (icon, "Unknown")). now apply in_map.
      * intros [Hown Hinherited]. exfalso.
        apply in_app_or in E. destruct E as [E | E].
        -- apply Hown. change icon with (fst (icon, text)). now apply in_map.
        -- apply Hinherited. change icon with (fst (icon, text)).
           now apply in_map.
    + apply lookup_none in E. rewrite map_app in E. split; [| reflexivity].
      intros _. split; intros H; apply E; apply in_or_app; tauto.
  - reflexivity.
  - reflexivity.
  - exact names_distinct.
Qed.

End Icons.

(** ** Elapsed time *)

Module Elapsed.
Import Format.

(** X18.  For an observation at least one minute old (and less than
    2^53 ms), the text is made of the whole minutes elapsed: below
    one hour their number, then the whole hours and the remaining
    minutes, which are left out when there are none; hours are not
    gathered into days.  A timestamp that is not a date gives
    "NaNh NaNm ago". *)
Theorem formatTimeAgo_whole_minutes :
  forall (Date_parse : string -> option Z) (now : Z) (timestamp : string),
    (Date_parse timestamp = None ->
     formatTimeAgo Date_parse now timestamp = "NaNh NaNm ago")
    /\ (forall observed,
           Date_parse timestamp = Some observed ->
           60000 <= now - observed < 2 ^ 53 ->
           let elapsed := (now - observed) / 60000 in
           let h := elapsed / 60 in
           let m := elapsed mod 60 in
           elapsed = 60 * h + m
           /\ 1 <= elapsed
           /\ 0 <= m < 60
           /\ formatTimeAgo Date_parse now timestamp
              = if elapsed <? 60 then JsString.of_Z elapsed ++ "m ago"
                else if m =? 0 then JsString.of_Z h ++ "h ago"
                     else JsString.of_Z h ++ "h " ++ JsString.of_Z m ++ "m ago").
Proof.
  intros Date_parse now timestamp. split.
  - intros Hparse. unfold formatTimeAgo. now rewrite Hparse.
  - intros observed Hparse Hage elapsed h m.
    assert (H1 : 1 <= elapsed)
      by (unfold elapsed; apply Z.div_le_lower_bound; lia).
    pose proof (Z.div_mod elapsed 60 ltac:(lia)) as Hdm.
    pose proof (Z.mod_pos_bound elapsed 60 ltac:(lia)) as Hm.
    fold h m in Hdm, Hm.
    split; [exact Hdm |]. split; [exact H1 |]. split; [exact Hm |].
    unfold formatTimeAgo. rewrite Hparse. cbv zeta.
    change (1000 * 60) with 60000. fold elapsed.
    replace (elapsed <? 1) with false by (symmetry; apply Z.ltb_ge; lia).
    rewrite Z.rem_mod_nonneg by lia. fold h m. reflexivity.
Qed.

End Elapsed.

(** ** The local time of a station *)

Module StationTime.
Import JsNumber Schema ApiClient Format Tools.

Section Host.

Variable shortest : number -> string.
Variable Date_parse : string -> option Z.
Variable toLocaleString : Z -> string.
Variable getTimezoneOffset : Z -> Z.
Variable now : Z.
Variable apiKey : string.

(** X19.  The time shown for a station is the clock of the host moved
    by the zone offset the host has at the instant of the latest
    observation; the station enters only through that instant and through
    the coordinates repeated in the text.  Where the host has no offset
    the time shown is the clock of the host itself; a timestamp that is not
    a date, or a moved time out of the range of dates, gives
    "Invalid Date". *)
Theorem station_time_is_host_clock :
  forall fetch station_id data,
    weatherxmApiRequest fetch ("/stations/" ++ station_id ++ "/latest") apiKey
    = Ok data ->
    let text := get_station_local_time shortest Date_parse toLocaleString
                                       getTimezoneOffset now apiKey
                                       fetch station_id in
    let shown (time : string) :=
      "Current local time at station " ++ station_id ++ " ("
      ++ toFixed shortest (lat (location data)) 4 ++ ", "
      ++ toFixed shortest (lon (location data)) 4 ++ "): " ++ time in
    (Date_parse (timestamp (observation data)) = None ->
     text = shown "Invalid Date")
    /\ (forall observed,
           Date_parse (timestamp (observation data)) = Some observed ->
           let moved := now - getTimezoneOffset observed * 60 * 1000 in
           (Z.abs moved <= 8640000000000000 ->
            text = shown (toLocaleString moved))
           /\ (8640000000000000 < Z.abs moved -> text = shown "Invalid Date")
           /\ (getTimezoneOffset observed = 0 ->
               Z.abs now <= 8640000000000000 ->
               text = shown (toLocaleString now))).
Proof.
  intros fetch station_id data Hreq text shown.
  assert (Htext : text
                  = shown (date_toLocaleString toLocaleString
                             (station_local_time Date_parse getTimezoneOffset now
                                (timestamp (observation data))))).
  { unfold text, get_station_local_time. rewrite Hreq. reflexivity. }
  split.
  - intros Hparse. rewrite Htext. unfold station_local_time.
    now rewrite Hparse.
  - intros observed Hparse moved.
    assert (Hmoved : station_local_time Date_parse getTimezoneOffset now
                       (timestamp (observation data)) = TimeClip moved)
      by (unfold station_local_time; now rewrite Hparse).
    rewrite Hmoved in Htext. unfold TimeClip in Htext.
    split; [| split].
    + intros Hin. apply Z.leb_le in Hin. now rewrite Hin in Htext.
    + intros Hout. apply Z.leb_gt in Hout. now rewrite Hout in Htext.
    + intros Hzero Hin. assert (Hnow : moved = now) by (unfold moved; lia).
      rewrite Hnow in Htext. apply Z.leb_le in Hin. now rewrite Hin in Htext.
Qed.

End Host.

End StationTime.

(** ** The further properties at concrete inputs *)

Module FurtherInstances.
Import JsNumber Schema ApiClient Format Tools Scenario Fixtures Tables.

(** A body that begins with the word Prefetching. *)
Lemma unreadable_body_classified_by_message_witness :
  weatherxmApiRequest (A := unit) (respond text_body) "/stations/WXM1/latest" "key"
  = Throw (error_of_kind NetworkUnavailable).
Proof.
  exact (ClientOutcome.unreadable_body_classified_by_message unit
           (respond text_body) "/stations/WXM1/latest" "key" text_body
           (JsError ("Unexpected token 'P', " ++ Tools.quote ++ "Prefetchin"
                     ++ Tools.quote ++ "... is not valid JSON"))
           eq_refl eq_refl eq_refl).
Defined.

(** The connection error itself does not mention the word. *)
Lemma thrown_messages_lack_fetch_witness :
  JsString.includes
    "Unable to connect to WeatherXM service. Please check your internet connection."
    "fetch" = false.
Proof.
  exact (proj1 (ClientOutcome.thrown_messages_lack_fetch unit
                  (reject (JsError "fetch failed")) "/stations/WXM1/latest" "key")
               _ eq_refl).
Defined.

(** A body whose cells are null. *)
Lemma empty_listing_reports_none_witness :
  get_weather_cells shortest "key" (respond (ok_response {| cells := Null |}))
                    (of_Z 40) (of_Z (-74)) None
  = "No weather cells found within 50km of 40, -74".
Proof.
  exact (proj2 (proj2 (proj2 (proj2
           (Listings.empty_listing_reports_none
              shortest (parse_as 0) (print_as "Jan 1") "key"))))
           (respond (ok_response {| cells := Null |})) (of_Z 40) (of_Z (-74)) None
           {| cells := Null |} eq_refl (or_intror (or_introl eq_refl))).
Defined.



(** An ampersand in the query does not reach the URL. *)
Lemma search_query_is_escaped_witness :
  ~ In "&"%char (list_ascii_of_string (JsString.encodeURIComponent "fish & chips")).
Proof.
  exact (proj1 (proj2 (proj2
           (StationSearch.search_query_is_escaped
              shortest (parse_as 0) (print_as "Jan 1") "key"
              "fish & chips" None None eq_refl eq_refl)))
           "&"%char (or_introl eq_refl)).
Defined.

(** 25 results, 10 on a page: three pages. *)
Lemma search_page_count_witness :
  JsString.occurs_in
    ("Page 1 of 3" ++ nl ++ nl)
    (search_weather_stations shortest (parse_as 0) (print_as "Jan 1") "key"
       (respond (ok_response search_page)) "harbour" None None).
Proof.
  exact (proj1 (Sections.search_page_count
                  shortest (parse_as 0) (print_as "Jan 1") "key"
                  (respond (ok_response search_page)) "harbour" None None
                  search_page [harbour] 25 10
                  eq_refl eq_refl ltac:(discriminate) eq_refl eq_refl)
               ltac:(lia) ltac:(lia)).
Defined.

(** 11.25 degrees is the first direction labelled NNE. *)
Lemma wind_sector_of_quarter_degrees_witness :
  getWindDirection (quarters 45) = Some "NNE".
Proof.
  exact (proj1 (Sectors.wind_sector_of_quarter_degrees 45 ltac:(lia))).
Defined.

(** A direction of -180 degrees has no label. *)
Lemma wind_direction_undefined_witness :
  getWindDirection (quarters (-720)) = None.
Proof.
  exact (proj1 (proj2 (proj2
           (Sectors.wind_direction_undefined
              shortest (parse_as 0) (print_as "Jan 1") 0)))
           (-720) ltac:(lia)).
Defined.

(** 21.5 degrees Celsius. *)
Lemma fahrenheit_within_half_a_tenth_witness :
  exists n : Z,
    0 <= n
    /\ Z.abs (10 * n - Z.abs (18 * 215 + 3200)) <= 5
    /\ formatTemperature shortest (lit 215 10)
       = decimal (18 * 215 + 3200 <? 0) n 1 ++ "°F ("
         ++ decimal (215 <? 0) (Z.abs 215) 1 ++ "°C)".
Proof.
  exact (Conversions.fahrenheit_within_half_a_tenth shortest 215 ltac:(lia)).
Defined.

(** A wind of 10.0 metres per second. *)
Lemma conversions_within_half_a_unit_witness :
  exists n : Z,
    0 <= n /\ Z.abs (1000 * n - 2237 * 100) <= 500
    /\ formatWindSpeed shortest (lit 100 10) = fixed_digits n 1 ++ " mph".
Proof.
  exact (proj1 (Conversions.conversions_within_half_a_unit shortest)
               100 ltac:(lia)).
Defined.

(** The object [{}] in answer to get_station_health: the text begins
    with "Error: ". *)
Lemma error_prefix_marks_failure_witness :
  exists text,
    Unvalidated.get_station_health shortest (parse_as 0) (print_as "Jan 1")
      "key" declared_latest rendering_of_empty
      (respond (ok_response EmptyObject)) "WXM1" = Ok text
    /\ prefix "Error: " text = true.
Proof.
  exact (proj1 (proj2 (proj2 (proj2 (proj2 (proj2 (proj2 (proj2 (proj2
           (Listings.error_prefix_marks_failure
              shortest (parse_as 0) (print_as "Jan 1") (fun _ => 0) 0 "key"
              rendering_of_empty)))))))))
          declared_latest (respond (ok_response EmptyObject)) "WXM1").
Defined.

(** A score of 0.90. *)
Lemma quality_percent_and_tier_witness :
  get_station_health shortest (parse_as 0) (print_as "Jan 1") "key"
                     (respond (ok_response latest)) "WXM1"
  = "# Station Health - WXM1" ++ nl ++ nl
    ++ "**Location:** 40.7128, -74.0060" ++ nl
    ++ "**Elevation:** 12m" ++ nl ++ nl
    ++ "**Health Check:** Jan 1" ++ nl ++ nl
    ++ "**Data Quality Score:** 90%" ++ nl
    ++ "**Location Quality Score:** 50%" ++ nl
    ++ "**Location Quality Reason:** LOCATION_NOT_VERIFIED" ++ nl ++ nl
    ++ "**Overall Assessment:** Excellent data quality" ++ nl.
Proof.
  destruct (Conversions.quality_percent_and_tier
              shortest (parse_as 0) (print_as "Jan 1") 0 "key" 90
              (respond (ok_response latest)) "WXM1" latest
              ltac:(lia) eq_refl eq_refl) as (Htext & _).
  rewrite Htext. vm_compute. reflexivity.
Defined.

(** Two hours and five minutes. *)
Lemma formatTimeAgo_whole_minutes_witness :
  formatTimeAgo (parse_as 0) 7500000 "2024-01-01T00:00:00Z" = "2h 5m ago".
Proof.
  exact (proj2 (proj2 (proj2
           (proj2 (Elapsed.formatTimeAgo_whole_minutes
                     (parse_as 0) 7500000 "2024-01-01T00:00:00Z")
                  0 eq_refl ltac:(lia))))).
Defined.

(** A host two hours east of Greenwich, one hour after the epoch. *)
Lemma station_time_is_host_clock_witness :
  get_station_local_time shortest (parse_as 0) JsString.of_Z (fun _ => -120)
                         3600000 "key" (respond (ok_response latest)) "WXM1"
  = "Current local time at station WXM1 (40.7128, -74.0060): 10800000".
Proof.
  exact (proj1 (proj2 (StationTime.station_time_is_host_clock
                         shortest (parse_as 0) JsString.of_Z (fun _ => -120)
                         3600000 "key" (respond (ok_response latest)) "WXM1"
                         latest eq_refl)
                      0 eq_refl)
               ltac:(vm_compute; discriminate)).
Defined.

End FurtherInstances.
